(** * Gemma: bearings, courses, surveyor and cartographer

    A shallow embedding of the [gemma] package (src/gemma): the bearing
    classes of [_bearings.py], [Course] of [_course.py], [Compass] and
    [Surveyor] of [_compass.py] and [_surveyor.py], and [Cartographer] of
    [_cartogrpaher.py].

    Python objects live in an explicit heap: mutable containers and class
    instances are reached through references, so that a [place] on a target
    is seen by every holder of that target, as in the source.  Code that can
    raise runs in a state-and-exception monad over that heap. *)

From Stdlib Require Import ZArith String Ascii List Bool Lia.
From stdpp Require Import base list.
Import ListNotations.

Set Warnings "-register-all".
Local Open Scope string_scope.
Local Open Scope list_scope.

(** ** Python values *)

(** Immutable values are carried directly; lists, dicts and instances are
    references into the heap.  A bound method is the pair of its receiver and
    its name.  Sentinels are the module-level flag objects compared with
    [is] ([NO_DEFAULT], [Call.VALUE_ARG]). *)
Inductive val : Type :=
| VNone
| VBool (b : bool)
| VInt (z : Z)
| VStr (s : string)
| VTuple (items : list val)
| VRef (loc : nat)
| VMethod (self : val) (meth : string)
| VSentinel (tag : string).

(** Modelled from the spec: the constant [NO_DEFAULT] of the module
    [_flags], which is imported by [_course.py] and [_cartogrpaher.py] but
    is not among the sources.  It is the value of [default] that stands for
    "no default was supplied"; the code compares with it by identity. *)
Definition NO_DEFAULT : val := VSentinel "NO_DEFAULT".

(** [Call.VALUE_ARG = object()] *)
Definition VALUE_ARG : val := VSentinel "VALUE_ARG".

(** Heap objects.  [cls] is the name of the concrete type: ["list"] and
    ["dict"] for the built-in types, another name for a subclass of them. *)
Inductive obj : Type :=
| OList (cls : string) (items : list val)
| ODict (cls : string) (items : list (val * val))
| OInst (cls : string) (attrs : list (string * val)).

Abbreviation heap := (list obj).

(** [isinstance(v, int)]: [bool] is a subclass of [int]. *)
Definition as_int (v : val) : option Z :=
  match v with
  | VInt z => Some z
  | VBool b => Some (Z.b2z b)
  | _ => None
  end.

Definition is_int (v : val) : bool :=
  match as_int v with Some _ => true | None => false end.

Definition is_str (v : val) : bool :=
  match v with VStr _ => true | _ => false end.

(** [a is b] for the flag objects and [None]. *)
Definition is_sentinel (tag : string) (v : val) : bool :=
  match v with VSentinel t => String.eqb t tag | _ => false end.

Definition is_None (v : val) : bool :=
  match v with VNone => true | _ => false end.

(** Python [==] on the values of the model.  Numbers compare by value
    across [bool] and [int]; tuples compare item by item; instances, bound
    methods and flag objects compare by identity, which is what
    [object.__eq__] does.  Two limits of the model: [val] has no [float],
    so the one built-in value that differs from itself, [float('nan')], is
    not a value here; and a reference to a list or a dict is compared by
    identity as well, where Python compares the contents, so two distinct
    lists of equal items are unequal here.  Where a property of [==]
    between bearings rests on a name being equal to itself, it says so as
    a hypothesis. *)
Fixpoint py_eq (a b : val) : bool :=
  match a, b with
  | VNone, VNone => true
  | VBool x, VBool y => Bool.eqb x y
  | VBool x, VInt y => Z.eqb (Z.b2z x) y
  | VInt x, VBool y => Z.eqb x (Z.b2z y)
  | VInt x, VInt y => Z.eqb x y
  | VStr x, VStr y => String.eqb x y
  | VTuple xs, VTuple ys =>
      (fix go (xs ys : list val) {struct xs} : bool :=
         match xs, ys with
         | [], [] => true
         | x :: xs', y :: ys' => py_eq x y && go xs' ys'
         | _, _ => false
         end) xs ys
  | VRef x, VRef y => Nat.eqb x y
  | VMethod s m, VMethod s' m' => py_eq s s' && String.eqb m m'
  | VSentinel x, VSentinel y => String.eqb x y
  | _, _ => false
  end.


(** ** Bearings as data *)

(** The bearing classes.  [Custom n base] is a class named [n] declared as
    [class n(base)]: the extension [XElm] and the test classes [Alpha] and
    [Beta] are [Custom _ BearingAbstract]. *)
Inductive bclass : Type :=
| BearingAbstract
| Item
| Attr
| Call
| Fallback
| Custom (cname : string) (base : bclass).

Fixpoint bclass_eqb (c d : bclass) : bool :=
  match c, d with
  | BearingAbstract, BearingAbstract => true
  | Item, Item => true
  | Attr, Attr => true
  | Call, Call => true
  | Fallback, Fallback => true
  | Custom n b, Custom n' b' => String.eqb n n' && bclass_eqb b b'
  | _, _ => false
  end.

(** [issubclass(c, d)] *)
Fixpoint issubclass (c d : bclass) : bool :=
  bclass_eqb c d ||
  match c with
  | Custom _ base => issubclass base d
  | BearingAbstract => false
  | _ => bclass_eqb d BearingAbstract
  end.

(** [_BEARING_CLASSES] *)
Definition _BEARING_CLASSES : list bclass := [Item; Call; Attr].

(** A bearing object: [type(self)], [self._name], [self._factory] (the name
    of the factory type), the arguments of a [Call], and the
    [BEARING_CLASSES] a [Fallback] cycles through (the class attribute, or
    the instance attribute [bearing] loads). *)
Record Bearing : Type := mkBearing {
  b_type : bclass;
  name : val;
  factory_type : option string;
  _func_args : list val;
  _func_kwargs : list (string * val);
  BEARING_CLASSES : list bclass
}.

(** [Course._bearings] *)
Abbreviation Course := (list Bearing).

(** ** Exceptions and the monad *)

(** [NullNameError] carries the bearing whose [str] or [repr] is its
    message. *)
Inductive exn : Type :=
| NullNameError (origin : Bearing)
| NonNavigableError (target : val)
| SuppressedErrors (errors : list exn) (chart_partial : list (Course * val))
| TypeError
| ValueError
| KeyError
| IndexError
| AttributeError
| NotImplementedError
| OtherError (tag : string).

Inductive result (A : Type) : Type :=
| Ok (a : A)
| Raise (e : exn).

Arguments Ok {A} a.
Arguments Raise {A} e.

(** A computation reads and writes the heap and returns or raises; what it
    wrote before raising stays written. *)
Definition M (A : Type) : Type := heap -> result A * heap.

Definition ret {A} (a : A) : M A := fun h => (Ok a, h).

Definition raise {A} (e : exn) : M A := fun h => (Raise e, h).

Definition bind {A B} (m : M A) (k : A -> M B) : M B :=
  fun h =>
    match m h with
    | (Ok a, h') => k a h'
    | (Raise e, h') => (Raise e, h')
    end.

(** [try: m  except ...: handler]: [handler e] is [None] when no clause
    catches [e]. *)
Definition try_except {A} (m : M A) (handler : exn -> option (M A)) : M A :=
  fun h =>
    match m h with
    | (Ok a, h') => (Ok a, h')
    | (Raise e, h') =>
        match handler e with
        | Some k => k h'
        | None => (Raise e, h')
        end
    end.

Declare Scope py_scope.
Delimit Scope py_scope with py.
Notation "x <- m ;; k" := (bind m (fun x => k))
  (at level 100, m at next level, right associativity) : py_scope.
Notation "m ;;; k" := (bind m (fun _ => k))
  (at level 100, right associativity) : py_scope.
Local Open Scope py_scope.

Definition is_NullNameError (e : exn) : bool :=
  match e with NullNameError _ => true | _ => false end.

(** ** Classes of the program under mapping *)

(** What a class of the mapped data defines: [__getitem__] and
    [__setitem__] when it has them, its methods in the order of
    [type(target).__dict__], its constructor called without arguments, and
    whether its instances hash: [c_hash] is [false] for a class whose
    [__hash__] is [None], as [@dataclass] leaves it on a class it gives an
    [__eq__]. *)
Record pyclass : Type := {
  c_getitem : option (val -> val -> M val);
  c_setitem : option (val -> val -> val -> M unit);
  c_methods : list (string * (val -> list val -> list (string * val) -> M val));
  c_new : option (M val);
  c_hash : bool
}.

Definition builtin_type (cls : string) : bool :=
  String.eqb cls "list" || String.eqb cls "dict".

Fixpoint assoc {A} (k : string) (l : list (string * A)) : option A :=
  match l with
  | [] => None
  | (k', a) :: rest => if String.eqb k k' then Some a else assoc k rest
  end.

Fixpoint assoc_set {A} (k : string) (a : A) (l : list (string * A)) : list (string * A) :=
  match l with
  | [] => [(k, a)]
  | (k', a') :: rest =>
      if String.eqb k k' then (k', a) :: rest else (k', a') :: assoc_set k a rest
  end.

(** [d[k]] and [d[k] = v] on the items of a dict, in insertion order. *)
Fixpoint dict_find (k : val) (d : list (val * val)) : option val :=
  match d with
  | [] => None
  | (k', v) :: rest => if py_eq k' k then Some v else dict_find k rest
  end.

Fixpoint dict_set (k v : val) (d : list (val * val)) : list (val * val) :=
  match d with
  | [] => [(k, v)]
  | (k', v') :: rest =>
      if py_eq k' k then (k', v) :: rest else (k', v') :: dict_set k v rest
  end.

(** The position a sequence index denotes: negative indexes count from the
    end; [None] is [IndexError]. *)
Definition norm_index (len : nat) (i : Z) : option nat :=
  let j := if (i <? 0)%Z then (i + Z.of_nat len)%Z else i in
  if ((0 <=? j) && (j <? Z.of_nat len))%Z then Some (Z.to_nat j) else None.

Definition seq_getitem (items : list val) (idx : val) : result val :=
  match as_int idx with
  | None => Raise TypeError
  | Some i =>
      match norm_index (length items) i with
      | None => Raise IndexError
      | Some j =>
          match items !! j with
          | Some v => Ok v
          | None => Raise IndexError
          end
      end
  end.

Definition seq_setitem (items : list val) (idx v : val) : result (list val) :=
  match as_int idx with
  | None => Raise TypeError
  | Some i =>
      match norm_index (length items) i with
      | None => Raise IndexError
      | Some j => Ok (<[j := v]> items)
      end
  end.

Fixpoint string_chars (s : string) : list val :=
  match s with
  | EmptyString => []
  | String c rest => VStr (String c EmptyString) :: string_chars rest
  end.

Section Python.

(** The classes of the data being mapped: user classes and the methods of
    the built-in types that the program relies on. *)
Variable classes : string -> pyclass.

(** [hash(v)] succeeds: lists and dicts are unhashable, and so are the
    instances of their subclasses, which inherit [__hash__ = None] (a
    subclass that defines [__hash__] again is not modelled); an instance of
    another class is hashable unless its class sets [__hash__] to [None];
    a tuple is hashable when its items are; a bound method hashes by the
    identity of its receiver. *)
Fixpoint hashable (h : heap) (v : val) : bool :=
  match v with
  | VTuple items => forallb (hashable h) items
  | VRef l =>
      match h !! l with
      | Some (OInst cls _) => c_hash (classes cls)
      | _ => false
      end
  | _ => true
  end.

(** A subclass of [list] or [dict] may override item access; the built-in
    types themselves cannot be patched. *)
Definition getitem_override (cls : string) : option (val -> val -> M val) :=
  if builtin_type cls then None else c_getitem (classes cls).

Definition setitem_override (cls : string) : option (val -> val -> val -> M unit) :=
  if builtin_type cls then None else c_setitem (classes cls).

(** [target[key]] *)
Definition py_getitem (target key : val) : M val :=
  fun h =>
    match target with
    | VRef l =>
        match h !! l with
        | Some (OList cls items) =>
            match getitem_override cls with
            | Some f => f target key h
            | None => (seq_getitem items key, h)
            end
        | Some (ODict cls items) =>
            match getitem_override cls with
            | Some f => f target key h
            | None =>
                if hashable h key then
                  match dict_find key items with
                  | Some v => (Ok v, h)
                  | None => (Raise KeyError, h)
                  end
                else (Raise TypeError, h)
            end
        | Some (OInst cls _) =>
            match c_getitem (classes cls) with
            | Some f => f target key h
            | None => (Raise TypeError, h)
            end
        | None => (Raise (OtherError "dangling reference"), h)
        end
    | VTuple items => (seq_getitem items key, h)
    | VStr s => (seq_getitem (string_chars s) key, h)
    | _ => (Raise TypeError, h)
    end.

(** [target[key] = v] *)
Definition py_setitem (target key v : val) : M unit :=
  fun h =>
    match target with
    | VRef l =>
        match h !! l with
        | Some (OList cls items) =>
            match setitem_override cls with
            | Some f => f target key v h
            | None =>
                match seq_setitem items key v with
                | Ok items' => (Ok tt, <[l := OList cls items']> h)
                | Raise e => (Raise e, h)
                end
            end
        | Some (ODict cls items) =>
            match setitem_override cls with
            | Some f => f target key v h
            | None =>
                if hashable h key
                then (Ok tt, <[l := ODict cls (dict_set key v items)]> h)
                else (Raise TypeError, h)
            end
        | Some (OInst cls _) =>
            match c_setitem (classes cls) with
            | Some f => f target key v h
            | None => (Raise TypeError, h)
            end
        | None => (Raise (OtherError "dangling reference"), h)
        end
    | _ => (Raise TypeError, h)
    end.

(** [isinstance(target, List)] *)
Definition is_list (target : val) (h : heap) : bool :=
  match target with
  | VRef l => match h !! l with Some (OList _ _) => true | _ => false end
  | _ => false
  end.

(** [len(target)] of a list *)
Definition list_len (target : val) (h : heap) : nat :=
  match target with
  | VRef l => match h !! l with Some (OList _ items) => length items | _ => 0 end
  | _ => 0
  end.

(** [target.append(v)] of a list *)
Definition list_append (target v : val) : M unit :=
  fun h =>
    match target with
    | VRef l =>
        match h !! l with
        | Some (OList cls items) => (Ok tt, <[l := OList cls (items ++ [v])]> h)
        | _ => (Raise AttributeError, h)
        end
    | _ => (Raise AttributeError, h)
    end.


(** The instance dictionary [target.__dict__]; [None] for objects that have
    none (built-in containers and immutable values). *)
Definition instance_dict (target : val) (h : heap) : option (list (string * val)) :=
  match target with
  | VRef l => match h !! l with Some (OInst _ attrs) => Some attrs | _ => None end
  | _ => None
  end.

(** [type(target).__name__] *)
Definition type_name (target : val) (h : heap) : string :=
  match target with
  | VNone => "NoneType"
  | VBool _ => "bool"
  | VInt _ => "int"
  | VStr _ => "str"
  | VTuple _ => "tuple"
  | VMethod _ _ => "method"
  | VSentinel _ => "object"
  | VRef l =>
      match h !! l with
      | Some (OList cls _) => cls
      | Some (ODict cls _) => cls
      | Some (OInst cls _) => cls
      | None => "object"
      end
  end.

(** [getattr(target, attr)]: the instance dictionary first, then the
    methods of the type, which come back bound to [target].  The attributes
    of the model are those two kinds: the data attributes that a class or
    the interpreter gives every object ([__doc__], [__class__], a class-level
    default, ...) are not part of it, so a name of that kind is an
    [AttributeError] here where [getattr] finds it. *)
Definition py_getattr (target : val) (attr : string) : M val :=
  fun h =>
    let from_type :=
      match assoc attr (c_methods (classes (type_name target h))) with
      | Some _ => (Ok (VMethod target attr), h)
      | None => (Raise AttributeError, h)
      end in
    match instance_dict target h with
    | Some attrs =>
        match assoc attr attrs with
        | Some v => (Ok v, h)
        | None => from_type
        end
    | None => from_type
    end.

(** [setattr(target, attr, v)]: only instances take new attribute values. *)
Definition py_setattr (target : val) (attr : string) (v : val) : M unit :=
  fun h =>
    match target with
    | VRef l =>
        match h !! l with
        | Some (OInst cls attrs) => (Ok tt, <[l := OInst cls (assoc_set attr v attrs)]> h)
        | _ => (Raise AttributeError, h)
        end
    | _ => (Raise AttributeError, h)
    end.

(** [callable(v)] *)
Definition callable (v : val) : bool :=
  match v with VMethod _ _ => true | _ => false end.

(** [f( *args, **kwargs)] *)
Definition py_call (f : val) (args : list val) (kwargs : list (string * val)) : M val :=
  fun h =>
    match f with
    | VMethod self meth =>
        match assoc meth (c_methods (classes (type_name self h))) with
        | Some body => body self args kwargs h
        | None => (Raise AttributeError, h)
        end
    | _ => (Raise TypeError, h)
    end.

(** ** [Item] *)

(** [for i in range(n): target.append(None)] *)
Fixpoint append_nones (n : nat) (target : val) : M unit :=
  match n with
  | O => ret tt
  | S n' => list_append target VNone ;;; append_nones n' target
  end.

(** [Item.fetch] *)
Definition Item_fetch (self : Bearing) (target : val) : M val :=
  try_except (py_getitem target (name self))
    (fun e =>
       match e with
       | KeyError | IndexError => Some (raise (NullNameError self))
       | _ => None
       end).

(** [Item.place] *)
Definition Item_place (self : Bearing) (target value : val) : M unit :=
  try_except (py_setitem target (name self) value)
    (fun e =>
       match e with
       | KeyError => Some (raise (NullNameError self))
       | IndexError =>
           Some (fun h =>
             match is_list target h, as_int (name self) with
             | true, Some p =>
                 (append_nones (Z.to_nat (p + 1 - Z.of_nat (list_len target h))) target ;;;
                  py_setitem target (name self) value) h
             | _, _ => raise (NullNameError self) h
             end)
       | _ => None
       end).

(** ** [Attr] *)

(** [getattr(target, self.name)] with the [AttributeError] turned into
    [NullNameError]; an attribute name that is no [str] is a [TypeError]. *)
Definition getattr_or_null (self : Bearing) (target : val) : M val :=
  match name self with
  | VStr attr =>
      try_except (py_getattr target attr)
        (fun e =>
           match e with
           | AttributeError => Some (raise (NullNameError self))
           | _ => None
           end)
  | _ => raise TypeError
  end.

(** [Attr.fetch] *)
Definition Attr_fetch (self : Bearing) (target : val) : M val :=
  getattr_or_null self target.

(** [Attr.place] *)
Definition Attr_place (self : Bearing) (target value : val) : M unit :=
  attr <- getattr_or_null self target ;;
  if callable attr then raise TypeError
  else
    match name self with
    | VStr a => py_setattr target a value
    | _ => raise TypeError
    end.

(** ** [Call] *)

(** [Call.fetch] *)
Definition Call_fetch (self : Bearing) (target : val) : M val :=
  method <- getattr_or_null self target ;;
  py_call method (_func_args self) (_func_kwargs self).

(** [Call._replace_args] *)
Definition _replace_args (self : Bearing) (value : val)
  : list val * list (string * val) :=
  let in_kwargs := existsb (fun kv => is_sentinel "VALUE_ARG" (snd kv)) (_func_kwargs self) in
  let kwargs :=
    map (fun kv => if is_sentinel "VALUE_ARG" (snd kv) then (fst kv, value) else kv)
        (_func_kwargs self) in
  let in_args := existsb (is_sentinel "VALUE_ARG") (_func_args self) in
  let args :=
    map (fun arg => if is_sentinel "VALUE_ARG" arg then value else arg) (_func_args self) in
  if in_kwargs || in_args then (args, kwargs) else (value :: args, kwargs).

(** [Call.place] *)
Definition Call_place (self : Bearing) (target value : val) : M unit :=
  method <- getattr_or_null self target ;;
  let '(args, kwargs) := _replace_args self value in
  py_call method args kwargs ;;;
  ret tt.

(** ** Constructors *)

(** A bearing class defined outside the package (an extension or a user
    class): the name its constructor stores (or the exception it raises),
    its class attribute [BEARING_CLASSES] when it derives from [Fallback],
    its [fetch], its [place] (told whether [place_factory] was passed) and
    its [name_from_str]. *)
Record custom_bearing : Type := {
  cb_init : val -> result val;
  cb_classes : list bclass;
  cb_fetch : Bearing -> val -> M val;
  cb_place : Bearing -> val -> val -> bool -> M unit;
  cb_name_from_str : val -> result val
}.

Variable custom : string -> custom_bearing.

(** [cls(name, factory=factory)]: [BearingAbstract.__new__] checks [name]
    with [is_compatible] against [NAME_TYPES], which is [[str]] except for
    [Item] and [Fallback], where it is [[Any]]; the [__init__] of [Call]
    and of [Fallback] take no [factory]. *)
Definition new_bearing (cls : bclass) (nm : val) (factory : option string)
  : result Bearing :=
  match cls with
  | Item => Ok (mkBearing Item nm factory [] [] [])
  | Fallback =>
      match factory with
      | None => Ok (mkBearing Fallback nm None [] [] _BEARING_CLASSES)
      | Some _ => Raise TypeError
      end
  | Attr | BearingAbstract =>
      if is_str nm then Ok (mkBearing cls nm factory [] [] []) else Raise TypeError
  | Call =>
      if is_str nm then
        match factory with
        | None => Ok (mkBearing Call nm None [] [] [])
        | Some _ => Raise TypeError
        end
      else Raise TypeError
  | Custom n _ =>
      match cb_init (custom n) nm with
      | Ok nm' => Ok (mkBearing cls nm' factory [] [] (cb_classes (custom n)))
      | Raise e => Raise e
      end
  end.

(** [Call(name, func_args, func_kwargs)] *)
Definition new_Call (nm : val) (args : list val) (kwargs : list (string * val))
  : result Bearing :=
  if is_str nm then Ok (mkBearing Call nm None args kwargs []) else Raise TypeError.

(** [bearing_type(self)]: the cast of a bearing to another class keeps the
    name only. *)
Definition cast (cls : bclass) (self : Bearing) : result Bearing :=
  new_bearing cls (name self) None.

(** ** [Fallback] *)

(** [fetch] of a bearing that is no [Fallback]; [fallback] is what a
    [Fallback] does. *)
Definition fetch_with (fallback : Bearing -> val -> M val)
    (self : Bearing) (target : val) : M val :=
  match b_type self with
  | Item => Item_fetch self target
  | Attr => Attr_fetch self target
  | Call => Call_fetch self target
  | Fallback => fallback self target
  | BearingAbstract => raise NotImplementedError
  | Custom n _ => cb_fetch (custom n) self target
  end.

Definition place_with (fallback : Bearing -> val -> val -> M unit)
    (self : Bearing) (target value : val) (place_factory : bool) : M unit :=
  match b_type self with
  | Item => Item_place self target value
  | Attr => Attr_place self target value
  | Call => Call_place self target value
  | Fallback => fallback self target value
  | BearingAbstract => raise NotImplementedError
  | Custom n _ => cb_place (custom n) self target value place_factory
  end.

(** The exceptions the loops of [Fallback] swallow:
    [except (NullNameError, TypeError, ValueError): pass] *)
Definition swallowed (e : exn) : bool :=
  match e with
  | NullNameError _ | TypeError | ValueError => true
  | _ => false
  end.

(** The loop of [Fallback.fetch] over [self.BEARING_CLASSES]; [fetch_as] is
    the [fetch] of the cast bearing. *)
Fixpoint Fallback_fetch_loop (fetch_as : Bearing -> val -> M val)
    (self : Bearing) (bearing_classes : list bclass) (target : val) : M val :=
  match bearing_classes with
  | [] => raise (NullNameError self)
  | bearing_type :: rest =>
      match cast bearing_type self with
      | Raise TypeError => Fallback_fetch_loop fetch_as self rest target
      | Raise e => raise e
      | Ok cast_bearing =>
          try_except (fetch_as cast_bearing target)
            (fun e =>
               if swallowed e
               then Some (Fallback_fetch_loop fetch_as self rest target)
               else None)
      end
  end.

(** The loop of [Fallback.place] *)
Fixpoint Fallback_place_loop (place_as : Bearing -> val -> val -> M unit)
    (self : Bearing) (bearing_classes : list bclass) (target value : val) : M unit :=
  match bearing_classes with
  | [] => raise (NullNameError self)
  | bearing_type :: rest =>
      match cast bearing_type self with
      | Raise TypeError => Fallback_place_loop place_as self rest target value
      | Raise e => raise e
      | Ok cast_bearing =>
          try_except (place_as cast_bearing target value)
            (fun e =>
               if swallowed e
               then Some (Fallback_place_loop place_as self rest target value)
               else None)
      end
  end.

(** A [Fallback] met inside [BEARING_CLASSES] is cast to a fresh [Fallback],
    which cycles through the class attribute [_BEARING_CLASSES]; no
    [Fallback] occurs there, so the nesting stops at this level. *)
Definition Fallback_fetch_inner (self : Bearing) (target : val) : M val :=
  Fallback_fetch_loop
    (fetch_with (fun _ _ => raise (OtherError "RecursionError")))
    self (BEARING_CLASSES self) target.

Definition Fallback_place_inner (self : Bearing) (target value : val) : M unit :=
  Fallback_place_loop
    (fun b t v => place_with (fun _ _ _ => raise (OtherError "RecursionError")) b t v false)
    self (BEARING_CLASSES self) target value.

(** [fetch] and [place] of the bearing a [Fallback] has just cast. *)
Definition fetch_cast : Bearing -> val -> M val := fetch_with Fallback_fetch_inner.

Definition place_cast (self : Bearing) (target value : val) : M unit :=
  place_with Fallback_place_inner self target value false.

(** [Fallback.fetch] *)
Definition Fallback_fetch (self : Bearing) (target : val) : M val :=
  Fallback_fetch_loop fetch_cast self (BEARING_CLASSES self) target.

(** [Fallback.place] *)
Definition Fallback_place (self : Bearing) (target value : val) : M unit :=
  Fallback_place_loop place_cast self (BEARING_CLASSES self) target value.

(** [self.fetch(target)], by the class of [self] *)
Definition fetch : Bearing -> val -> M val := fetch_with Fallback_fetch.

(** [self.place(target, value, **kwargs)], by the class of [self];
    [place_factory] tells whether the keyword of that name was passed. *)
Definition place : Bearing -> val -> val -> bool -> M unit := place_with Fallback_place.

(** ** Equality of bearings *)

(** The right operand of [==]: a bearing or any other object. *)
Inductive operand : Type :=
| OBearing (b : Bearing)
| OOther (v : val).

(** [isinstance(b, cls)] *)
Definition isinstance (b : Bearing) (cls : bclass) : bool :=
  issubclass (b_type b) cls.

(** [cls in bearing_classes] *)
Definition class_in (cls : bclass) (bearing_classes : list bclass) : bool :=
  existsb (bclass_eqb cls) bearing_classes.

(** [BearingAbstract.__eq__] *)
Definition Bearing_eq (self : Bearing) (other : operand) : result bool :=
  match other with
  | OOther _ => Raise TypeError
  | OBearing other =>
      if negb (py_eq (name other) (name self)) then Ok false
      else if isinstance other Fallback && class_in (b_type self) (BEARING_CLASSES other)
      then Ok true
      else if isinstance self Fallback && class_in (b_type other) (BEARING_CLASSES self)
      then Ok true
      else if isinstance other (b_type self) then Ok true
      else if isinstance self (b_type other) then Ok true
      else Ok false
  end.

(** [self == other] between two bearings, where [__eq__] cannot raise. *)
Definition Bearing_eqb (self other : Bearing) : bool :=
  match Bearing_eq self (OBearing other) with
  | Ok b => b
  | Raise _ => false
  end.

(** ** String shorthand *)

Definition newline : ascii := Ascii.ascii_of_nat 10.

(** The longest prefix without a newline: what [.+] can run over. *)
Fixpoint dot_run (s : string) : string :=
  match s with
  | EmptyString => EmptyString
  | String c rest =>
      if Ascii.eqb c newline then EmptyString else String c (dot_run rest)
  end.

(** [str.split(sep)] for a separator of one character. *)
Fixpoint split_on (sep : ascii) (s : string) : list string :=
  match s with
  | EmptyString => [EmptyString]
  | String c rest =>
      if Ascii.eqb c sep then EmptyString :: split_on sep rest
      else
        match split_on sep rest with
        | [] => [String c EmptyString]
        | piece :: pieces => String c piece :: pieces
        end
  end.

(** The longest proper prefix of [s] that is followed by [c], if it is not
    empty: group 1 of the greedy [(.+)c]. *)
Fixpoint greedy_before (c : ascii) (s : string) : option string :=
  match s with
  | EmptyString => None
  | String a rest =>
      match greedy_before c rest with
      | Some g => Some (String a g)
      | None =>
          match rest with
          | String b _ => if Ascii.eqb b c then Some (String a EmptyString) else None
          | EmptyString => None
          end
      end
  end.

(** The shortest non-empty prefix of [s] that is followed by ["()"]: group 1
    of the lazy [(.+?)\(\)]. *)
Fixpoint lazy_before_parens (s : string) : option string :=
  match s with
  | EmptyString => None
  | String a rest =>
      if String.prefix "()" rest then Some (String a EmptyString)
      else
        match lazy_before_parens rest with
        | Some g => Some (String a g)
        | None => None
        end
  end.

(** [re.match(cls.REGEX, text)] and [match.group(1)], or [match.string]
    when the pattern has no group: [Item.REGEX] is [\[(.+)\]], [Call.REGEX]
    is [(.+?)\(\)], [Attr.REGEX] is [@(.+)], [BearingAbstract.REGEX] is
    [.+].  [.] matches every character but the newline. *)
Definition regex_name (cls : bclass) (text : string) : option string :=
  match cls with
  | Item =>
      match text with
      | String "["%char rest => greedy_before "]"%char (dot_run rest)
      | _ => None
      end
  | Call =>
      lazy_before_parens (dot_run text)
  | Attr =>
      match text with
      | String "@"%char rest =>
          match dot_run rest with
          | EmptyString => None
          | g => Some g
          end
      | _ => None
      end
  | _ =>
      match dot_run text with
      | EmptyString => None
      | _ => Some text
      end
  end.

(** [cls.name_from_str(text)]: [re.match] raises [TypeError] on what is no
    string, and no match is a [ValueError]. *)
Definition name_from_str (cls : bclass) (text : val) : result val :=
  match cls with
  | Custom n _ => cb_name_from_str (custom n) text
  | _ =>
      match text with
      | VStr s =>
          match regex_name cls s with
          | Some g => Ok (VStr g)
          | None => Raise ValueError
          end
      | _ => Raise TypeError
      end
  end.

(** [_order_bearing_classes] *)
Definition _order_bearing_classes (bearing_classes bearing_classes_extra : option (list bclass))
  : list bclass :=
  let bearing_classes :=
    match bearing_classes with
    | None => _BEARING_CLASSES ++ [Fallback]
    | Some l => l
    end in
  let bearing_classes_extra :=
    match bearing_classes_extra with
    | None => []
    | Some l => l
    end in
  bearing_classes_extra ++ bearing_classes.

(** [attempt_name_to_bearing] *)
Definition attempt_name_to_bearing (nm : val) (bearing_type : bclass) : result Bearing :=
  let retry (nm : val) :=
    match new_bearing bearing_type nm None with
    | Raise TypeError => Raise ValueError
    | r => r
    end in
  match name_from_str bearing_type nm with
  | Raise TypeError => retry nm
  | Raise e => Raise e
  | Ok nm' =>
      match new_bearing bearing_type nm' None with
      | Raise TypeError => retry nm'
      | r => r
      end
  end.

(** The loop of [bearing] over the loaded classes: the first class that
    does not answer [ValueError]. *)
Fixpoint bearing_loop (nm : val) (classes_loaded : list bclass) : result (option Bearing) :=
  match classes_loaded with
  | [] => Ok None
  | this_type :: rest =>
      match attempt_name_to_bearing nm this_type with
      | Raise ValueError => bearing_loop nm rest
      | Raise e => Raise e
      | Ok new => Ok (Some new)
      end
  end.

(** [bearing] *)
Definition bearing (nm : val) (bearing_classes bearing_classes_extra : option (list bclass))
  : result Bearing :=
  let classes_loaded := _order_bearing_classes bearing_classes bearing_classes_extra in
  match bearing_loop nm classes_loaded with
  | Raise e => Raise e
  | Ok None => Raise TypeError
  | Ok (Some new) =>
      if isinstance new Fallback then
        Ok (mkBearing (b_type new) (name new) (factory_type new)
              (_func_args new) (_func_kwargs new)
              (List.filter (fun x => negb (issubclass x Fallback)) classes_loaded))
      else Ok new
  end.

(** ** [Course] *)

(** What [Course( *bearings)] and [/] accept: a course, a bearing, or any
    other value (a string is split at ["/"]). *)
Inductive CourseInput : Type :=
| CI_Course (c : Course)
| CI_Bearing (b : Bearing)
| CI_val (v : val).

(** [Course.BEARINGS] *)
Definition BEARINGS : list bclass := _BEARING_CLASSES ++ [Fallback].

Fixpoint sequence {A} (l : list (result A)) : result (list A) :=
  match l with
  | [] => Ok []
  | Ok a :: rest =>
      match sequence rest with
      | Ok l' => Ok (a :: l')
      | Raise e => Raise e
      end
  | Raise e :: _ => Raise e
  end.

(** [Course._cast_arg]; [BEARINGS_EXTENSION] is [[]] for [Course] and
    [[XElm]] for the extension's [XCourse]. *)
Definition _cast_arg (BEARINGS_EXTENSION : list bclass) (new : CourseInput)
  : result (list Bearing) :=
  let bearing_classes := BEARINGS_EXTENSION ++ BEARINGS in
  match new with
  | CI_Course c => Ok c
  | CI_Bearing b => Ok [b]
  | CI_val (VStr text) =>
      sequence (map (fun piece => bearing (VStr piece) (Some bearing_classes) None)
                    (split_on "/"%char text))
  | CI_val v =>
      sequence [bearing v (Some bearing_classes) None]
  end.

(** [Course._cast_init] and [Course.__init__] *)
Definition Course_init (BEARINGS_EXTENSION : list bclass) (bearings : list CourseInput)
  : result Course :=
  match sequence (map (_cast_arg BEARINGS_EXTENSION) bearings) with
  | Ok parts => Ok (concat parts)
  | Raise e => Raise e
  end.

(** [PORT = Course()] *)
Definition PORT : Course := [].

(** [self / other] *)
Definition Course_truediv (self : Course) (other : CourseInput) : result Course :=
  Course_init [] [CI_Course self; other].

(** Equality of two tuples of bearings: same length and [==] item by
    item, the item of the left tuple being the receiver. *)
Fixpoint tuple_eq (left right : list Bearing) : bool :=
  match left, right with
  | [], [] => true
  | x :: left', y :: right' => Bearing_eqb x y && tuple_eq left' right'
  | _, _ => false
  end.

(** [Course.__eq__] with a course as the other side:
    [other._bearings == self._bearings] *)
Definition Course_eq (self other : Course) : bool :=
  tuple_eq other self.

(** [self._bearings[x:y]] for [0 <= x] and [0 <= y] *)
Definition Course_slice (self : Course) (x y : nat) : Course :=
  take (y - x) (drop x self).

(** [Course.__contains__] with a course as the item; [item in self] *)
Definition Course_contains (self item : Course) : bool :=
  existsb (fun x => Course_eq (Course_slice self x (length item + x)) item)
    (seq 0 (Z.to_nat (Z.of_nat (length self) - Z.of_nat (length item) + 1))).

(** [Course.parent] *)
Definition parent (self : Course) : Course := removelast self.

(** [Course.end_point]; [None] is the [IndexError] of an empty course. *)
Definition end_point (self : Course) : option Bearing := last self.

(** [Course.fetch] *)
Fixpoint Course_fetch (self : Course) (target default : val) : M val :=
  match self with
  | [] => ret target
  | this_bearing :: rest =>
      fun h =>
        match fetch this_bearing target h with
        | (Ok target', h') => Course_fetch rest target' default h'
        | (Raise (NullNameError origin), h') =>
            if negb (is_sentinel "NO_DEFAULT" default)
            then (Ok default, h')
            else (Raise (NullNameError origin), h')
        | (Raise e, h') => (Raise e, h')
        end
  end.

(** A new object on the heap. *)
Definition alloc (o : obj) : M val :=
  fun h => (Ok (VRef (length h)), h ++ [o]).

(** [isinstance(v, tname)] for a type given by its name: the type of [v]
    itself, or the built-in base of a container, or [int] for a [bool]. *)
Definition py_isinstance (v : val) (tname : string) (h : heap) : bool :=
  String.eqb (type_name v h) tname ||
  match v with
  | VBool _ => String.eqb tname "int"
  | VRef l =>
      match h !! l with
      | Some (OList _ _) => String.eqb tname "list"
      | Some (ODict _ _) => String.eqb tname "dict"
      | _ => false
      end
  | _ => false
  end.

(** [BearingAbstract.init_factory] *)
Definition init_factory (self : Bearing) : M val :=
  match factory_type self with
  | None => raise TypeError
  | Some factory =>
      if String.eqb factory "dict" then alloc (ODict "dict" [])
      else if String.eqb factory "list" then alloc (OList "list" [])
      else
        match c_new (classes factory) with
        | Some make => make
        | None => raise TypeError
        end
  end.

(** The loop of [Course.place] over [self.parent]; returns the target the
    end point is placed on. *)
Fixpoint Course_place_walk (parents : list Bearing) (target : val) : M val :=
  match parents with
  | [] => ret target
  | this_bearing :: rest =>
      new_target <-
        try_except (fetch this_bearing target)
          (fun e =>
             match e, factory_type this_bearing with
             | NullNameError _, Some _ => Some (ret VNone)
             | _, _ => None
             end) ;;
      new_target <-
        match factory_type this_bearing with
        | Some factory =>
            fun h =>
              if negb (py_isinstance new_target factory h) then
                (new_node <- init_factory this_bearing ;;
                 place this_bearing target new_node true ;;;
                 ret new_node) h
              else (Ok new_target, h)
        | None => ret new_target
        end ;;
      Course_place_walk rest new_target
  end.

(** [Course.place] *)
Definition Course_place (self : Course) (target value : val) : M unit :=
  target' <- Course_place_walk (parent self) target ;;
  match end_point self with
  | Some last_bearing => place last_bearing target' value false
  | None => raise IndexError
  end.

(** The bearings the package itself builds: [Item(name)], [Attr(name)],
    [Call(name)] and [Fallback(name)]. *)
Definition mkItem (nm : val) : Bearing := mkBearing Item nm None [] [] [].
Definition mkAttr (nm : string) : Bearing := mkBearing Attr (VStr nm) None [] [] [].
Definition mkCall (nm : string) : Bearing := mkBearing Call (VStr nm) None [] [] [].
Definition mkFallback (nm : val) : Bearing :=
  mkBearing Fallback nm None [] [] _BEARING_CLASSES.

(** ** [Compass] *)

(** The value of [attrs], [items] and [calls]: [True], [False] or a list. *)
Inductive selection (A : Type) : Type :=
| Every
| Nothing
| Only (names : list A).

Arguments Every {A}.
Arguments Nothing {A}.
Arguments Only {A} names.

Record Compass : Type := {
  _target_types : option (list string);
  _attrs : selection string;
  _items : selection val;
  _calls : selection string
}.

(** [Compass()] *)
Definition Compass_default : Compass :=
  {| _target_types := None; _attrs := Every; _items := Every; _calls := Nothing |}.

(** [Compass.is_navigable] *)
Definition is_navigable (self : Compass) (target : val) (h : heap) : bool :=
  match _target_types self with
  | None => true
  | Some types => existsb (fun t => py_isinstance target t h) types
  end.

Definition private (nm : string) : bool := String.prefix "_" nm.

Fixpoint mapM {A B} (f : A -> M B) (l : list A) : M (list B) :=
  match l with
  | [] => ret []
  | a :: rest => b <- f a ;; bs <- mapM f rest ;; ret (b :: bs)
  end.

(** [Compass.attr_iter] *)
Definition attr_iter (self : Compass) (target : val) : M (list (Bearing * val)) :=
  fun h =>
    let attr_names :=
      match _attrs self with
      | Every =>
          match instance_dict target h with
          | Some attrs => List.filter (fun x => negb (private x)) (map fst attrs)
          | None => []
          end
      | Only names => names
      | Nothing => []
      end in
    mapM (fun attr => v <- py_getattr target attr ;; ret (mkAttr attr, v)) attr_names h.

(** [Compass.item_iter]: a dict is a [Mapping]; a list, a tuple and a
    string are [Sequence]s. *)
Definition item_iter (self : Compass) (target : val) : M (list (Bearing * val)) :=
  fun h =>
    let coordinates : list (val * val) :=
      match _items self with
      | Nothing => []
      | _ =>
          let enumerate (l : list val) :=
            combine (map (fun i => VInt (Z.of_nat i)) (seq 0 (length l))) l in
          match target with
          | VRef l =>
              match h !! l with
              | Some (ODict _ items) => items
              | Some (OList _ items) => enumerate items
              | _ => []
              end
          | VTuple items => enumerate items
          | VStr text => enumerate (string_chars text)
          | _ => []
          end
      end in
    let wanted (item : val) :=
      match _items self with
      | Every => true
      | Only item_names => existsb (fun x => py_eq x item) item_names
      | Nothing => false
      end in
    (Ok (map (fun iv => (mkItem (fst iv), snd iv))
             (List.filter (fun iv => wanted (fst iv)) coordinates)), h).

(** [Compass.call_iter] *)
Definition call_iter (self : Compass) (target : val) : M (list (Bearing * val)) :=
  match _calls self with
  | Nothing => ret []
  | calls =>
      fun h =>
        let methods := map fst (c_methods (classes (type_name target h))) in
        (fix loop (methods : list string) : M (list (Bearing * val)) :=
           match methods with
           | [] => ret []
           | method_name :: rest =>
               method_function <- py_getattr target method_name ;;
               let skip :=
                 negb (callable method_function) ||
                 match calls with
                 | Every => private method_name
                 | Only names => negb (existsb (String.eqb method_name) names)
                 | Nothing => false
                 end in
               if skip then loop rest
               else
                 v <- py_call method_function [] [] ;;
                 more <- loop rest ;;
                 ret ((mkCall method_name, v) :: more)
           end) methods h
  end.

(** [Compass.bearings_iter]: the methods whose name ends in ["_iter"], in
    the order of [dir(cls)]: [attr_iter], [call_iter], [item_iter].  None
    of the three raises [NotImplementedError].  The generator is run to its
    end here. *)
Definition bearings_iter (self : Compass) (target : val) : M (list (Bearing * val)) :=
  fun h =>
    if negb (is_navigable self target h) then (Raise (NonNavigableError target), h)
    else
      (a <- attr_iter self target ;;
       c <- call_iter self target ;;
       i <- item_iter self target ;;
       ret (a ++ c ++ i)) h.

(** ** [Surveyor] *)

Record Surveyor : Type := {
  _compasses : list Compass;
  _end_points : list string
}.

(** [DEFAULT_END_POINTS = (str, int, float, type)] *)
Definition DEFAULT_END_POINTS : list string := ["str"; "int"; "float"; "type"].

(** [Surveyor()] *)
Definition Surveyor_default : Surveyor :=
  {| _compasses := [Compass_default]; _end_points := DEFAULT_END_POINTS |}.

(** [Surveyor._choose_compass] *)
Definition _choose_compass (self : Surveyor) (target : val) : M Compass :=
  fun h =>
    match List.find (fun compass => is_navigable compass target h) (_compasses self) with
    | Some compass => (Ok compass, h)
    | None => (Raise (NonNavigableError target), h)
    end.

(** The depth at which the interpreter gives up a recursion. *)
Variable recursion_limit : nat.

(** [Surveyor._chart_layer]: what the generator yields, a pair or a
    suppressed [NonNavigableError]; [depth] is the room left on the
    interpreter's stack. *)
Fixpoint _chart_layer (depth : nat) (self : Surveyor) (target : val)
    (parent_course : Course) (exceptions : bool)
  : M (list (Course * val + exn)) :=
  match depth with
  | O => raise (OtherError "RecursionError")
  | S depth' =>
      fun h =>
        match _choose_compass self target h with
        | (Raise (NonNavigableError t), h') =>
            if exceptions then (Raise (NonNavigableError t), h')
            else (Ok [inr (NonNavigableError t)], h')
        | (Raise e, h') => (Raise e, h')
        | (Ok compass, h') =>
            (pairs <- bearings_iter compass target ;;
             (fix loop (pairs : list (Bearing * val)) : M (list (Course * val + exn)) :=
                match pairs with
                | [] => ret []
                | (bearing, v) :: rest =>
                    let bearing_course := parent_course ++ [bearing] in
                    below <-
                      (fun h =>
                         if is_None v ||
                            existsb (fun t => py_isinstance v t h) (_end_points self)
                         then (Ok [], h)
                         else _chart_layer depth' self v bearing_course exceptions h) ;;
                    more <- loop rest ;;
                    ret (inl (bearing_course, v) :: below ++ more)
                end) pairs) h'
        end
  end.

Fixpoint lefts {A B} (l : list (A + B)) : list A :=
  match l with
  | [] => []
  | inl a :: rest => a :: lefts rest
  | inr _ :: rest => lefts rest
  end.

Fixpoint rights {A B} (l : list (A + B)) : list B :=
  match l with
  | [] => []
  | inl _ :: rest => rights rest
  | inr b :: rest => b :: rights rest
  end.

(** [Surveyor.chart], through [Surveyor.chart_iter] *)
Definition chart (self : Surveyor) (target : val) (exceptions : bool)
  : M (list (Course * val)) :=
  results <- _chart_layer recursion_limit self target [] exceptions ;;
  match rights results with
  | [] => ret (lefts results)
  | exception_list => raise (SuppressedErrors exception_list (lefts results))
  end.

(** ** [Coordinate] and [CleanData] *)

(** A course, or a tuple of courses. *)
Inductive courses : Type :=
| One (c : Course)
| Many (cs : list Course).

(** [CleanData]: the scratch state of one coordinate during one [map]. *)
Record CleanData : Type := {
  org_list : list Course;
  dst_list : list (option Course);
  default_list : list val;
  cd_value : val
}.

(** What a cleaning function can read of the coordinate it is handed: its
    declared fields and its current scratch state. *)
Record CoordView : Type := {
  v_org : courses;
  v_dst : option courses;
  v_default : val;
  v_clean : CleanData
}.

(** The cleaning callables of a coordinate, called as
    [cleaner(course, coord, cache)] and [cleaner(value, coord, cache)]. *)
Definition org_cleaner : Type := Course -> CoordView -> val -> M Course.
Definition dst_cleaner : Type := option Course -> CoordView -> val -> M (option Course).
Definition value_cleaner : Type := val -> CoordView -> val -> M val.

Record Coordinate : Type := {
  org : courses;
  dst : option courses;
  clean_org : option org_cleaner;
  clean_dst : option dst_cleaner;
  clean_value : option value_cleaner;
  default : val;
  clean : CleanData
}.

Definition view (coord : Coordinate) : CoordView :=
  {| v_org := org coord; v_dst := dst coord; v_default := default coord;
     v_clean := clean coord |}.

Definition with_clean (coord : Coordinate) (c : CleanData) : Coordinate :=
  {| org := org coord; dst := dst coord; clean_org := clean_org coord;
     clean_dst := clean_dst coord; clean_value := clean_value coord;
     default := default coord; clean := c |}.

(** [Coordinate._validate_default_length]: [false] is the [ValueError]. *)
Definition _validate_default_length (org : courses) (default : val) : bool :=
  if is_sentinel "NO_DEFAULT" default then true
  else
    match org with
    | One _ => true
    | Many cs =>
        match default with
        | VTuple ds => Nat.eqb (length cs) (length ds)
        | _ => false
        end
    end.

(** [CleanData.__post_init__] *)
Definition CleanData_init (coord : Coordinate) : CleanData :=
  let org_list := match org coord with One c => [c] | Many cs => cs end in
  let default_list :=
    if is_sentinel "NO_DEFAULT" (default coord) then map (fun _ => NO_DEFAULT) org_list
    else
      match default coord with
      | VTuple ds => ds
      | d => [d]
      end in
  let dst_list :=
    match dst coord with
    | None => map (fun _ => None) org_list
    | Some (Many cs) => map Some cs
    | Some (One c) => [Some c]
    end in
  {| org_list := org_list; dst_list := dst_list; default_list := default_list;
     cd_value := VNone |}.

(** [Coordinate(org, dst, clean_org, clean_dst, clean_value, default)] *)
Definition Coordinate_init (org : courses) (dst : option courses)
    (clean_org : option org_cleaner) (clean_dst : option dst_cleaner)
    (clean_value : option value_cleaner) (default : val) : result Coordinate :=
  if _validate_default_length org default then
    Ok {| org := org; dst := dst; clean_org := clean_org; clean_dst := clean_dst;
          clean_value := clean_value; default := default;
          clean := {| org_list := []; dst_list := []; default_list := []; cd_value := VNone |} |}
  else Raise ValueError.

(** [Coordinate(org=course)] *)
Definition Coord (course : Course) : Coordinate :=
  {| org := One course; dst := None; clean_org := None; clean_dst := None;
     clean_value := None; default := NO_DEFAULT;
     clean := {| org_list := []; dst_list := []; default_list := []; cd_value := VNone |} |}.

(** ** [Cartographer] *)

(** A cartographer: the reference to its [cache] dict, and its three
    cleaning methods, which a subclass may override and which reach
    [self.cache] through the first argument. *)
Record Cartographer : Type := {
  cache : val;
  cart_clean_org : val -> Course -> CoordView -> M Course;
  cart_clean_dst : val -> option Course -> CoordView -> M (option Course);
  cart_clean_value : val -> val -> CoordView -> M val
}.

(** [Cartographer.clean_org] *)
Definition Cartographer_clean_org (cache : val) (course : Course) (coordinate : CoordView)
  : M Course := ret course.

(** [Cartographer.clean_dst] *)
Definition Cartographer_clean_dst (cache : val) (course : option Course)
    (coordinate : CoordView) : M (option Course) :=
  match course with
  | None =>
      match org_list (v_clean coordinate) with
      | first :: _ => ret (Some (map (fun x => mkFallback (name x)) first))
      | [] => raise IndexError
      end
  | Some c => ret (Some c)
  end.

(** [Cartographer.clean_value] *)
Definition Cartographer_clean_value (cache : val) (values : val) (coordinate : CoordView)
  : M val := ret values.

(** [Cartographer.__init__]: [self.cache = dict()] *)
Definition Cartographer_init : M Cartographer :=
  cache <- alloc (ODict "dict" []) ;;
  ret {| cache := cache;
         cart_clean_org := Cartographer_clean_org;
         cart_clean_dst := Cartographer_clean_dst;
         cart_clean_value := Cartographer_clean_value |}.

(** [_get_cleaner]: the cleaner of the coordinate, called with
    [coord, cache], before the method of the cartographer, called with
    [coord]. *)
Definition _get_cleaner {A B} (self_func : A -> CoordView -> M B)
    (coord_func : option (A -> CoordView -> val -> M B)) (cache : val)
  : A -> CoordView -> M B :=
  match coord_func with
  | Some cleaner => fun a coord => cleaner a coord cache
  | None => self_func
  end.

(** [_clean_courses] on [coord.clean.org_list]: each course is replaced in
    the list as soon as it is cleaned, so the next call sees it. *)
Fixpoint _clean_courses_org (cleaner : Course -> CoordView -> M Course)
    (todo : list Course) (i : nat) (coord : Coordinate) : M Coordinate :=
  match todo with
  | [] => ret coord
  | course :: rest =>
      cleaned <- cleaner course (view coord) ;;
      let c := clean coord in
      _clean_courses_org cleaner rest (S i)
        (with_clean coord
           {| org_list := <[i := cleaned]> (org_list c); dst_list := dst_list c;
              default_list := default_list c; cd_value := cd_value c |})
  end.

(** [_clean_courses] on [coord.clean.dst_list] *)
Fixpoint _clean_courses_dst (cleaner : option Course -> CoordView -> M (option Course))
    (todo : list (option Course)) (i : nat) (coord : Coordinate) : M Coordinate :=
  match todo with
  | [] => ret coord
  | course :: rest =>
      cleaned <- cleaner course (view coord) ;;
      let c := clean coord in
      _clean_courses_dst cleaner rest (S i)
        (with_clean coord
           {| org_list := org_list c; dst_list := <[i := cleaned]> (dst_list c);
              default_list := default_list c; cd_value := cd_value c |})
  end.

(** [tuple(c.fetch(origin_root, default=d) for c, d in origin_default)] *)
Fixpoint fetch_all (origin_default : list (Course * val)) (origin_root : val)
  : M (list val) :=
  match origin_default with
  | [] => ret []
  | (c, d) :: rest =>
      v <- Course_fetch c origin_root d ;;
      vs <- fetch_all rest origin_root ;;
      ret (v :: vs)
  end.

(** [_fetch_org_value]; returns the coordinate with its cleaned origins,
    and the value. *)
Definition _fetch_org_value (cart : Cartographer) (origin_root : val) (coord : Coordinate)
  : M (Coordinate * val) :=
  let cleaner :=
    _get_cleaner (cart_clean_org cart (cache cart)) (clean_org coord) (cache cart) in
  coord <- _clean_courses_org cleaner (org_list (clean coord)) 0 coord ;;
  let origin_default := combine (org_list (clean coord)) (default_list (clean coord)) in
  vs <- fetch_all origin_default origin_root ;;
  if Nat.leb (length (org_list (clean coord))) 1 then
    match vs with
    | v :: _ => ret (coord, v)
    | [] => raise IndexError
    end
  else ret (coord, VTuple vs).

(** [iter(values)], as [zip] does on its first argument *)
Definition py_iter (values : val) : M (list val) :=
  fun h =>
    match values with
    | VTuple items => (Ok items, h)
    | VStr text => (Ok (string_chars text), h)
    | VRef l =>
        match h !! l with
        | Some (OList _ items) => (Ok items, h)
        | Some (ODict _ items) => (Ok (map fst items), h)
        | _ => (Raise TypeError, h)
        end
    | _ => (Raise TypeError, h)
    end.

(** The loop of [_place_dst_value] over [zip(values, coord.clean.dst_list)] *)
Fixpoint place_all (pairs : list (val * option Course)) (destination_root : val) : M unit :=
  match pairs with
  | [] => ret tt
  | (_, None) :: rest => place_all rest destination_root
  | (v, Some this_dst) :: rest =>
      Course_place this_dst destination_root v ;;;
      place_all rest destination_root
  end.

(** [_place_dst_value] *)
Definition _place_dst_value (cart : Cartographer) (destination_root : val)
    (coord : Coordinate) : M Coordinate :=
  let cleaner :=
    _get_cleaner (cart_clean_dst cart (cache cart)) (clean_dst coord) (cache cart) in
  coord <- _clean_courses_dst cleaner (dst_list (clean coord)) 0 coord ;;
  values <-
    (if Nat.leb (length (dst_list (clean coord))) 1
     then ret [cd_value (clean coord)]
     else py_iter (cd_value (clean coord))) ;;
  place_all (combine values (dst_list (clean coord))) destination_root ;;;
  ret coord.

Definition set_value (coord : Coordinate) (v : val) : Coordinate :=
  let c := clean coord in
  with_clean coord
    {| org_list := org_list c; dst_list := dst_list c;
       default_list := default_list c; cd_value := v |}.

(** [_map_coordinate]; returns the coordinate with the scratch state the
    call leaves in [coord.clean]. *)
Definition _map_coordinate (cart : Cartographer) (origin_root destination_root : val)
    (coord : Coordinate) : M Coordinate :=
  coord <-
    (if is_None (cd_value (clean coord)) then
       cv <- _fetch_org_value cart origin_root coord ;;
       ret (set_value (fst cv) (snd cv))
     else ret coord) ;;
  let cleaner :=
    _get_cleaner (cart_clean_value cart (cache cart)) (clean_value coord) (cache cart) in
  v <- cleaner (cd_value (clean coord)) (view coord) ;;
  _place_dst_value cart destination_root (set_value coord v).

(** [_map_coordinates]; [mapped] and [error_list] are the two lists the
    loop builds, empty when [map] calls it. *)
Fixpoint _map_coordinates (cart : Cartographer) (origin_root dst_root : val)
    (coordinates : list Coordinate) (exceptions : bool)
    (mapped : list Course) (error_list : list exn)
  : M (list Course * list exn) :=
  match coordinates with
  | [] => ret (mapped, error_list)
  | coordinate :: rest =>
      fun h =>
        match _map_coordinate cart origin_root dst_root coordinate h with
        | (Raise (NullNameError origin), h') =>
            if exceptions then (Raise (NullNameError origin), h')
            else
              _map_coordinates cart origin_root dst_root rest exceptions
                mapped (error_list ++ [NullNameError origin]) h'
        | (Raise e, h') => (Raise e, h')
        | (Ok coordinate', h') =>
            match org_list (clean coordinate') with
            | first :: _ =>
                _map_coordinates cart origin_root dst_root rest exceptions
                  (mapped ++ [first]) error_list h'
            | [] => (Raise IndexError, h')
            end
        end
  end.

(** [any(course in x for x in mapped_courses)] and
    [any(x in course for x in mapped_courses)] *)
Definition already_mapped (course : Course) (mapped_courses : list Course) : bool :=
  existsb (fun x => Course_contains x course) mapped_courses ||
  existsb (fun x => Course_contains course x) mapped_courses.

(** [_map_survey_chart]; [error_list] is the list the loop builds, empty
    at the call; returns it together with [mapped_courses] as the loop
    leaves that list. *)
Fixpoint _map_survey_chart (cart : Cartographer) (origin_root dst_root : val)
    (exceptions : bool) (mapped_courses : list Course)
    (course_chart : list (Course * val)) (error_list : list exn)
  : M (list exn * list Course) :=
  match course_chart with
  | [] => ret (error_list, mapped_courses)
  | (course, v) :: rest =>
      if already_mapped course mapped_courses then
        _map_survey_chart cart origin_root dst_root exceptions mapped_courses rest error_list
      else
        let coordinate := Coord course in
        let coordinate := set_value (with_clean coordinate (CleanData_init coordinate)) v in
        fun h =>
          match _map_coordinate cart origin_root dst_root coordinate h with
          | (Raise (NullNameError origin), h') =>
              if exceptions then (Raise (NullNameError origin), h')
              else
                _map_survey_chart cart origin_root dst_root exceptions
                  (mapped_courses ++ [course]) rest
                  (error_list ++ [NullNameError origin]) h'
          | (Raise e, h') => (Raise e, h')
          | (Ok _, h') =>
              _map_survey_chart cart origin_root dst_root exceptions
                (mapped_courses ++ [course]) rest error_list h'
          end
  end.

(** [list.sort(key=key, reverse=True)]: stable, larger keys first. *)
Fixpoint insert_desc {A} (key : A -> nat) (x : A) (sorted : list A) : list A :=
  match sorted with
  | [] => [x]
  | y :: rest =>
      if Nat.ltb (key x) (key y) then y :: insert_desc key x rest
      else x :: y :: rest
  end.

Definition sort_reverse {A} (key : A -> nat) (l : list A) : list A :=
  fold_right (insert_desc key) [] l.

(** [len(x)] for an item [x] of the chart: [x] is the tuple
    [(course, value)], and the length of a pair is 2. *)
Definition len_chart_item (x : Course * val) : nat := 2.

(** [_chart_survey] *)
Definition _chart_survey (cart : Cartographer) (origin_root dst_root : val)
    (surveyor : Surveyor) (exceptions : bool) (mapped_courses : list Course)
  : M (list exn * list Course) :=
  charted <-
    try_except
      (course_chart <- chart surveyor origin_root exceptions ;; ret ([], course_chart))
      (fun e =>
         match e with
         | SuppressedErrors errors chart_partial => Some (ret (errors, chart_partial))
         | _ => None
         end) ;;
  let error_list : list exn := fst charted in
  let course_chart := sort_reverse len_chart_item (snd charted) in
  survey <- _map_survey_chart cart origin_root dst_root exceptions mapped_courses
              course_chart [] ;;
  ret (error_list ++ fst survey, snd survey).

(** [Cartographer.map]; an omitted [coordinates] is [None], an omitted
    [exceptions] takes the default of the signature, [True].  The
    coordinates of the list are distinct objects, each with its own scratch
    state. *)
Definition Cartographer_map (self : Cartographer) (origin_root dst_root : val)
    (coordinates : option (list Coordinate)) (surveyor : option Surveyor)
    (exceptions : option bool) : M unit :=
  let exceptions := match exceptions with Some b => b | None => true end in
  let coordinates := match coordinates with Some l => l | None => [] end in
  let coordinates := map (fun coord => with_clean coord (CleanData_init coord)) coordinates in
  mapped_errors <- _map_coordinates self origin_root dst_root coordinates exceptions [] [] ;;
  let '(mapped_courses, error_list) := mapped_errors in
  error_list <-
    match surveyor with
    | Some surveyor =>
        survey <- _chart_survey self origin_root dst_root surveyor exceptions mapped_courses ;;
        ret (error_list ++ fst survey)
    | None => ret error_list
    end ;;
  match error_list with
  | [] => ret tt
  | _ => raise (SuppressedErrors error_list [])
  end.

End Python.

(** ** Spec-level notions used by the statements *)

(** The equality of bearings in the words of the specification: the names
    are equal, and the concrete types match or either side is a [Fallback]
    whose configured list includes the type of the other. *)
Definition spec_Bearing_equal (a b : Bearing) : bool :=
  py_eq (name b) (name a) &&
  (bclass_eqb (b_type a) (b_type b)
   || (isinstance a Fallback && class_in (b_type b) (BEARING_CLASSES a))
   || (isinstance b Fallback && class_in (b_type a) (BEARING_CLASSES b))).

(** [tried fetch_as self target cs h h']: every class of [cs], tried in
    order from the heap [h], failed, either at the cast ([TypeError]) or at
    the fetch of the cast bearing (one of the swallowed exceptions), and
    left the heap [h']. *)
Inductive tried (custom : string -> custom_bearing)
    (fetch_as : Bearing -> val -> M val) (self : Bearing) (target : val)
  : list bclass -> heap -> heap -> Prop :=
| tried_nil h : tried custom fetch_as self target [] h h
| tried_cast c cs h h' :
    cast custom c self = Raise TypeError ->
    tried custom fetch_as self target cs h h' ->
    tried custom fetch_as self target (c :: cs) h h'
| tried_fetch c cs cast_bearing e h h1 h' :
    cast custom c self = Ok cast_bearing ->
    fetch_as cast_bearing target h = (Raise e, h1) ->
    swallowed e = true ->
    tried custom fetch_as self target cs h1 h' ->
    tried custom fetch_as self target (c :: cs) h h'.

(** ** Fixtures of the test suite *)

(** A class without item access, methods or constructor, whose instances
    hash by identity as those of [object] do. *)
Definition plain_class : pyclass :=
  {| c_getitem := None; c_setitem := None; c_methods := []; c_new := None;
     c_hash := true |}.

(** [ThrowsKeyError] and [ThrowsIndexError] of [conftest.py] *)
Definition ThrowsKeyError : pyclass :=
  {| c_getitem := Some (fun _ _ => raise KeyError);
     c_setitem := Some (fun _ _ _ => raise KeyError);
     c_methods := [];
     c_new := Some (alloc (OInst "ThrowsKeyError" []));
     c_hash := true |}.

Definition ThrowsIndexError : pyclass :=
  {| c_getitem := Some (fun _ _ => raise IndexError);
     c_setitem := Some (fun _ _ _ => raise IndexError);
     c_methods := [];
     c_new := Some (alloc (OInst "ThrowsIndexError" []));
     c_hash := true |}.

(** [TestData] of [conftest.py], with its method [caller_set_tester]; a
    [@dataclass], so its instances are unhashable. *)
Definition TestData : pyclass :=
  {| c_getitem := None;
     c_setitem := None;
     c_methods :=
       [("caller_set_tester",
         fun self args _ =>
           match args with
           | [v] => py_setattr self "caller_set_value" v ;;; ret VNone
           | _ => raise TypeError
           end)];
     c_new := None;
     c_hash := false |}.

Definition test_classes (cls : string) : pyclass :=
  if String.eqb cls "ThrowsKeyError" then ThrowsKeyError
  else if String.eqb cls "ThrowsIndexError" then ThrowsIndexError
  else if String.eqb cls "TestData" then TestData
  else plain_class.

(** A class of a user, outside the test suite, in the manner of
    [ThrowsKeyError]: its item assignment hands the value on along a
    bearing of its own and lets the [NullNameError] of that bearing out. *)
Definition ThrowsNullNameError : pyclass :=
  {| c_getitem := None;
     c_setitem := Some (fun _ _ _ => raise (NullNameError (mkItem (VStr "inner"))));
     c_methods := [];
     c_new := None;
     c_hash := true |}.

Definition user_classes (cls : string) : pyclass :=
  if String.eqb cls "ThrowsNullNameError" then ThrowsNullNameError
  else test_classes cls.

(** [Alpha] and [Beta] of [test_bearings.py]: the constructor and
    [name_from_str] of [BearingAbstract], and methods that raise
    [NotImplementedError]. *)
Definition test_custom (n : string) : custom_bearing :=
  {| cb_init := fun nm => if is_str nm then Ok nm else Raise TypeError;
     cb_classes := [];
     cb_fetch := fun _ _ => raise NotImplementedError;
     cb_place := fun _ _ _ _ => raise NotImplementedError;
     cb_name_from_str :=
       fun text =>
         match text with
         | VStr s =>
             match regex_name BearingAbstract s with
             | Some g => Ok (VStr g)
             | None => Raise ValueError
             end
         | _ => Raise TypeError
         end |}.

(** [sys.getrecursionlimit()] of the interpreter *)
Definition default_recursion_limit : nat := 1000.

(** ** Notions used by the proofs and the examples *)

Definition builtin_variant (c : bclass) : bool :=
  match c with
  | Item | Attr | Call | Fallback => true
  | _ => false
  end.

(** [PORT / k] for a plain string [k]: the course of one [Fallback]. *)
Definition key_course (k : string) : Course := [mkFallback (VStr k)].

(** One step of evaluation of a monadic term, up to the next [fetch] or
    [place] of a bearing. *)
Ltac run_py :=
  progress (unfold bind, ret, raise, try_except, Course_place; cbn -[fetch place]).

(** What [map] does to each coordinate first:
    [object.__setattr__(coord, "clean", CleanData(coord))] *)
Definition reset (coord : Coordinate) : Coordinate :=
  with_clean coord (CleanData_init coord).

(** A cartographer with the methods of the base class, whose cache is the
    object at [loc]. *)
Definition base_cartographer (loc : nat) : Cartographer :=
  {| cache := VRef loc;
     cart_clean_org := Cartographer_clean_org;
     cart_clean_dst := Cartographer_clean_dst;
     cart_clean_value := Cartographer_clean_value |}.

(** Two cleaning functions in the manner of
    [test_dict_to_dict_one_to_many_using_cache]: the first stores the value
    it cleans in the cache, [cache["stash"] = value]; the second returns
    what the cache holds, [cache["stash"]]. *)
Definition stash_value (classes : string -> pyclass) : value_cleaner :=
  fun value coordinate cache =>
    py_setitem classes cache (VStr "stash") value ;;; ret value.

Definition recall_value (classes : string -> pyclass) : value_cleaner :=
  fun value coordinate cache => py_getitem classes cache (VStr "stash").

(** [Coordinate(org=PORT / k, clean_value=cleaner)] *)
Definition cleaned_coordinate (k : string) (cleaner : value_cleaner) : Coordinate :=
  {| org := One (key_course k); dst := None; clean_org := None; clean_dst := None;
     clean_value := Some cleaner; default := NO_DEFAULT;
     clean := {| org_list := []; dst_list := []; default_list := []; cd_value := VNone |} |}.

(** The heaps of the examples.  [{"a": {"b": 1}}] mapped onto an empty
    dict: the cache at 0, the origin at 1, the destination at 2, the nested
    dict at 3. *)
Definition nested_heap : heap :=
  [ODict "dict" [];
   ODict "dict" [(VStr "a", VRef 3)];
   ODict "dict" [];
   ODict "dict" [(VStr "b", VInt 1)]].

(** Two origins mapped one after the other onto the destination at 2 by
    the cartographer whose cache is at 0. *)
Definition two_runs_heap : heap :=
  [ODict "dict" [];
   ODict "dict" [(VStr "a", VStr "first run")];
   ODict "dict" [];
   ODict "dict" [(VStr "b", VStr "second run")]].

(** [{"a": "a value", "d": "d value"}] mapped onto an empty dict, as in
    [test_raises_suppressed_null_name_source]. *)
Definition two_keys_heap : heap :=
  [ODict "dict" [];
   ODict "dict" [(VStr "a", VStr "a value"); (VStr "d", VStr "d value")];
   ODict "dict" []].

(** [BearingAbstract("a")], as [test_not_implemented_errors] builds it. *)
Definition abstract_a : Bearing := mkBearing BearingAbstract (VStr "a") None [] [] [].

(** ** Notions used by the further properties *)

(** The classes of the package itself, as opposed to the classes an
    extension or a user adds. *)
Definition package_class (c : bclass) : Prop :=
  match c with
  | Custom _ _ => False
  | _ => True
  end.


(** ** More of [Course] *)

(** The argument of [starts_with] and [ends_with]: a bearing or a course. *)
Inductive bearing_or_course : Type :=
| ABearing (b : Bearing)
| ACourse (c : Course).

(** [Course.starts_with]; [self[0]] of an empty course is an [IndexError]. *)
Definition starts_with (self : Course) (other : bearing_or_course) : result bool :=
  match other with
  | ABearing b =>
      match self with
      | first :: _ => Bearing_eq first (OBearing b)
      | [] => Raise IndexError
      end
  | ACourse c => Ok (Course_eq (take (length c) self) c)
  end.

(** [self[start:]] for [start = -k]: the last [k] bearings, and the whole
    course when [k] is 0, since [-0] is [0]. *)
Definition slice_from_minus (self : Course) (k : nat) : Course :=
  match k with
  | O => self
  | S _ => drop (length self - k) self
  end.

(** [Course.ends_with] *)
Definition ends_with (self : Course) (other : bearing_or_course) : result bool :=
  match other with
  | ABearing b =>
      match last self with
      | Some final => Bearing_eq final (OBearing b)
      | None => Raise IndexError
      end
  | ACourse c => Ok (Course_eq (slice_from_minus self (length c)) c)
  end.

(** The index of [Course.replace]: an integer, or [slice(start, stop)]. *)
Inductive py_index : Type :=
| At (i : Z)
| Slice (start stop : option Z).

(** A bound of a slice on a list of [len] items: negative bounds count
    from the end, and the result is clipped to [0 .. len]. *)
Definition slice_bound (len : nat) (bound : option Z) (default : nat) : nat :=
  match bound with
  | None => default
  | Some z =>
      if (z <? 0)%Z then Z.to_nat (Z.max 0 (z + Z.of_nat len))
      else Nat.min (Z.to_nat z) len
  end.

(** [del bearing_list[index]] *)
Definition list_delete (l : list Bearing) (index : py_index) : result (list Bearing) :=
  match index with
  | At i =>
      match norm_index (length l) i with
      | Some j => Ok (take j l ++ drop (S j) l)
      | None => Raise IndexError
      end
  | Slice start stop =>
      let first := slice_bound (length l) start 0 in
      let past := slice_bound (length l) stop (length l) in
      if Nat.ltb first past then Ok (take first l ++ drop past l) else Ok l
  end.

Section MoreCourse.

Variable custom : string -> custom_bearing.

(** [Course.with_end_point] *)
Definition with_end_point (self : Course) (end_point : CourseInput) : result Course :=
  Course_init custom [] [CI_Course (parent self); end_point].

(** [Course.replace]; [start % len(self)] of an empty course is a
    [ZeroDivisionError]. *)
Definition Course_replace (self : Course) (index : py_index) (replacement : CourseInput)
  : result Course :=
  match list_delete self index with
  | Raise e => Raise e
  | Ok bearing_list =>
      let start := match index with At i => Some i | Slice start _ => start end in
      let position :=
        match start with
        | None => Ok 0
        | Some z =>
            match length self with
            | O => Raise (OtherError "ZeroDivisionError")
            | S _ => Ok (Z.to_nat (z mod Z.of_nat (length self)))
            end
        end in
      match position with
      | Raise e => Raise e
      | Ok start =>
          Course_init custom []
            (map CI_Bearing (take start bearing_list)
             ++ [replacement]
             ++ map CI_Bearing (drop start bearing_list))
      end
  end.

End MoreCourse.

(** A text without a newline. *)
Definition one_line (s : string) : Prop := ~ In newline (list_ascii_of_string s).

(** A text in which ["()"] does not occur. *)
Definition no_call_mark (s : string) : Prop :=
  forall a b : string, s <> String.append a (String.append "()" b).

(** ** Notions used by the properties of [Surveyor] *)

(** A surveyor none of whose compasses yields [Call] bearings, as the
    default surveyor. *)
Definition no_calls (self : Surveyor) : Prop :=
  Forall (fun compass => _calls compass = @Nothing string) (_compasses self).

(** A heap whose containers are read as the built-in ones are: no class of
    a list or dict on it overrides [__getitem__], and a dict holds each of
    its keys once, all of them hashable. *)
Definition readable (classes : string -> pyclass) (h : heap) : Prop :=
  forall (l : nat) (o : obj),
    h !! l = Some o ->
    match o with
    | OList cls _ => getitem_override classes cls = None
    | ODict cls items =>
        getitem_override classes cls = None
        /\ forall k v : val,
             In (k, v) items -> hashable classes h k = true /\ dict_find k items = Some v
    | OInst _ _ => True
    end.

(** An exception other than the [SuppressedErrors] that [chart] itself
    raises. *)
Definition plain_error (e : exn) : Prop :=
  match e with
  | SuppressedErrors _ _ => False
  | _ => True
  end.

(** A value at which the default surveyor stops: [None], a string or an
    integer. *)
Definition end_value (v : val) : bool :=
  match v with
  | VNone | VStr _ | VInt _ | VBool _ => true
  | _ => false
  end.

(** ** Notions used by the properties of [Cartographer] *)

(** A cartographer with the cleaning methods of the base class and a
    coordinate without cleaning functions of its own. *)
Definition no_cleaners (cart : Cartographer) (coord : Coordinate) : Prop :=
  cart_clean_org cart = Cartographer_clean_org
  /\ cart_clean_dst cart = Cartographer_clean_dst
  /\ cart_clean_value cart = Cartographer_clean_value
  /\ clean_org coord = None
  /\ clean_dst coord = None
  /\ clean_value coord = None.

(** [Course( *(Fallback(x) for x in course))] *)
Definition fallback_course (course : Course) : Course :=
  map (fun x => mkFallback (name x)) course.

(** The destination that [Cartographer.clean_dst] makes of an entry of
    [dst_list] when the first origin is [first]. *)
Definition cleaned_dst (first : Course) (entry : option Course) : option Course :=
  match entry with
  | Some course => Some course
  | None => Some (fallback_course first)
  end.

(** The course along which the value of a coordinate with the one origin
    [origin] is placed when nothing cleans: its one destination, or without
    a destination the [Fallback] bearings of the names of the origin.  A
    tuple of destinations is another case. *)
Definition placing_course (coord : Coordinate) (origin : Course) : option Course :=
  match dst coord with
  | None => Some (fallback_course origin)
  | Some (One destination) => Some destination
  | Some (Many _) => None
  end.

(** What became of one coordinate in the loop of [_map_coordinates] run
    with [exceptions=False]: it was applied, or it failed with an error
    that the loop records. *)
Inductive turn : Type :=
| Applied
| Failed (error : exn).

Definition is_applied (t : turn) : bool :=
  match t with Applied => true | Failed _ => false end.

(** The errors of the failed turns, in the order of the turns. *)
Fixpoint failures (turns : list turn) : list exn :=
  match turns with
  | [] => []
  | Applied :: rest => failures rest
  | Failed error :: rest => error :: failures rest
  end.

(** [mapped_in_turn run coords h turns h']: the coordinates [coords] are
    mapped by [run] one after the other, the first from the heap [h] and
    each next one from the heap the one before it left, and the last leaves
    [h'].  A coordinate is applied when [run] returns (its first origin is
    then the course the loop notes as mapped), and it fails when [run] ends
    in a [NullNameError]; no coordinate ends in another exception. *)
Inductive mapped_in_turn (run : Coordinate -> M Coordinate)
  : list Coordinate -> heap -> list turn -> heap -> Prop :=
| turn_none h : mapped_in_turn run [] h [] h
| turn_applied coord coord' first others rest h h1 turns h' :
    run coord h = (Ok coord', h1) ->
    org_list (clean coord') = first :: others ->
    mapped_in_turn run rest h1 turns h' ->
    mapped_in_turn run (coord :: rest) h (Applied :: turns) h'
| turn_failed coord origin rest h h1 turns h' :
    run coord h = (Raise (NullNameError origin), h1) ->
    mapped_in_turn run rest h1 turns h' ->
    mapped_in_turn run (coord :: rest) h (Failed (NullNameError origin) :: turns) h'.

(** [Coordinate(org=origin, dst=destination)] *)
Definition Coord_to (origin destination : Course) : Coordinate :=
  {| org := One origin; dst := Some (One destination); clean_org := None;
     clean_dst := None; clean_value := None; default := NO_DEFAULT;
     clean := {| org_list := []; dst_list := []; default_list := []; cd_value := VNone |} |}.

(** [{"a": "a value", "n": {"x": 1}}] mapped onto [{"out": {}}]: the cache
    at 0, the origin at 1, the destination at 2, the nested dict of the
    origin at 3 and that of the destination at 4. *)
Definition five_heap : heap :=
  [ODict "dict" [];
   ODict "dict" [(VStr "a", VStr "a value"); (VStr "n", VRef 3)];
   ODict "dict" [(VStr "out", VRef 4)];
   ODict "dict" [(VStr "x", VInt 1)];
   ODict "dict" []].

(** Five coordinates, of which the second, the fourth and the fifth name
    what the origin lacks:
    [Coordinate(org=PORT / "a")], [Coordinate(org=PORT / "b")],
    [Coordinate(org=PORT / "n" / "x", dst=PORT / "out" / "y")],
    [Coordinate(org=PORT / "n" / "zz")] and
    [Coordinate(org=PORT / "c", dst=PORT / "c2")]. *)
Definition five_coordinates : list Coordinate :=
  [Coord (key_course "a");
   Coord (key_course "b");
   Coord_to [mkFallback (VStr "n"); mkFallback (VStr "x")]
            [mkFallback (VStr "out"); mkFallback (VStr "y")];
   Coord [mkFallback (VStr "n"); mkFallback (VStr "zz")];
   Coord_to (key_course "c") (key_course "c2")].

(** A dict literal in which no key is written twice. *)
Definition distinct_keys (d : list (val * val)) : Prop :=
  forall (i j : nat) (e1 e2 : val * val),
    d !! i = Some e1 -> d !! j = Some e2 -> py_eq (fst e1) (fst e2) = true -> i = j.

(** [acc.update(d)]: the items of [d] set on [acc] in the order of [d]. *)
Definition dict_update (acc d : list (val * val)) : list (val * val) :=
  fold_left (fun acc kv => dict_set (fst kv) (snd kv) acc) d acc.

(** * Properties *)

Section Properties.

Variable classes : string -> pyclass.
Variable custom : string -> custom_bearing.
Variable recursion_limit : nat.

(** ** Heap and list helpers *)

Lemma append_nones_list (n : nat) :
  forall (h : heap) (l : nat) (cls : string) (items : list val),
    h !! l = Some (OList cls items) ->
    append_nones n (VRef l) h
    = (Ok tt, <[l := OList cls (items ++ replicate n VNone)]> h).
Proof.
  induction n as [|n IH]; intros h l cls items Hl.
  - change (replicate 0 VNone) with (@nil val). rewrite app_nil_r.
    rewrite list_insert_id by exact Hl. reflexivity.
  - cbn [append_nones]. unfold bind, list_append. rewrite Hl.
    assert (Hlt : l < length h) by (eapply lookup_lt_Some; exact Hl).
    rewrite (IH _ l cls (items ++ [VNone])).
    + rewrite list_insert_insert_eq. rewrite <- app_assoc. reflexivity.
    + apply list_lookup_insert_eq. exact Hlt.
Qed.

Lemma insert_last_replicate (items : list val) (k : nat) (v : val) :
  <[length items + k := v]> (items ++ replicate (S k) VNone)
  = items ++ replicate k VNone ++ [v].
Proof.
  rewrite insert_app_r. f_equal.
  rewrite replicate_S_end.
  replace k with (length (replicate k VNone) + 0) at 1
    by (rewrite length_replicate; lia).
  rewrite insert_app_r. reflexivity.
Qed.

Lemma norm_index_beyond (len : nat) (p : Z) :
  (Z.of_nat len <= p)%Z -> norm_index len p = None.
Proof.
  intros Hp. unfold norm_index.
  destruct (p <? 0)%Z eqn:Hneg; [apply Z.ltb_lt in Hneg; lia|].
  destruct (0 <=? p)%Z; cbn; [|reflexivity].
  destruct (p <? Z.of_nat len)%Z eqn:Hlt; [apply Z.ltb_lt in Hlt; lia|reflexivity].
Qed.

Lemma norm_index_inside (len : nat) (p : Z) :
  (0 <= p < Z.of_nat len)%Z -> norm_index len p = Some (Z.to_nat p).
Proof.
  intros Hp. unfold norm_index.
  destruct (p <? 0)%Z eqn:Hneg; [apply Z.ltb_lt in Hneg; lia|].
  destruct (0 <=? p)%Z eqn:H0; [|apply Z.leb_gt in H0; lia].
  destruct (p <? Z.of_nat len)%Z eqn:Hlt; [reflexivity|apply Z.ltb_ge in Hlt; lia].
Qed.

(** C7: [Item.place] on a list of length [n] at an integer position
    [p >= n] succeeds; afterwards the list has length [p + 1], keeps its
    [n] items, holds [None] at the positions [n] to [p - 1] (exactly
    [p - n] placeholders) and the placed value at position [p]. *)
Theorem C7_Item_place_pads_list
    (h : heap) (l : nat) (items : list val) (self : Bearing) (v : val) (p : Z) :
  h !! l = Some (OList "list" items) ->
  as_int (name self) = Some p ->
  (Z.of_nat (length items) <= p)%Z ->
  exists items' : list val,
    Item_place classes self (VRef l) v h = (Ok tt, <[l := OList "list" items']> h)
    /\ items' = items ++ replicate (Z.to_nat p - length items) VNone ++ [v]
    /\ length items' = S (Z.to_nat p)
    /\ (forall i, i < length items -> items' !! i = items !! i)
    /\ (forall i, length items <= i < Z.to_nat p -> items' !! i = Some VNone)
    /\ items' !! Z.to_nat p = Some v.
Proof.
  intros Hl Hname Hp.
  set (n := length items) in *.
  set (k := Z.to_nat p - n).
  assert (Hk : Z.to_nat (p + 1 - Z.of_nat n) = S k) by (unfold k; lia).
  assert (Hpk : Z.to_nat p = n + k) by (unfold k; lia).
  exists (items ++ replicate k VNone ++ [v]).
  split; [|split; [reflexivity|split; [|split; [|split]]]].
  - unfold Item_place, try_except, py_setitem. rewrite Hl. cbn [setitem_override builtin_type].
    unfold setitem_override. cbn [builtin_type String.eqb Ascii.eqb Bool.eqb orb].
    unfold seq_setitem. rewrite Hname. fold n.
    rewrite (norm_index_beyond n p Hp).
    unfold is_list, list_len. rewrite Hl. fold n. rewrite Hk.
    unfold bind. rewrite (append_nones_list (S k) h l "list" items Hl).
    assert (Hlt : l < length h) by (eapply lookup_lt_Some; exact Hl).
    unfold py_setitem. rewrite list_lookup_insert_eq by exact Hlt.
    unfold setitem_override. cbn [builtin_type String.eqb Ascii.eqb Bool.eqb orb].
    unfold seq_setitem.
    rewrite norm_index_inside
      by (rewrite length_app, length_replicate; fold n; lia).
    rewrite list_insert_insert_eq. rewrite Hpk. unfold n.
    rewrite insert_last_replicate. reflexivity.
  - rewrite !length_app, length_replicate. cbn. fold n. lia.
  - intros i Hi. rewrite lookup_app_l by exact Hi. reflexivity.
  - intros i Hi. rewrite lookup_app_r by (fold n; lia). fold n.
    rewrite lookup_app_l by (rewrite length_replicate; lia).
    apply lookup_replicate_2. lia.
  - rewrite Hpk. rewrite lookup_app_r by (fold n; lia). fold n.
    replace (n + k - n) with (length (replicate k VNone) + 0)
      by (rewrite length_replicate; lia).
    rewrite lookup_app_r by lia.
    replace (length (replicate k VNone) + 0 - length (replicate k VNone)) with 0 by lia.
    reflexivity.
Qed.

Lemma dict_set_fresh (k v : val) (items : list (val * val)) :
  dict_find k items = None -> dict_set k v items = items ++ [(k, v)].
Proof.
  induction items as [|[k' v'] items IH]; intros Hfind; [reflexivity|].
  cbn in *. destruct (py_eq k' k); [discriminate|].
  rewrite IH by exact Hfind. reflexivity.
Qed.

Lemma append_nones_is_list (n : nat) (target : val) (h : heap) :
  is_list target h = true -> exists h', append_nones n target h = (Ok tt, h').
Proof.
  unfold is_list. destruct target as [| | | | |l| |]; try discriminate.
  destruct (h !! l) as [[cls items| |]|] eqn:Hl; try discriminate.
  intros _. eexists. eapply append_nones_list. exact Hl.
Qed.

(** The item assignment of the built-in containers and of the immutable
    values never raises [NullNameError] itself. *)
Lemma py_setitem_builtin_no_null (target key v : val) (h h' : heap) (origin : Bearing) :
  match target with
  | VRef l =>
      match h !! l with
      | Some (OList cls _) | Some (ODict cls _) => builtin_type cls = true
      | _ => False
      end
  | _ => True
  end ->
  py_setitem classes target key v h <> (Raise (NullNameError origin), h').
Proof.
  unfold py_setitem, setitem_override.
  destruct target as [| | | | |l| |]; try (intros _; discriminate).
  destruct (h !! l) as [[cls items|cls items|]|]; try contradiction.
  - intros ->. unfold seq_setitem. destruct (as_int key); [|discriminate].
    destruct (norm_index _ _); discriminate.
  - intros ->. destruct (hashable classes h key); discriminate.
Qed.

(** C10, as the code has it: on a standard dict, [Item.place] with a
    hashable key that is not present inserts that key with the given value
    and does not raise; with an unhashable name it raises [TypeError] and
    leaves the dict as it was.  [Item.place] ends in a [NullNameError] of
    its own exactly when the item assignment of the target raised
    [KeyError], or raised [IndexError] while the target is no list or the
    name no integer (no extension); any other [NullNameError] out of
    [Item.place] is one the item assignment of the target raised itself,
    and such a one always passes through. *)
Theorem C10_Item_place_dict_insert_and_null_name :
  (forall (h : heap) (l : nat) (items : list (val * val)) (self : Bearing) (v : val),
      h !! l = Some (ODict "dict" items) ->
      hashable classes h (name self) = true ->
      dict_find (name self) items = None ->
      Item_place classes self (VRef l) v h
      = (Ok tt, <[l := ODict "dict" (items ++ [(name self, v)])]> h))
  /\ (forall (h : heap) (l : nat) (items : list (val * val)) (self : Bearing) (v : val),
      h !! l = Some (ODict "dict" items) ->
      hashable classes h (name self) = false ->
      Item_place classes self (VRef l) v h = (Raise TypeError, h))
  /\ (forall (self : Bearing) (target v : val) (h h' : heap) (origin : Bearing),
      py_setitem classes target (name self) v h = (Raise (NullNameError origin), h') ->
      Item_place classes self target v h = (Raise (NullNameError origin), h'))
  /\ (forall (self : Bearing) (target v : val) (h h' : heap) (origin : Bearing),
      Item_place classes self target v h = (Raise (NullNameError origin), h') ->
      (origin = self
       /\ py_setitem classes target (name self) v h = (Raise KeyError, h'))
      \/ (origin = self
          /\ py_setitem classes target (name self) v h = (Raise IndexError, h')
          /\ is_list target h' && is_int (name self) = false)
      \/ (exists h0 : heap,
            py_setitem classes target (name self) v h0 = (Raise (NullNameError origin), h')))
  /\ (forall (self : Bearing) (target v : val) (h h' : heap),
      py_setitem classes target (name self) v h = (Raise KeyError, h') ->
      Item_place classes self target v h = (Raise (NullNameError self), h'))
  /\ (forall (self : Bearing) (target v : val) (h h' : heap),
      py_setitem classes target (name self) v h = (Raise IndexError, h') ->
      is_list target h' && is_int (name self) = false ->
      Item_place classes self target v h = (Raise (NullNameError self), h')).
Proof.
  split; [|split; [|split; [|split; [|split]]]].
  - intros h l items self v Hl Hhash Hfind.
    unfold Item_place, try_except, py_setitem, setitem_override.
    rewrite Hl. cbn [builtin_type String.eqb Ascii.eqb Bool.eqb orb].
    rewrite Hhash, (dict_set_fresh _ _ _ Hfind). reflexivity.
  - intros h l items self v Hl Hhash.
    unfold Item_place, try_except, py_setitem, setitem_override.
    rewrite Hl. cbn [builtin_type String.eqb Ascii.eqb Bool.eqb orb].
    rewrite Hhash. reflexivity.
  - intros self target v h h' origin Hset.
    unfold Item_place, try_except. rewrite Hset. reflexivity.
  - intros self target v h h' origin.
    unfold Item_place, try_except.
    destruct (py_setitem classes target (name self) v h) as [[u|e] h1] eqn:Hset;
      [discriminate|].
    destruct e; try discriminate.
    + intros Heq. right; right. exists h. rewrite Hset. exact Heq.
    + unfold raise. intros Heq. injection Heq as <- <-. left. split; reflexivity.
    + unfold is_int.
      destruct (is_list target h1) eqn:Hlist.
      * destruct (as_int (name self)) as [p|] eqn:Hint.
        -- unfold bind.
           destruct (append_nones_is_list
                       (Z.to_nat (p + 1 - Z.of_nat (list_len target h1))) target h1 Hlist)
             as [h2 ->].
           intros Heq. right; right. exists h2. exact Heq.
        -- unfold raise. intros Heq. injection Heq as <- <-.
           right; left. rewrite Hlist. repeat split; reflexivity.
      * unfold raise. intros Heq. injection Heq as <- <-.
        right; left. rewrite Hlist. repeat split; reflexivity.
  - intros self target v h h' Hset.
    unfold Item_place, try_except. rewrite Hset. reflexivity.
  - intros self target v h h' Hset Hno.
    unfold Item_place, try_except. rewrite Hset.
    unfold is_int in Hno.
    destruct (is_list target h'); [|reflexivity].
    destruct (as_int (name self)); [discriminate|reflexivity].
Qed.

(** C9: [==] between a bearing and an operand that is no bearing raises
    [TypeError]; it returns neither [False] nor [True]. *)
Theorem C9_eq_other_type_raises (self : Bearing) (other : val) :
  Bearing_eq self (OOther other) = Raise TypeError
  /\ (forall b : bool, Bearing_eq self (OOther other) <> Ok b).
Proof.
  split; [reflexivity|]. intros b. discriminate.
Qed.

(** ** Equality of bearings *)

Lemma py_eq_sym : forall a b : val, py_eq a b = py_eq b a.
Proof.
  fix IH 1. intros a b.
  destruct a as [|x|x|x|xs|x|s m|x], b as [|y|y|y|ys|y|s' m'|y];
    try reflexivity; cbn [py_eq].
  - destruct x, y; reflexivity.
  - apply Z.eqb_sym.
  - apply Z.eqb_sym.
  - apply Z.eqb_sym.
  - apply String.eqb_sym.
  - revert ys. induction xs as [|x xs IHxs]; intros [|y ys]; try reflexivity.
    rewrite (IH x y). rewrite (IHxs ys). reflexivity.
  - apply Nat.eqb_sym.
  - rewrite (IH s s'), (String.eqb_sym m m'). reflexivity.
  - apply String.eqb_sym.
Qed.

(** [__eq__] between two bearings as one boolean expression. *)
Lemma Bearing_eq_bool (a b : Bearing) :
  Bearing_eq a (OBearing b)
  = Ok (py_eq (name b) (name a)
        && ((isinstance b Fallback && class_in (b_type a) (BEARING_CLASSES b))
            || (isinstance a Fallback && class_in (b_type b) (BEARING_CLASSES a))
            || isinstance b (b_type a)
            || isinstance a (b_type b))).
Proof.
  unfold Bearing_eq.
  destruct (py_eq (name b) (name a)); cbn [negb andb]; [|reflexivity].
  destruct (isinstance b Fallback && class_in (b_type a) (BEARING_CLASSES b));
    [reflexivity|].
  destruct (isinstance a Fallback && class_in (b_type b) (BEARING_CLASSES a));
    [reflexivity|].
  destruct (isinstance b (b_type a)); [reflexivity|].
  destruct (isinstance a (b_type b)); reflexivity.
Qed.

Lemma bclass_eqb_sym (c d : bclass) : bclass_eqb c d = bclass_eqb d c.
Proof.
  revert d. induction c as [| | | | |n base IH]; intros [| | | | |n' base'];
    try reflexivity.
  cbn. rewrite (String.eqb_sym n n'), (IH base'). reflexivity.
Qed.

Lemma issubclass_builtin (c d : bclass) :
  builtin_variant c = true -> builtin_variant d = true ->
  issubclass c d = bclass_eqb c d.
Proof.
  destruct c, d; try discriminate; reflexivity.
Qed.

(** C6, amended: [a == b] holds exactly when the names are equal and one
    of the two is an instance of the type of the other (the same type or a
    subclass of it), or either side is a [Fallback] whose [BEARING_CLASSES]
    include the type of the other.  Between the four variants [Item],
    [Attr], [Call] and [Fallback] this is the equality of the
    specification.  A [Fallback] whose list includes the type of the other
    bearing, with an equal name, is equal to it in both directions. *)
Theorem C6_Bearing_eq_instance_or_fallback (a b : Bearing) :
  (Bearing_eq a (OBearing b) = Ok true <->
     py_eq (name b) (name a) = true
     /\ (isinstance b (b_type a) = true
         \/ isinstance a (b_type b) = true
         \/ (isinstance b Fallback = true
             /\ class_in (b_type a) (BEARING_CLASSES b) = true)
         \/ (isinstance a Fallback = true
             /\ class_in (b_type b) (BEARING_CLASSES a) = true)))
  /\ (builtin_variant (b_type a) = true -> builtin_variant (b_type b) = true ->
      Bearing_eq a (OBearing b) = Ok (spec_Bearing_equal a b))
  /\ (isinstance a Fallback = true ->
      class_in (b_type b) (BEARING_CLASSES a) = true ->
      py_eq (name b) (name a) = true ->
      Bearing_eq a (OBearing b) = Ok true /\ Bearing_eq b (OBearing a) = Ok true).
Proof.
  split; [|split].
  - rewrite Bearing_eq_bool. split.
    + intros Heq. injection Heq as Heq.
      apply andb_true_iff in Heq as [Hname Hrest]. split; [exact Hname|].
      repeat (apply orb_true_iff in Hrest as [Hrest|Hrest]).
      * apply andb_true_iff in Hrest. right; right; left. exact Hrest.
      * apply andb_true_iff in Hrest. right; right; right. exact Hrest.
      * left. exact Hrest.
      * right; left. exact Hrest.
    + intros [Hname Hrest]. rewrite Hname. cbn [andb]. f_equal.
      destruct Hrest as [H|[H|[[H1 H2]|[H1 H2]]]].
      * rewrite H. rewrite !orb_true_r. reflexivity.
      * rewrite H. rewrite !orb_true_r. reflexivity.
      * rewrite H1, H2. reflexivity.
      * rewrite H1, H2. cbn. rewrite orb_true_r. reflexivity.
  - intros Ha Hb. rewrite Bearing_eq_bool. unfold spec_Bearing_equal, isinstance.
    rewrite (issubclass_builtin _ _ Hb Ha), (issubclass_builtin _ _ Ha Hb).
    rewrite (bclass_eqb_sym (b_type b) (b_type a)).
    f_equal. f_equal.
    destruct (bclass_eqb (b_type a) (b_type b));
      destruct (issubclass (b_type a) Fallback && class_in (b_type b) (BEARING_CLASSES a));
      destruct (issubclass (b_type b) Fallback && class_in (b_type a) (BEARING_CLASSES b));
      reflexivity.
  - intros Hfb Hin Hname. rewrite !Bearing_eq_bool.
    rewrite Hname, (py_eq_sym (name a) (name b)), Hname, Hfb, Hin.
    cbn [andb orb]. rewrite !orb_true_r. split; reflexivity.
Qed.

(** ** [Fallback.fetch] *)

(** The classes that failed are skipped: the loop goes on with the rest of
    the list from the heap they left. *)
Lemma Fallback_fetch_loop_tried (fetch_as : Bearing -> val -> M val)
    (self : Bearing) (target : val) (pre : list bclass) (h h1 : heap) :
  tried custom fetch_as self target pre h h1 ->
  forall rest : list bclass,
    Fallback_fetch_loop custom fetch_as self (pre ++ rest) target h
    = Fallback_fetch_loop custom fetch_as self rest target h1.
Proof.
  induction 1 as [h|c cs h h' Hcast _ IH|c cs cb e h h1 h' Hcast Hfetch Hsw _ IH];
    intros rest.
  - reflexivity.
  - cbn [app Fallback_fetch_loop]. rewrite Hcast. apply IH.
  - cbn [app Fallback_fetch_loop]. rewrite Hcast.
    unfold try_except. rewrite Hfetch, Hsw. apply IH.
Qed.

(** C4: [Fallback.fetch] goes through [BEARING_CLASSES] in order (for a
    [Fallback] built by its constructor: [Item], [Call], [Attr]); each
    class is tried on the cast of the bearing, which keeps the name and is
    fetched as that variant; a cast that raises [TypeError] and a fetch
    that raises [NullNameError], [TypeError] or [ValueError] pass to the
    next class; the value of the first fetch that succeeds is returned;
    when every class has failed, [NullNameError] is raised. *)
Theorem C4_Fallback_fetch_first_success (self : Bearing) (target : val) :
  (forall nm : val,
      new_bearing custom Fallback nm None = Ok (mkFallback nm)
      /\ BEARING_CLASSES (mkFallback nm) = [Item; Call; Attr])
  /\ (b_type self = Fallback ->
      fetch classes custom self target = Fallback_fetch classes custom self target)
  /\ (forall cast_bearing : Bearing,
        (cast custom Item self = Ok cast_bearing ->
         name cast_bearing = name self
         /\ fetch_cast classes custom cast_bearing target
            = Item_fetch classes cast_bearing target)
        /\ (cast custom Call self = Ok cast_bearing ->
            name cast_bearing = name self
            /\ fetch_cast classes custom cast_bearing target
               = Call_fetch classes cast_bearing target)
        /\ (cast custom Attr self = Ok cast_bearing ->
            name cast_bearing = name self
            /\ fetch_cast classes custom cast_bearing target
               = Attr_fetch classes cast_bearing target))
  /\ (forall (pre post : list bclass) (c : bclass) (cast_bearing : Bearing)
             (v : val) (h h1 h2 : heap),
        BEARING_CLASSES self = pre ++ c :: post ->
        tried custom (fetch_cast classes custom) self target pre h h1 ->
        cast custom c self = Ok cast_bearing ->
        fetch_cast classes custom cast_bearing target h1 = (Ok v, h2) ->
        Fallback_fetch classes custom self target h = (Ok v, h2))
  /\ (forall h h' : heap,
        tried custom (fetch_cast classes custom) self target (BEARING_CLASSES self) h h' ->
        Fallback_fetch classes custom self target h = (Raise (NullNameError self), h')).
Proof.
  split; [|split; [|split; [|split]]].
  - intros nm. split; reflexivity.
  - intros Hty. unfold fetch, fetch_with. rewrite Hty. reflexivity.
  - intros cb. unfold cast, new_bearing. split; [|split].
    + intros Hcast. injection Hcast as <-. split; reflexivity.
    + destruct (is_str (name self)); [|discriminate].
      intros Hcast. injection Hcast as <-. split; reflexivity.
    + destruct (is_str (name self)); [|discriminate].
      intros Hcast. injection Hcast as <-. split; reflexivity.
  - intros pre post c cb v h h1 h2 Hlist Htried Hcast Hfetch.
    unfold Fallback_fetch. rewrite Hlist.
    rewrite (Fallback_fetch_loop_tried _ _ _ _ _ _ Htried).
    cbn [Fallback_fetch_loop]. rewrite Hcast. unfold try_except.
    rewrite Hfetch. reflexivity.
  - intros h h' Htried. unfold Fallback_fetch.
    rewrite <- (app_nil_r (BEARING_CLASSES self)).
    rewrite (Fallback_fetch_loop_tried _ _ _ _ _ _ Htried).
    reflexivity.
Qed.

(** ** [Course.fetch] *)

(** C8: [Course.fetch] applies the fetch of each bearing to the running
    value; a [NullNameError] at any step returns the default when one was
    supplied and propagates otherwise, and any other exception propagates.
    The course of ["[nested]/[one key]"] is [Item "nested"] followed by
    [Item "one key"]; it fetches [1] from [{"nested": {"one key": 1}}] and
    [99] from [{"nested": {}}] with [default=99]. *)
Theorem C8_Course_fetch_steps_and_default :
  (forall (target default : val) (h : heap),
      Course_fetch classes custom [] target default h = (Ok target, h))
  /\ (forall (b : Bearing) (rest : Course) (target default target' : val) (h h' : heap),
        fetch classes custom b target h = (Ok target', h') ->
        Course_fetch classes custom (b :: rest) target default h
        = Course_fetch classes custom rest target' default h')
  /\ (forall (b : Bearing) (rest : Course) (target default : val) (h h' : heap)
             (origin : Bearing),
        fetch classes custom b target h = (Raise (NullNameError origin), h') ->
        Course_fetch classes custom (b :: rest) target default h
        = if is_sentinel "NO_DEFAULT" default
          then (Raise (NullNameError origin), h')
          else (Ok default, h'))
  /\ (forall (b : Bearing) (rest : Course) (target default : val) (h h' : heap) (e : exn),
        fetch classes custom b target h = (Raise e, h') ->
        is_NullNameError e = false ->
        Course_fetch classes custom (b :: rest) target default h = (Raise e, h'))
  /\ Course_init custom [] [CI_val (VStr "[nested]/[one key]")]
     = Ok [mkItem (VStr "nested"); mkItem (VStr "one key")]
  /\ (forall (h : heap) (root nested : nat),
        h !! root = Some (ODict "dict" [(VStr "nested", VRef nested)]) ->
        h !! nested = Some (ODict "dict" [(VStr "one key", VInt 1)]) ->
        Course_fetch classes custom [mkItem (VStr "nested"); mkItem (VStr "one key")]
          (VRef root) NO_DEFAULT h
        = (Ok (VInt 1), h))
  /\ (forall (h : heap) (root nested : nat),
        h !! root = Some (ODict "dict" [(VStr "nested", VRef nested)]) ->
        h !! nested = Some (ODict "dict" []) ->
        Course_fetch classes custom [mkItem (VStr "nested"); mkItem (VStr "one key")]
          (VRef root) (VInt 99) h
        = (Ok (VInt 99), h)).
Proof.
  repeat split.
  - intros b rest target default target' h h' Hfetch.
    cbn [Course_fetch]. rewrite Hfetch. reflexivity.
  - intros b rest target default h h' origin Hfetch.
    cbn [Course_fetch]. rewrite Hfetch.
    destruct (is_sentinel "NO_DEFAULT" default); reflexivity.
  - intros b rest target default h h' e Hfetch Hnot.
    cbn [Course_fetch]. rewrite Hfetch.
    destruct e; try reflexivity. discriminate.
  - intros h root nested Hroot Hnested.
    cbn [Course_fetch]. unfold fetch, fetch_with. cbn [b_type mkItem].
    unfold Item_fetch, try_except, py_getitem, getitem_override. cbn [name].
    rewrite Hroot. cbn. rewrite Hnested. cbn. reflexivity.
  - intros h root nested Hroot Hnested.
    cbn [Course_fetch]. unfold fetch, fetch_with. cbn [b_type mkItem].
    unfold Item_fetch, try_except, py_getitem, getitem_override. cbn [name].
    rewrite Hroot. cbn. rewrite Hnested. cbn. reflexivity.
Qed.

(** ** [Cartographer.map] *)

Lemma map_coordinates_app (cart : Cartographer) (origin_root dst_root : val)
    (exceptions : bool) (pre : list Coordinate) :
  forall (rest : list Coordinate) (mapped mapped' : list Course)
         (errors errors' : list exn) (h h' : heap),
    _map_coordinates classes custom cart origin_root dst_root pre exceptions
      mapped errors h = (Ok (mapped', errors'), h') ->
    _map_coordinates classes custom cart origin_root dst_root (pre ++ rest) exceptions
      mapped errors h
    = _map_coordinates classes custom cart origin_root dst_root rest exceptions
        mapped' errors' h'.
Proof.
  induction pre as [|c pre IH]; intros rest mapped mapped' errors errors' h h' Hpre.
  - cbn in Hpre. injection Hpre as <- <- <-. reflexivity.
  - cbn [app _map_coordinates] in *.
    destruct (_map_coordinate classes custom cart origin_root dst_root c h)
      as [[c'|e] h1].
    + destruct (org_list (clean c')) as [|first others]; [discriminate|].
      apply IH. exact Hpre.
    + destruct e; try discriminate.
      destruct exceptions; [discriminate|]. apply IH. exact Hpre.
Qed.

(** C2, amended: without an explicit error-mode argument [map] runs with
    [exceptions=True]: the first [NullNameError] out of the fetch or the
    place of a coordinate propagates at once, the coordinates after it are
    not processed and nothing is aggregated.  Only with [exceptions=False]
    is the failure recorded and the next coordinate processed, and the
    recorded failures then leave [map] together in one
    [SuppressedErrors]. *)
Theorem C2_map_default_propagates
    (cart : Cartographer) (origin_root dst_root : val) :
  (forall (coordinates : option (list Coordinate)) (surveyor : option Surveyor) (h : heap),
      Cartographer_map classes custom recursion_limit cart origin_root dst_root
        coordinates surveyor None h
      = Cartographer_map classes custom recursion_limit cart origin_root dst_root
          coordinates surveyor (Some true) h)
  /\ (forall (pre post : list Coordinate) (c : Coordinate) (surveyor : option Surveyor)
             (mapped : list Course) (origin : Bearing) (h h1 h2 : heap),
        _map_coordinates classes custom cart origin_root dst_root (map reset pre) true
          [] [] h = (Ok (mapped, []), h1) ->
        _map_coordinate classes custom cart origin_root dst_root (reset c) h1
        = (Raise (NullNameError origin), h2) ->
        Cartographer_map classes custom recursion_limit cart origin_root dst_root
          (Some (pre ++ c :: post)) surveyor None h
        = (Raise (NullNameError origin), h2))
  /\ (forall (c : Coordinate) (rest : list Coordinate) (mapped : list Course)
             (errors : list exn) (origin : Bearing) (h h1 : heap),
        _map_coordinate classes custom cart origin_root dst_root c h
        = (Raise (NullNameError origin), h1) ->
        _map_coordinates classes custom cart origin_root dst_root (c :: rest) false
          mapped errors h
        = _map_coordinates classes custom cart origin_root dst_root rest false
            mapped (errors ++ [NullNameError origin]) h1)
  /\ (forall (coordinates : list Coordinate) (mapped : list Course) (e : exn)
             (errors : list exn) (h h1 : heap),
        _map_coordinates classes custom cart origin_root dst_root (map reset coordinates)
          false [] [] h = (Ok (mapped, e :: errors), h1) ->
        Cartographer_map classes custom recursion_limit cart origin_root dst_root
          (Some coordinates) None (Some false) h
        = (Raise (SuppressedErrors (e :: errors) []), h1)).
Proof.
  split; [|split; [|split]].
  - reflexivity.
  - intros pre post c surveyor mapped origin h h1 h2 Hpre Hc.
    unfold Cartographer_map. fold reset. unfold bind at 1.
    rewrite map_app. cbn [map].
    rewrite (map_coordinates_app _ _ _ _ _ _ _ _ _ _ _ _ Hpre).
    cbn [_map_coordinates]. rewrite Hc. reflexivity.
  - intros c rest mapped errors origin h h1 Hc.
    cbn [_map_coordinates]. rewrite Hc. reflexivity.
  - intros coordinates mapped e errors h h1 Hrun.
    unfold Cartographer_map. fold reset. unfold bind at 1.
    rewrite Hrun. reflexivity.
Qed.

Lemma sort_reverse_len_chart_item (course_chart : list (Course * val)) :
  sort_reverse len_chart_item course_chart = course_chart.
Proof.
  induction course_chart as [|x rest IH]; [reflexivity|].
  unfold sort_reverse in *. cbn [fold_right]. rewrite IH.
  destruct rest; reflexivity.
Qed.

End Properties.

(** * Closed instances *)

(** C3: the chart is sorted on [len(x)] of its items [x], which are the
    pairs [(course, value)], so the sort leaves the order of the survey,
    parents before children.  For [{"a": {"b": 1}}] the chart is
    [a], [a/b]; the course [a] is mapped first, and the deeper course
    [a/b], which contains the mapped [a], is skipped. *)
Theorem C3_survey_maps_parent_before_child :
  (forall course_chart : list (Course * val),
      sort_reverse len_chart_item course_chart = course_chart)
  /\ chart test_classes default_recursion_limit Surveyor_default (VRef 1) true nested_heap
     = (Ok [([mkItem (VStr "a")], VRef 3);
            ([mkItem (VStr "a"); mkItem (VStr "b")], VInt 1)],
        nested_heap)
  /\ _chart_survey test_classes test_custom default_recursion_limit
       (base_cartographer 0) (VRef 1) (VRef 2) Surveyor_default true [] nested_heap
     = (Ok ([], [[mkItem (VStr "a")]]),
        <[2 := ODict "dict" [(VStr "a", VRef 3)]]> nested_heap).
Proof.
  split; [exact sort_reverse_len_chart_item|].
  split; [vm_compute; reflexivity|].
  vm_compute; reflexivity.
Qed.

(** C1: [map] does not clear the cache.  A cleaning function of a first
    [map] stores a value in the cache; a cleaning function of a second
    [map] on the same cartographer reads it back, and the value of the
    first run lands in the destination.  Had the cache been emptied before
    the second call, that cleaning function would have raised
    [KeyError]. *)
Theorem C1_cache_survives_between_maps :
  let cart := base_cartographer 0 in
  let first_map :=
    Cartographer_map test_classes test_custom default_recursion_limit cart
      (VRef 1) (VRef 2) (Some [cleaned_coordinate "a" (stash_value test_classes)])
      None None in
  let second_map :=
    Cartographer_map test_classes test_custom default_recursion_limit cart
      (VRef 3) (VRef 2) (Some [cleaned_coordinate "b" (recall_value test_classes)])
      None None in
  Cartographer_init [] = (Ok cart, [ODict "dict" []])
  /\ exists h1 h2 : heap,
       first_map two_runs_heap = (Ok tt, h1)
       /\ h1 !! 0 = Some (ODict "dict" [(VStr "stash", VStr "first run")])
       /\ second_map h1 = (Ok tt, h2)
       /\ h2 !! 2 = Some (ODict "dict" [(VStr "a", VStr "first run");
                                        (VStr "b", VStr "first run")])
       /\ fst (second_map (<[0 := ODict "dict" []]> h1)) = Raise KeyError.
Proof.
  cbv zeta. split; [reflexivity|].
  eexists. eexists.
  split; [vm_compute; reflexivity|].
  split; [reflexivity|].
  split; [vm_compute; reflexivity|].
  split; [reflexivity|].
  vm_compute. reflexivity.
Qed.

(** C2, the default mode is no suppression: with the error mode left
    out, the coordinate [PORT / "b"], whose key the origin lacks, makes
    [map] raise its
    [NullNameError] at once; the coordinate [PORT / "a"] after it is not
    applied and the destination stays empty, where the suppressed mode
    applies it and raises [SuppressedErrors]. *)
Lemma C2_default_is_not_suppression :
  let run := Cartographer_map test_classes test_custom default_recursion_limit
               (base_cartographer 0) (VRef 1) (VRef 2)
               (Some [Coord (key_course "b"); Coord (key_course "a")]) None in
  run None two_keys_heap
  = (Raise (NullNameError (mkFallback (VStr "b"))), two_keys_heap)
  /\ run (Some false) two_keys_heap
     = (Raise (SuppressedErrors [NullNameError (mkFallback (VStr "b"))] []),
        <[2 := ODict "dict" [(VStr "a", VStr "a value")]]> two_keys_heap)
  /\ run None two_keys_heap <> run (Some false) two_keys_heap.
Proof.
  cbv zeta. split; [vm_compute; reflexivity|].
  split; [vm_compute; reflexivity|].
  vm_compute. discriminate.
Qed.

(** C10, a [NullNameError] without a [KeyError] or an [IndexError], and a
    key that is not present and not inserted: the item assignment of a
    [ThrowsNullNameError] raises [NullNameError] itself, and [Item.place]
    lets it through as it is, with the bearing of the target and not its
    own; and on the dict [{"a": "a value"}] the [Item] whose name is a
    [TestData] instance, which is no key of the dict, raises [TypeError],
    the instances of a [@dataclass] being unhashable. *)
Lemma C10_null_name_without_key_or_index_error :
  py_setitem user_classes (VRef 0) (VStr "c") (VStr "changed")
    [OInst "ThrowsNullNameError" []]
  = (Raise (NullNameError (mkItem (VStr "inner"))), [OInst "ThrowsNullNameError" []])
  /\ Item_place user_classes (mkItem (VStr "c")) (VRef 0) (VStr "changed")
       [OInst "ThrowsNullNameError" []]
     = (Raise (NullNameError (mkItem (VStr "inner"))), [OInst "ThrowsNullNameError" []])
  /\ dict_find (VRef 1) [(VStr "a", VStr "a value")] = None
  /\ Item_place user_classes (mkItem (VRef 1)) (VRef 0) (VStr "changed")
       [ODict "dict" [(VStr "a", VStr "a value")]; OInst "TestData" []]
     = (Raise TypeError,
        [ODict "dict" [(VStr "a", VStr "a value")]; OInst "TestData" []]).
Proof. repeat split. Qed.

(** C6, equality across two types: [BearingAbstract("a") == Attr("a")]
    is [True], since an [Attr] is an instance of [BearingAbstract], though the two
    types differ and neither is a [Fallback]. *)
Lemma C6_equal_across_types :
  new_bearing test_custom BearingAbstract (VStr "a") None = Ok abstract_a
  /\ new_bearing test_custom Attr (VStr "a") None = Ok (mkAttr "a")
  /\ Bearing_eq abstract_a (OBearing (mkAttr "a")) = Ok true
  /\ Bearing_eq (mkAttr "a") (OBearing abstract_a) = Ok true
  /\ spec_Bearing_equal abstract_a (mkAttr "a") = false.
Proof. repeat split. Qed.

(** C7 on the list of the docstring of [Item.place]: position 5 of a list
    of three items. *)
Lemma C7_pads_list_witness :
  Item_place test_classes (mkItem (VInt 5)) (VRef 0) (VStr "new value")
    [OList "list" [VStr "changed"; VStr "one"; VStr "two"]]
  = (Ok tt,
     [OList "list" [VStr "changed"; VStr "one"; VStr "two"; VNone; VNone;
                    VStr "new value"]]).
Proof.
  destruct (C7_Item_place_pads_list test_classes
              [OList "list" [VStr "changed"; VStr "one"; VStr "two"]] 0
              [VStr "changed"; VStr "one"; VStr "two"] (mkItem (VInt 5))
              (VStr "new value") 5 eq_refl eq_refl ltac:(cbn; lia))
    as [items' [Hrun [Hitems _]]].
  rewrite Hrun, Hitems. reflexivity.
Defined.

(** C10 on the dict of the docstring of [Item.place], on the test
    classes whose item assignment raises [KeyError] and [IndexError], on a
    dict with a [TestData] instance as the name, and on the class whose
    item assignment raises [NullNameError]. *)
Lemma C10_dict_and_null_name_witness :
  Item_place test_classes (mkItem (VStr "c")) (VRef 0) (VStr "new")
    [ODict "dict" [(VStr "a", VStr "a value"); (VStr "b", VStr "changed")]]
  = (Ok tt,
     [ODict "dict" [(VStr "a", VStr "a value"); (VStr "b", VStr "changed");
                    (VStr "c", VStr "new")]])
  /\ Item_place test_classes (mkItem (VStr "a")) (VRef 0) (VStr "changed value")
       [OInst "ThrowsKeyError" []]
     = (Raise (NullNameError (mkItem (VStr "a"))), [OInst "ThrowsKeyError" []])
  /\ Item_place test_classes (mkItem (VInt 1)) (VRef 0) (VStr "changed value")
       [OInst "ThrowsIndexError" []]
     = (Raise (NullNameError (mkItem (VInt 1))), [OInst "ThrowsIndexError" []])
  /\ Item_place test_classes (mkItem (VRef 1)) (VRef 0) (VStr "new")
       [ODict "dict" [(VStr "a", VStr "a value")]; OInst "TestData" []]
     = (Raise TypeError,
        [ODict "dict" [(VStr "a", VStr "a value")]; OInst "TestData" []])
  /\ Item_place user_classes (mkItem (VStr "c")) (VRef 0) (VStr "new")
       [OInst "ThrowsNullNameError" []]
     = (Raise (NullNameError (mkItem (VStr "inner"))), [OInst "ThrowsNullNameError" []]).
Proof.
  destruct (C10_Item_place_dict_insert_and_null_name test_classes)
    as [Hdict [Hunhashable [_ [_ [Hkey Hindex]]]]].
  destruct (C10_Item_place_dict_insert_and_null_name user_classes)
    as [_ [_ [Hpasses _]]].
  split; [|split; [|split; [|split]]].
  - exact (Hdict [ODict "dict" [(VStr "a", VStr "a value"); (VStr "b", VStr "changed")]]
             0 [(VStr "a", VStr "a value"); (VStr "b", VStr "changed")]
             (mkItem (VStr "c")) (VStr "new") eq_refl eq_refl eq_refl).
  - apply Hkey. reflexivity.
  - apply Hindex; reflexivity.
  - exact (Hunhashable [ODict "dict" [(VStr "a", VStr "a value")]; OInst "TestData" []]
             0 [(VStr "a", VStr "a value")] (mkItem (VRef 1)) (VStr "new")
             eq_refl eq_refl).
  - apply Hpasses. reflexivity.
Defined.

(** C6 on [Fallback("a")] and [Item("a")], as in [test_equality_type_diff]. *)
Lemma C6_fallback_both_ways_witness :
  Bearing_eq (mkFallback (VStr "a")) (OBearing (mkItem (VStr "a"))) = Ok true
  /\ Bearing_eq (mkItem (VStr "a")) (OBearing (mkFallback (VStr "a"))) = Ok true.
Proof.
  apply (proj2 (proj2 (C6_Bearing_eq_instance_or_fallback
                         (mkFallback (VStr "a")) (mkItem (VStr "a")))));
    reflexivity.
Defined.

(** C4 on [Fallback("a")] and an instance with an attribute [a], as in
    [test_bearing_fetch_attr]: [Item] and [Call] fail with [TypeError],
    [Attr] returns the attribute.  On a dict without the key, every class
    fails. *)
Lemma C4_first_success_witness :
  Fallback_fetch test_classes test_custom (mkFallback (VStr "a")) (VRef 0)
    [OInst "TestData" [("a", VStr "a data")]]
  = (Ok (VStr "a data"), [OInst "TestData" [("a", VStr "a data")]])
  /\ Fallback_fetch test_classes test_custom (mkFallback (VStr "c")) (VRef 0)
       [ODict "dict" [(VStr "a", VStr "a value")]]
     = (Raise (NullNameError (mkFallback (VStr "c"))),
        [ODict "dict" [(VStr "a", VStr "a value")]]).
Proof.
  split.
  - destruct (C4_Fallback_fetch_first_success test_classes test_custom
                (mkFallback (VStr "a")) (VRef 0)) as [_ [_ [_ [Hfirst _]]]].
    apply (Hfirst [Item; Call] [] Attr (mkAttr "a") (VStr "a data")
             [OInst "TestData" [("a", VStr "a data")]]
             [OInst "TestData" [("a", VStr "a data")]]
             [OInst "TestData" [("a", VStr "a data")]]);
      [reflexivity| |reflexivity|reflexivity].
    eapply (tried_fetch _ _ _ _ Item [Call] (mkItem (VStr "a")) TypeError);
      [reflexivity|reflexivity|reflexivity|].
    eapply (tried_fetch _ _ _ _ Call [] (mkCall "a") TypeError);
      [reflexivity|reflexivity|reflexivity|].
    apply tried_nil.
  - destruct (C4_Fallback_fetch_first_success test_classes test_custom
                (mkFallback (VStr "c")) (VRef 0)) as [_ [_ [_ [_ Hnone]]]].
    apply Hnone.
    eapply (tried_fetch _ _ _ _ Item [Call; Attr] (mkItem (VStr "c"))
              (NullNameError (mkItem (VStr "c"))));
      [reflexivity|reflexivity|reflexivity|].
    eapply (tried_fetch _ _ _ _ Call [Attr] (mkCall "c")
              (NullNameError (mkCall "c")));
      [reflexivity|reflexivity|reflexivity|].
    eapply (tried_fetch _ _ _ _ Attr [] (mkAttr "c")
              (NullNameError (mkAttr "c")));
      [reflexivity|reflexivity|reflexivity|].
    apply tried_nil.
Defined.

(** C8 on the two dicts of the example. *)
Lemma C8_nested_fetch_witness :
  Course_fetch test_classes test_custom
    [mkItem (VStr "nested"); mkItem (VStr "one key")] (VRef 0) NO_DEFAULT
    [ODict "dict" [(VStr "nested", VRef 1)]; ODict "dict" [(VStr "one key", VInt 1)]]
  = (Ok (VInt 1),
     [ODict "dict" [(VStr "nested", VRef 1)]; ODict "dict" [(VStr "one key", VInt 1)]])
  /\ Course_fetch test_classes test_custom
       [mkItem (VStr "nested"); mkItem (VStr "one key")] (VRef 0) (VInt 99)
       [ODict "dict" [(VStr "nested", VRef 1)]; ODict "dict" []]
     = (Ok (VInt 99), [ODict "dict" [(VStr "nested", VRef 1)]; ODict "dict" []]).
Proof.
  destruct (C8_Course_fetch_steps_and_default test_classes test_custom)
    as [_ [_ [_ [_ [_ [Hone Hdefault]]]]]].
  split.
  - apply (Hone _ 0 1); reflexivity.
  - apply (Hdefault _ 0 1); reflexivity.
Defined.

(** C2 on the origin [{"a": "a value", "d": "d value"}]: the coordinate
    [a] is applied, the coordinate [b] raises, the coordinate [d] is not
    reached. *)
Lemma C2_default_propagates_witness :
  Cartographer_map test_classes test_custom default_recursion_limit
    (base_cartographer 0) (VRef 1) (VRef 2)
    (Some ([Coord (key_course "a")] ++ Coord (key_course "b") :: [Coord (key_course "d")]))
    None None two_keys_heap
  = (Raise (NullNameError (mkFallback (VStr "b"))),
     <[2 := ODict "dict" [(VStr "a", VStr "a value")]]> two_keys_heap).
Proof.
  destruct (C2_map_default_propagates test_classes test_custom default_recursion_limit
              (base_cartographer 0) (VRef 1) (VRef 2)) as [_ [Hraise _]].
  apply (Hraise [Coord (key_course "a")] [Coord (key_course "d")]
           (Coord (key_course "b")) None [key_course "a"] (mkFallback (VStr "b"))
           two_keys_heap
           (<[2 := ODict "dict" [(VStr "a", VStr "a value")]]> two_keys_heap));
    vm_compute; reflexivity.
Defined.

(** * Further properties *)

Section MoreProperties.

Variable classes : string -> pyclass.
Variable custom : string -> custom_bearing.
Variable recursion_limit : nat.

(** ** Equality of values *)

Lemma py_eq_refl : forall a : val, py_eq a a = true.
Proof.
  fix IH 1. intros a.
  destruct a as [|x|x|x|xs|x|s m|x]; cbn [py_eq].
  - reflexivity.
  - destruct x; reflexivity.
  - apply Z.eqb_refl.
  - apply String.eqb_refl.
  - induction xs as [|x xs IHxs]; [reflexivity|].
    rewrite (IH x), IHxs. reflexivity.
  - apply Nat.eqb_refl.
  - rewrite (IH s), String.eqb_refl. reflexivity.
  - apply String.eqb_refl.
Qed.

Lemma py_eq_trans : forall a b c : val,
  py_eq a b = true -> py_eq b c = true -> py_eq a c = true.
Proof.
  fix IH 1. intros a b c.
  destruct a as [|x|x|x|xs|x|s m|x], b as [|y|y|y|ys|y|s' m'|y];
    try discriminate;
    destruct c as [|z|z|z|zs|z|s'' m''|z]; try discriminate; cbn [py_eq]; intros Hab Hbc;
    try reflexivity.
  - destruct x, y, z; try discriminate; reflexivity.
  - destruct x, y; try discriminate; exact Hbc.
  - destruct x; apply Z.eqb_eq in Hab; subst y; destruct z; exact Hbc || discriminate.
  - apply Z.eqb_eq in Hab. subst y. exact Hbc.
  - destruct y, z; try discriminate; exact Hab.
  - destruct y; apply Z.eqb_eq in Hab; subst x; exact Hbc.
  - apply Z.eqb_eq in Hab, Hbc. subst. destruct z; reflexivity.
  - apply Z.eqb_eq in Hab. subst y. exact Hbc.
  - apply String.eqb_eq in Hab. subst y. exact Hbc.
  - revert ys zs Hab Hbc.
    induction xs as [|x xs IHxs]; intros [|y ys] [|z zs] Hab Hbc;
      try discriminate; [reflexivity|].
    apply andb_true_iff in Hab as [Hxy Hxs]. apply andb_true_iff in Hbc as [Hyz Hys].
    rewrite (IH x y z Hxy Hyz), (IHxs ys zs Hxs Hys). reflexivity.
  - apply Nat.eqb_eq in Hab. subst y. exact Hbc.
  - apply andb_true_iff in Hab as [Hs Hm]. apply andb_true_iff in Hbc as [Hs' Hm'].
    rewrite (IH s s' s'' Hs Hs'). apply String.eqb_eq in Hm. subst m'. rewrite Hm'.
    reflexivity.
  - apply String.eqb_eq in Hab. subst y. exact Hbc.
Qed.


(** ** Dicts and lists on the heap *)

Lemma dict_find_set_same (k v : val) (d : list (val * val)) :
  dict_find k (dict_set k v d) = Some v.
Proof.
  induction d as [|[k' v'] d IH]; cbn [dict_set dict_find].
  - rewrite py_eq_refl. reflexivity.
  - destruct (py_eq k' k) eqn:Hk; cbn [dict_find]; rewrite Hk; [reflexivity|exact IH].
Qed.

Lemma dict_find_set_other (k q v : val) (d : list (val * val)) :
  py_eq k q = false ->
  dict_find q (dict_set k v d) = dict_find q d.
Proof.
  intros Hkq. induction d as [|[k' v'] d IH]; cbn [dict_set dict_find].
  - rewrite Hkq. reflexivity.
  - destruct (py_eq k' k) eqn:Hk; cbn [dict_find].
    + destruct (py_eq k' q) eqn:Hq; [|reflexivity].
      rewrite py_eq_sym in Hk. rewrite (py_eq_trans k k' q Hk Hq) in Hkq. discriminate.
    + destruct (py_eq k' q); [reflexivity|exact IH].
Qed.

(** Replacing a container by a container leaves [hash] as it was. *)
Lemma hashable_insert_container (h : heap) (l : nat) (o o' : obj) :
  h !! l = Some o ->
  match o with OInst _ _ => False | _ => True end ->
  match o' with OInst _ _ => False | _ => True end ->
  forall v : val, hashable classes (<[l := o']> h) v = hashable classes h v.
Proof.
  intros Hl Ho Ho'. fix IH 1. intros v.
  destruct v as [| | | |items|x| |]; try reflexivity.
  - cbn [hashable]. induction items as [|i items IHi]; [reflexivity|].
    cbn [forallb]. rewrite (IH i), IHi. reflexivity.
  - clear IH. cbn [hashable]. destruct (Nat.eq_dec l x) as [->|Hne].
    + rewrite list_lookup_insert_eq by (eapply lookup_lt_Some; exact Hl).
      rewrite Hl. destruct o, o'; try contradiction; reflexivity.
    + rewrite list_lookup_insert_ne by exact Hne. reflexivity.
Qed.

(** X1: on a plain dict, [Item.place] with a hashable name sets that key
    and [Item.fetch] of the same bearing then returns the placed value;
    the value under every other key is as before. *)
Theorem Item_place_then_fetch_dict
    (h : heap) (l : nat) (items : list (val * val)) (self : Bearing) (v : val) :
  h !! l = Some (ODict "dict" items) ->
  hashable classes h (name self) = true ->
  exists items' : list (val * val),
    Item_place classes self (VRef l) v h = (Ok tt, <[l := ODict "dict" items']> h)
    /\ Item_fetch classes self (VRef l) (<[l := ODict "dict" items']> h)
       = (Ok v, <[l := ODict "dict" items']> h)
    /\ (forall q : val, py_eq (name self) q = false ->
                        dict_find q items' = dict_find q items).
Proof.
  intros Hl Hhash. exists (dict_set (name self) v items).
  assert (Hlt : l < length h) by (eapply lookup_lt_Some; exact Hl).
  split; [|split].
  - unfold Item_place, try_except, py_setitem, setitem_override. rewrite Hl.
    cbn [builtin_type String.eqb Ascii.eqb Bool.eqb orb]. rewrite Hhash. reflexivity.
  - unfold Item_fetch, try_except, py_getitem, getitem_override.
    rewrite list_lookup_insert_eq by exact Hlt.
    cbn [builtin_type String.eqb Ascii.eqb Bool.eqb orb].
    rewrite (hashable_insert_container h l _ (ODict "dict" (dict_set (name self) v items))
               Hl I I).
    rewrite Hhash, dict_find_set_same. reflexivity.
  - intros q Hq. apply dict_find_set_other. exact Hq.
Qed.

Lemma Item_place_list_inside
    (h : heap) (l : nat) (items : list val) (self : Bearing) (v : val) (p : Z) (j : nat) :
  h !! l = Some (OList "list" items) ->
  as_int (name self) = Some p ->
  norm_index (length items) p = Some j ->
  Item_place classes self (VRef l) v h
  = (Ok tt, <[l := OList "list" (<[j := v]> items)]> h).
Proof.
  intros Hl Hname Hj.
  unfold Item_place, try_except, py_setitem, setitem_override. rewrite Hl.
  cbn [builtin_type String.eqb Ascii.eqb Bool.eqb orb].
  unfold seq_setitem. rewrite Hname, Hj. reflexivity.
Qed.

Lemma Item_place_list_beyond
    (h : heap) (l : nat) (items : list val) (self : Bearing) (v : val) (p : Z) :
  h !! l = Some (OList "list" items) ->
  as_int (name self) = Some p ->
  (Z.of_nat (length items) <= p)%Z ->
  Item_place classes self (VRef l) v h
  = (Ok tt,
     <[l := OList "list"
              (items ++ replicate (Z.to_nat p - length items) VNone ++ [v])]> h).
Proof.
  intros Hl Hname Hp.
  set (n := length items) in *.
  set (k := Z.to_nat p - n).
  assert (Hk : Z.to_nat (p + 1 - Z.of_nat n) = S k) by (unfold k; lia).
  assert (Hpk : Z.to_nat p = n + k) by (unfold k; lia).
  unfold Item_place, try_except, py_setitem. rewrite Hl.
  unfold setitem_override. cbn [builtin_type String.eqb Ascii.eqb Bool.eqb orb].
  unfold seq_setitem. rewrite Hname. fold n.
  rewrite (norm_index_beyond n p Hp).
  unfold is_list, list_len. rewrite Hl. fold n. rewrite Hk.
  unfold bind. rewrite (append_nones_list (S k) h l "list" items Hl).
  assert (Hlt : l < length h) by (eapply lookup_lt_Some; exact Hl).
  unfold py_setitem. rewrite list_lookup_insert_eq by exact Hlt.
  unfold setitem_override. cbn [builtin_type String.eqb Ascii.eqb Bool.eqb orb].
  unfold seq_setitem.
  rewrite norm_index_inside
    by (rewrite length_app, length_replicate; fold n; lia).
  rewrite list_insert_insert_eq. rewrite Hpk. unfold n.
  rewrite insert_last_replicate. reflexivity.
Qed.

Lemma norm_index_lt (len : nat) (p : Z) (j : nat) :
  norm_index len p = Some j -> j < len.
Proof.
  unfold norm_index.
  destruct (p <? 0)%Z;
    destruct (_ && _) eqn:Hin; try discriminate;
    intros Heq; injection Heq as <-;
    apply andb_true_iff in Hin as [H0 H1];
    apply Z.leb_le in H0; apply Z.ltb_lt in H1; lia.
Qed.

Lemma norm_index_cases (len : nat) (p : Z) :
  (- Z.of_nat len <= p < Z.of_nat len)%Z -> exists j, norm_index len p = Some j.
Proof.
  intros Hp. unfold norm_index.
  destruct (p <? 0)%Z eqn:Hneg.
  - apply Z.ltb_lt in Hneg.
    destruct (0 <=? p + Z.of_nat len)%Z eqn:H0; [|apply Z.leb_gt in H0; lia].
    destruct (p + Z.of_nat len <? Z.of_nat len)%Z eqn:H1; [|apply Z.ltb_ge in H1; lia].
    eexists. reflexivity.
  - apply Z.ltb_ge in Hneg.
    destruct (0 <=? p)%Z eqn:H0; [|apply Z.leb_gt in H0; lia].
    destruct (p <? Z.of_nat len)%Z eqn:H1; [|apply Z.ltb_ge in H1; lia].
    eexists. reflexivity.
Qed.

Lemma Item_fetch_list
    (h : heap) (l : nat) (items : list val) (self : Bearing) (p : Z) :
  h !! l = Some (OList "list" items) ->
  as_int (name self) = Some p ->
  Item_fetch classes self (VRef l) h
  = (match norm_index (length items) p with
     | Some j =>
         match items !! j with
         | Some v => Ok v
         | None => Raise (NullNameError self)
         end
     | None => Raise (NullNameError self)
     end, h).
Proof.
  intros Hl Hname.
  unfold Item_fetch, try_except, py_getitem, getitem_override. rewrite Hl.
  cbn [builtin_type String.eqb Ascii.eqb Bool.eqb orb].
  unfold seq_getitem. rewrite Hname.
  destruct (norm_index (length items) p) as [j|]; [|reflexivity].
  destruct (items !! j); reflexivity.
Qed.

Lemma Item_place_list_from
    (h : heap) (l : nat) (items : list val) (self : Bearing) (v : val) (p : Z) :
  h !! l = Some (OList "list" items) ->
  as_int (name self) = Some p ->
  (- Z.of_nat (length items) <= p)%Z ->
  exists items' : list val,
    Item_place classes self (VRef l) v h = (Ok tt, <[l := OList "list" items']> h)
    /\ Item_fetch classes self (VRef l) (<[l := OList "list" items']> h)
       = (Ok v, <[l := OList "list" items']> h)
    /\ ((p < Z.of_nat (length items))%Z -> length items' = length items).
Proof.
  intros Hl Hname Hp.
  assert (Hlt : l < length h) by (eapply lookup_lt_Some; exact Hl).
  destruct (Z_lt_le_dec p (Z.of_nat (length items))) as [Hin|Hout].
  - destruct (norm_index_cases (length items) p (conj Hp Hin)) as [j Hj].
    pose proof (norm_index_lt _ _ _ Hj) as Hjlt.
    exists (<[j := v]> items). split; [|split].
    + apply (Item_place_list_inside h l items self v p j); assumption.
    + rewrite (Item_fetch_list _ l (<[j := v]> items) self p)
        by (try apply list_lookup_insert_eq; assumption).
      rewrite length_insert, Hj.
      rewrite list_lookup_insert_eq by exact Hjlt. reflexivity.
    + intros _. apply length_insert.
  - exists (items ++ replicate (Z.to_nat p - length items) VNone ++ [v]).
    split; [|split].
    + apply Item_place_list_beyond; assumption.
    + rewrite (Item_fetch_list _ l _ self p)
        by (try apply list_lookup_insert_eq; assumption).
      rewrite norm_index_inside
        by (rewrite !length_app, length_replicate; cbn [length]; lia).
      rewrite lookup_app_r by lia.
      rewrite lookup_app_r by (rewrite length_replicate; lia).
      rewrite length_replicate.
      replace (Z.to_nat p - length items - (Z.to_nat p - length items)) with 0 by lia.
      reflexivity.
    + intros Hlt'. lia.
Qed.

Lemma Item_place_list_below
    (h : heap) (l : nat) (items : list val) (self : Bearing) (v : val) (p : Z) :
  h !! l = Some (OList "list" items) ->
  as_int (name self) = Some p ->
  (p < - Z.of_nat (length items))%Z ->
  Item_place classes self (VRef l) v h = (Raise IndexError, h).
Proof.
  intros Hl Hname Hp.
  assert (Hnone : norm_index (length items) p = None).
  { unfold norm_index.
    destruct (p <? 0)%Z eqn:Hneg; [|apply Z.ltb_ge in Hneg; lia].
    destruct (0 <=? p + Z.of_nat (length items))%Z eqn:H0;
      [apply Z.leb_le in H0; lia|reflexivity]. }
  unfold Item_place, try_except, py_setitem, setitem_override. rewrite Hl.
  cbn [builtin_type String.eqb Ascii.eqb Bool.eqb orb].
  unfold seq_setitem. rewrite Hname, Hnone.
  unfold is_list, list_len. rewrite Hl.
  replace (Z.to_nat (p + 1 - Z.of_nat (length items))) with 0 by lia.
  unfold bind. cbn [append_nones ret]. unfold py_setitem, setitem_override. rewrite Hl.
  cbn [builtin_type String.eqb Ascii.eqb Bool.eqb orb].
  unfold seq_setitem. rewrite Hnone. reflexivity.
Qed.

(** X2: [Item.place] on a plain list of length [n], by position.  At an
    integer position [p >= -n] it succeeds, and [Item.fetch] of the same
    bearing then returns the placed value; a position inside the list
    ([p < n]) keeps the length of the list.  At a negative position below
    [-n] it raises [IndexError] itself, not [NullNameError]: nothing is
    appended, the second assignment fails as the first did, and the list
    is left as it was. *)
Theorem Item_place_list_by_position
    (h : heap) (l : nat) (items : list val) (self : Bearing) (v : val) (p : Z) :
  h !! l = Some (OList "list" items) ->
  as_int (name self) = Some p ->
  ((- Z.of_nat (length items) <= p)%Z ->
   exists items' : list val,
     Item_place classes self (VRef l) v h = (Ok tt, <[l := OList "list" items']> h)
     /\ Item_fetch classes self (VRef l) (<[l := OList "list" items']> h)
        = (Ok v, <[l := OList "list" items']> h)
     /\ ((p < Z.of_nat (length items))%Z -> length items' = length items))
  /\ ((p < - Z.of_nat (length items))%Z ->
      Item_place classes self (VRef l) v h = (Raise IndexError, h)).
Proof.
  intros Hl Hname. split; intros Hp.
  - apply (Item_place_list_from h l items self v p Hl Hname Hp).
  - apply (Item_place_list_below h l items self v p Hl Hname Hp).
Qed.


(** ** Errors of [Item.fetch] *)

(** X3: [Item.fetch] never lets a [KeyError] or an [IndexError] out,
    whatever the target.  On a plain list an integer position outside
    [-n .. n-1] gives the bearing's [NullNameError], and a name that is no
    integer a [TypeError]; on a plain dict a hashable key that is absent
    gives the [NullNameError] and an unhashable name a [TypeError]; [None]
    and numbers are not subscriptable: [TypeError].  None of these touches
    the heap. *)
Theorem Item_fetch_error_kinds (self : Bearing) :
  (forall (target : val) (h h' : heap) (e : exn),
      Item_fetch classes self target h = (Raise e, h') ->
      e <> KeyError /\ e <> IndexError)
  /\ (forall (h : heap) (l : nat) (items : list val) (p : Z),
        h !! l = Some (OList "list" items) ->
        as_int (name self) = Some p ->
        (p < - Z.of_nat (length items) \/ Z.of_nat (length items) <= p)%Z ->
        Item_fetch classes self (VRef l) h = (Raise (NullNameError self), h))
  /\ (forall (h : heap) (l : nat) (items : list val),
        h !! l = Some (OList "list" items) ->
        as_int (name self) = None ->
        Item_fetch classes self (VRef l) h = (Raise TypeError, h))
  /\ (forall (h : heap) (l : nat) (items : list (val * val)),
        h !! l = Some (ODict "dict" items) ->
        hashable classes h (name self) = true ->
        dict_find (name self) items = None ->
        Item_fetch classes self (VRef l) h = (Raise (NullNameError self), h))
  /\ (forall (h : heap) (l : nat) (items : list (val * val)),
        h !! l = Some (ODict "dict" items) ->
        hashable classes h (name self) = false ->
        Item_fetch classes self (VRef l) h = (Raise TypeError, h))
  /\ (forall (target : val) (h : heap),
        target = VNone \/ is_int target = true ->
        Item_fetch classes self target h = (Raise TypeError, h)).
Proof.
  split; [|split; [|split; [|split; [|split]]]].
  - intros target h h' e. unfold Item_fetch, try_except.
    destruct (py_getitem classes target (name self) h) as [[v|e0] h1]; [discriminate|].
    destruct e0; unfold raise; intros Heq; injection Heq as <- _;
      split; discriminate.
  - intros h l items p Hl Hname Hp.
    rewrite (Item_fetch_list h l items self p Hl Hname).
    destruct (norm_index (length items) p) as [j|] eqn:Hj; [|reflexivity].
    exfalso. unfold norm_index in Hj.
    destruct (p <? 0)%Z eqn:Hneg;
      destruct (_ && _) eqn:Hin; try discriminate;
      apply andb_true_iff in Hin as [H0 H1];
      apply Z.leb_le in H0; apply Z.ltb_lt in H1;
      [apply Z.ltb_lt in Hneg|apply Z.ltb_ge in Hneg]; lia.
  - intros h l items Hl Hname.
    unfold Item_fetch, try_except, py_getitem, getitem_override. rewrite Hl.
    cbn [builtin_type String.eqb Ascii.eqb Bool.eqb orb].
    unfold seq_getitem. rewrite Hname. reflexivity.
  - intros h l items Hl Hhash Hfind.
    unfold Item_fetch, try_except, py_getitem, getitem_override. rewrite Hl.
    cbn [builtin_type String.eqb Ascii.eqb Bool.eqb orb].
    rewrite Hhash, Hfind. reflexivity.
  - intros h l items Hl Hhash.
    unfold Item_fetch, try_except, py_getitem, getitem_override. rewrite Hl.
    cbn [builtin_type String.eqb Ascii.eqb Bool.eqb orb].
    rewrite Hhash. reflexivity.
  - intros target h [->|Hint]; [reflexivity|].
    destruct target; try discriminate; reflexivity.
Qed.

(** ** [Attr] on instances *)




(** ** [Call._replace_args] *)

(** X5: [Call._replace_args] keeps the keywords and their order, and each
    keyword carries the value where it carried [VALUE_ARG] and what it
    carried otherwise.  Without a [VALUE_ARG] among the arguments and
    keyword values, the value is prepended to the positional arguments and
    nothing else changes.  With one, the number of positional arguments is
    kept, each [VALUE_ARG] is replaced by the value and every other
    argument stays; when the value is not [VALUE_ARG] itself, no
    [VALUE_ARG] is left. *)
Theorem replace_args_substitutes_or_prepends (self : Bearing) (value : val) :
  let placeholder := is_sentinel "VALUE_ARG" in
  let found :=
    existsb (fun kv => placeholder (snd kv)) (_func_kwargs self)
    || existsb placeholder (_func_args self) in
  let args := fst (_replace_args self value) in
  let kwargs := snd (_replace_args self value) in
  map fst kwargs = map fst (_func_kwargs self)
  /\ (forall (i : nat) (k : string) (a : val),
        _func_kwargs self !! i = Some (k, a) ->
        kwargs !! i = Some (k, if placeholder a then value else a))
  /\ (found = false -> args = value :: _func_args self /\ kwargs = _func_kwargs self)
  /\ (found = true ->
      length args = length (_func_args self)
      /\ forall (i : nat) (a : val),
           _func_args self !! i = Some a ->
           args !! i = Some (if placeholder a then value else a))
  /\ (found = true -> placeholder value = false ->
      existsb placeholder args = false
      /\ existsb (fun kv => placeholder (snd kv)) kwargs = false).
Proof.
  cbv zeta. unfold _replace_args.
  set (ph := is_sentinel "VALUE_ARG").
  assert (Hkeys : forall kws : list (string * val),
             map fst (map (fun kv => if ph (snd kv) then (fst kv, value) else kv) kws)
             = map fst kws).
  { induction kws as [|[k a] kws IH]; [reflexivity|].
    cbn [map fst snd]. rewrite IH. destruct (ph a); reflexivity. }
  assert (Hsame : forall kws : list (string * val),
             existsb (fun kv => ph (snd kv)) kws = false ->
             map (fun kv => if ph (snd kv) then (fst kv, value) else kv) kws = kws).
  { induction kws as [|[k a] kws IH]; [reflexivity|].
    cbn [map existsb fst snd]. intros Hno. apply orb_false_iff in Hno as [Ha Hrest].
    rewrite Ha, (IH Hrest). reflexivity. }
  assert (Hsame' : forall args : list val,
             existsb ph args = false ->
             map (fun arg => if ph arg then value else arg) args = args).
  { induction args as [|a args IH]; [reflexivity|].
    cbn [map existsb]. intros Hno. apply orb_false_iff in Hno as [Ha Hrest].
    rewrite Ha, (IH Hrest). reflexivity. }
  assert (Hgone : forall args : list val,
             ph value = false ->
             existsb ph (map (fun arg => if ph arg then value else arg) args) = false).
  { intros args Hv. induction args as [|a args IH]; [reflexivity|].
    cbn [map existsb]. rewrite IH. destruct (ph a) eqn:Ha; rewrite ?Hv, ?Ha; reflexivity. }
  assert (Hgone' : forall kws : list (string * val),
             ph value = false ->
             existsb (fun kv => ph (snd kv))
               (map (fun kv => if ph (snd kv) then (fst kv, value) else kv) kws) = false).
  { intros kws Hv. induction kws as [|[k a] kws IH]; [reflexivity|].
    cbn [map existsb fst snd]. rewrite IH.
    destruct (ph a) eqn:Ha; cbn [snd]; rewrite ?Hv, ?Ha; reflexivity. }
  assert (Hat : forall (kws : list (string * val)) (i : nat) (k : string) (a : val),
             kws !! i = Some (k, a) ->
             map (fun kv => if ph (snd kv) then (fst kv, value) else kv) kws !! i
             = Some (k, if ph a then value else a)).
  { intros kws i k a Hi.
    change (map (fun kv => if ph (snd kv) then (fst kv, value) else kv) kws)
      with ((fun kv : string * val => if ph (snd kv) then (fst kv, value) else kv) <$> kws).
    rewrite list_lookup_fmap, Hi. cbn [fmap option_fmap option_map fst snd].
    destruct (ph a); reflexivity. }
  destruct (existsb (fun kv => ph (snd kv)) (_func_kwargs self)
            || existsb ph (_func_args self)) eqn:Hfound; cbn [fst snd].
  - split; [apply Hkeys|]. split; [apply Hat|]. split; [discriminate|]. split.
    + intros _. split; [apply length_map|].
      intros i a Hi. rewrite list_lookup_fmap, Hi. reflexivity.
    + intros _ Hv. split; [apply Hgone|apply Hgone']; exact Hv.
  - apply orb_false_iff in Hfound as [Hkw Hargs].
    split; [apply Hkeys|]. split; [apply Hat|]. split.
    + intros _. rewrite (Hsame' _ Hargs), (Hsame _ Hkw). split; reflexivity.
    + split; discriminate.
Qed.


(** ** [Fallback] *)

Lemma cast_package_class (c : bclass) (self : Bearing) :
  package_class c ->
  cast custom c self = Raise TypeError \/ exists b, cast custom c self = Ok b.
Proof.
  unfold cast, new_bearing. destruct c; try contradiction; intros _;
    try (right; eexists; reflexivity);
    destruct (is_str (name self)); (left; reflexivity) || (right; eexists; reflexivity).
Qed.

Lemma Fallback_fetch_loop_raises (fetch_as : Bearing -> val -> M val)
    (self : Bearing) (target : val) (bearing_classes : list bclass) :
  Forall package_class bearing_classes ->
  forall (h h' : heap) (e : exn),
    Fallback_fetch_loop custom fetch_as self bearing_classes target h = (Raise e, h') ->
    e = NullNameError self \/ swallowed e = false.
Proof.
  induction 1 as [|c cs Hc _ IH]; intros h h' e.
  - cbn. unfold raise. intros Heq. injection Heq as <- _. left. reflexivity.
  - cbn [Fallback_fetch_loop].
    destruct (cast_package_class c self Hc) as [->|[b ->]]; [apply IH|].
    unfold try_except.
    destruct (fetch_as b target h) as [[v|e0] h1]; [discriminate|].
    destruct (swallowed e0) eqn:Hsw; [apply IH|].
    intros Heq. injection Heq as <- _. right. exact Hsw.
Qed.

Lemma Fallback_place_loop_raises (place_as : Bearing -> val -> val -> M unit)
    (self : Bearing) (target value : val) (bearing_classes : list bclass) :
  Forall package_class bearing_classes ->
  forall (h h' : heap) (e : exn),
    Fallback_place_loop custom place_as self bearing_classes target value h
    = (Raise e, h') ->
    e = NullNameError self \/ swallowed e = false.
Proof.
  induction 1 as [|c cs Hc _ IH]; intros h h' e.
  - cbn. unfold raise. intros Heq. injection Heq as <- _. left. reflexivity.
  - cbn [Fallback_place_loop].
    destruct (cast_package_class c self Hc) as [->|[b ->]]; [apply IH|].
    unfold try_except.
    destruct (place_as b target value h) as [[v|e0] h1]; [discriminate|].
    destruct (swallowed e0) eqn:Hsw; [apply IH|].
    intros Heq. injection Heq as <- _. right. exact Hsw.
Qed.

(** X6: a [Fallback] whose [BEARING_CLASSES] are classes of the package
    lets no [TypeError], no [ValueError] and no [NullNameError] of a
    variant out of [fetch] or [place]: an exception that comes out is the
    [NullNameError] of the [Fallback] itself, or one that the loop does not
    swallow. *)
Theorem Fallback_raises_own_NullNameError (self : Bearing) (target value : val)
    (h h' : heap) (e : exn) :
  Forall package_class (BEARING_CLASSES self) ->
  (Fallback_fetch classes custom self target h = (Raise e, h') ->
   e = NullNameError self \/ swallowed e = false)
  /\ (Fallback_place classes custom self target value h = (Raise e, h') ->
      e = NullNameError self \/ swallowed e = false).
Proof.
  intros Hpkg. split.
  - apply Fallback_fetch_loop_raises. exact Hpkg.
  - apply Fallback_place_loop_raises. exact Hpkg.
Qed.

(** X7: on a plain dict a [Fallback] that tries [Item] first acts as that
    [Item]: [place] with a hashable name sets the key; [fetch] of a key the
    dict has returns its value without looking for a method or attribute of
    that name; and [fetch] after [place] returns the placed value. *)
Theorem Fallback_on_dict_is_Item
    (h : heap) (l : nat) (items : list (val * val)) (self : Bearing)
    (rest : list bclass) (v : val) :
  h !! l = Some (ODict "dict" items) ->
  hashable classes h (name self) = true ->
  BEARING_CLASSES self = Item :: rest ->
  Fallback_place classes custom self (VRef l) v h
  = (Ok tt, <[l := ODict "dict" (dict_set (name self) v items)]> h)
  /\ (forall found : val,
        dict_find (name self) items = Some found ->
        Fallback_fetch classes custom self (VRef l) h = (Ok found, h))
  /\ Fallback_fetch classes custom self (VRef l)
       (<[l := ODict "dict" (dict_set (name self) v items)]> h)
     = (Ok v, <[l := ODict "dict" (dict_set (name self) v items)]> h).
Proof.
  intros Hl Hhash Hlist.
  assert (Hlt : l < length h) by (eapply lookup_lt_Some; exact Hl).
  assert (Hfetch : forall (h0 : heap) (items0 : list (val * val)) (found : val),
             h0 !! l = Some (ODict "dict" items0) ->
             hashable classes h0 (name self) = true ->
             dict_find (name self) items0 = Some found ->
             Fallback_fetch classes custom self (VRef l) h0 = (Ok found, h0)).
  { intros h0 items0 found Hl0 Hhash0 Hfind.
    unfold Fallback_fetch. rewrite Hlist.
    cbn [Fallback_fetch_loop cast new_bearing].
    unfold try_except, fetch_cast, fetch_with. cbn [b_type].
    unfold Item_fetch, try_except, py_getitem, getitem_override. cbn [name].
    rewrite Hl0. cbn [builtin_type String.eqb Ascii.eqb Bool.eqb orb].
    rewrite Hhash0, Hfind. reflexivity. }
  split; [|split].
  - unfold Fallback_place. rewrite Hlist.
    cbn [Fallback_place_loop cast new_bearing].
    unfold try_except, place_cast, place_with. cbn [b_type].
    unfold Item_place, try_except, py_setitem, setitem_override. cbn [name].
    rewrite Hl. cbn [builtin_type String.eqb Ascii.eqb Bool.eqb orb].
    rewrite Hhash. reflexivity.
  - intros found Hfind. apply (Hfetch h items found Hl Hhash Hfind).
  - apply (Hfetch _ (dict_set (name self) v items) v).
    + apply list_lookup_insert_eq. exact Hlt.
    + rewrite (hashable_insert_container h l _
                 (ODict "dict" (dict_set (name self) v items)) Hl I I).
      exact Hhash.
    + apply dict_find_set_same.
Qed.

(** ** Equality of bearings as a relation *)

Lemma bclass_eqb_refl (c : bclass) : bclass_eqb c c = true.
Proof.
  induction c as [| | | | |n base IH]; try reflexivity.
  cbn. rewrite String.eqb_refl, IH. reflexivity.
Qed.

Lemma issubclass_refl (c : bclass) : issubclass c c = true.
Proof. destruct c; cbn; rewrite ?String.eqb_refl, ?bclass_eqb_refl; reflexivity. Qed.

(** X8: [==] between bearings follows the names first: a bearing whose
    name is equal to itself is equal to itself, and two bearings whose
    names are unequal are unequal, whatever their classes; so a bearing
    whose name differs from itself is not equal to itself.  [==] is
    symmetric, and it is not transitive: for a name equal to itself, the
    [Item] and the [Attr] of that name are both equal to the [Fallback] of
    that name and different from each other. *)
Theorem Bearing_eq_reflexive_symmetric_not_transitive :
  (forall a : Bearing,
      py_eq (name a) (name a) = true -> Bearing_eq a (OBearing a) = Ok true)
  /\ (forall a b : Bearing,
        py_eq (name b) (name a) = false -> Bearing_eq a (OBearing b) = Ok false)
  /\ (forall a b : Bearing, Bearing_eq a (OBearing b) = Bearing_eq b (OBearing a))
  /\ (forall nm : val,
        py_eq nm nm = true ->
        Bearing_eq (mkItem nm) (OBearing (mkFallback nm)) = Ok true
        /\ Bearing_eq (mkFallback nm) (OBearing (mkBearing Attr nm None [] [] [])) = Ok true
        /\ Bearing_eq (mkItem nm) (OBearing (mkBearing Attr nm None [] [] [])) = Ok false).
Proof.
  split; [|split; [|split]].
  - intros a Hname. rewrite Bearing_eq_bool. unfold isinstance.
    rewrite Hname, issubclass_refl. cbn [andb]. rewrite !orb_true_r. reflexivity.
  - intros a b Hname. unfold Bearing_eq. rewrite Hname. reflexivity.
  - intros a b. rewrite !Bearing_eq_bool. rewrite (py_eq_sym (name b) (name a)).
    f_equal. f_equal.
    destruct (isinstance b Fallback && class_in (b_type a) (BEARING_CLASSES b)),
      (isinstance a Fallback && class_in (b_type b) (BEARING_CLASSES a)),
      (isinstance b (b_type a)), (isinstance a (b_type b)); reflexivity.
  - intros nm Hname. rewrite !Bearing_eq_bool. cbn [name mkItem mkFallback].
    rewrite Hname. repeat split.
Qed.


(** ** Building courses *)

Lemma sequence_map_Ok {A B} (f : A -> B) (l : list A) :
  sequence (map (fun a => Ok (f a)) l) = Ok (map f l).
Proof. induction l as [|a l IH]; [reflexivity|]. cbn. rewrite IH. reflexivity. Qed.

Lemma concat_singletons {A} (l : list A) : concat (map (fun a => [a]) l) = l.
Proof. induction l as [|a l IH]; [reflexivity|]. cbn. rewrite IH. reflexivity. Qed.

Lemma Course_init_bearings (ext : list bclass) (p : Course) :
  Course_init custom ext (map CI_Bearing p) = Ok p.
Proof.
  unfold Course_init. rewrite map_map.
  change (map _ p) with (map (fun b : Bearing => @Ok (list Bearing) [b]) p).
  rewrite (sequence_map_Ok (fun b : Bearing => [b])), concat_singletons. reflexivity.
Qed.

Lemma Course_init_courses (ext : list bclass) (cs : list Course) :
  Course_init custom ext (map CI_Course cs) = Ok (concat cs).
Proof.
  unfold Course_init. rewrite map_map.
  change (map _ cs) with (map (fun c : Course => @Ok (list Bearing) (id c)) cs).
  rewrite (sequence_map_Ok id), map_id. reflexivity.
Qed.

Lemma removelast_last (p : Course) (e : Bearing) :
  last p = Some e -> removelast p ++ [e] = p.
Proof.
  induction p as [|b p IH]; [discriminate|].
  destruct p as [|c p].
  - cbn. intros He. injection He as <-. reflexivity.
  - intros He. change (last (b :: c :: p)) with (last (c :: p)) in He.
    change (removelast (b :: c :: p)) with (b :: removelast (c :: p)).
    cbn [app]. rewrite (IH He). reflexivity.
Qed.

Lemma tuple_eq_refl (p : Course) : tuple_eq p p = true.
Proof.
  induction p as [|b p IH]; [reflexivity|]. cbn [tuple_eq].
  unfold Bearing_eqb. rewrite Bearing_eq_bool. unfold isinstance.
  rewrite py_eq_refl, issubclass_refl, IH. cbn [andb]. rewrite !orb_true_r. reflexivity.
Qed.

Lemma tuple_eq_length (p q : Course) : tuple_eq p q = true -> length p = length q.
Proof.
  revert q. induction p as [|b p IH]; intros [|c q]; try discriminate; [reflexivity|].
  cbn [tuple_eq]. intros H. apply andb_true_iff in H as [_ H].
  cbn [length]. f_equal. apply IH. exact H.
Qed.

(** X9: a course is rebuilt from its own bearings, [Course( *p) == p],
    whatever the classes the course type adds; it is equal to itself; and a
    course that is not empty is its parent followed by its end point:
    [p.parent / p.end_point] and [p.with_end_point(p.end_point)] are
    [p]. *)
Theorem Course_rebuilt_from_its_bearings (p : Course) :
  (forall ext : list bclass, Course_init custom ext (map CI_Bearing p) = Ok p)
  /\ (forall ext : list bclass, Course_init custom ext [CI_Course p] = Ok p)
  /\ Course_eq p p = true
  /\ (forall e : Bearing,
        end_point p = Some e ->
        Course_truediv custom (parent p) (CI_Bearing e) = Ok p
        /\ with_end_point custom p (CI_Bearing e) = Ok p
        /\ length p = S (length (parent p))).
Proof.
  split; [|split; [|split]].
  - intros ext. apply Course_init_bearings.
  - intros ext. change [CI_Course p] with (map CI_Course [p]).
    rewrite (Course_init_courses ext [p]). cbn. rewrite app_nil_r. reflexivity.
  - apply tuple_eq_refl.
  - intros e He. unfold end_point, parent in *.
    assert (Hp : p = removelast p ++ [e]) by (symmetry; apply removelast_last; exact He).
    assert (Hbuild : Course_init custom [] [CI_Course (removelast p); CI_Bearing e] = Ok p).
    { unfold Course_init. cbn. rewrite <- Hp. reflexivity. }
    split; [exact Hbuild|]. split; [exact Hbuild|].
    rewrite Hp at 1. rewrite length_app. cbn. lia.
Qed.


(** ** Composition of courses *)

Lemma Course_fetch_app (p q : Course) :
  forall (target : val) (h : heap),
    Course_fetch classes custom (p ++ q) target NO_DEFAULT h
    = (reached <- Course_fetch classes custom p target NO_DEFAULT ;;
       Course_fetch classes custom q reached NO_DEFAULT) h.
Proof.
  induction p as [|b p IH]; intros target h; [reflexivity|].
  cbn [app Course_fetch]. unfold bind in *.
  destruct (fetch classes custom b target h) as [[t|e] h1].
  - apply IH.
  - destruct e; reflexivity.
Qed.

(** X10: [p / q] is the bearings of [p] followed by those of [q], so [/]
    is associative and [PORT] is its unit; fetching [p / q] without a
    default is fetching [p] and then fetching [q] from what was
    reached. *)
Theorem Course_concat_composes_fetch (p q r : Course) :
  Course_truediv custom p (CI_Course q) = Ok (p ++ q)
  /\ Course_truediv custom PORT (CI_Course p) = Ok p
  /\ Course_truediv custom p (CI_Course PORT) = Ok p
  /\ Course_truediv custom (p ++ q) (CI_Course r) = Course_truediv custom p (CI_Course (q ++ r))
  /\ (forall (target : val) (h : heap),
        Course_fetch classes custom (p ++ q) target NO_DEFAULT h
        = (reached <- Course_fetch classes custom p target NO_DEFAULT ;;
           Course_fetch classes custom q reached NO_DEFAULT) h).
Proof.
  assert (Hdiv : forall a b : Course, Course_truediv custom a (CI_Course b) = Ok (a ++ b)).
  { intros a b. unfold Course_truediv.
    change [CI_Course a; CI_Course b] with (map CI_Course [a; b]).
    rewrite Course_init_courses. cbn. rewrite app_nil_r. reflexivity. }
  split; [apply Hdiv|]. split; [apply Hdiv|].
  split; [rewrite Hdiv; unfold PORT; rewrite app_nil_r; reflexivity|].
  split; [rewrite !Hdiv, app_assoc; reflexivity|].
  apply Course_fetch_app.
Qed.

(** X11: with a default supplied, [Course.fetch] never raises
    [NullNameError]. *)
Theorem Course_fetch_with_default_no_NullNameError
    (self : Course) (target default : val) (h h' : heap) (origin : Bearing) :
  is_sentinel "NO_DEFAULT" default = false ->
  Course_fetch classes custom self target default h <> (Raise (NullNameError origin), h').
Proof.
  intros Hdefault. revert target h.
  induction self as [|b rest IH]; intros target h; [discriminate|].
  cbn [Course_fetch].
  destruct (fetch classes custom b target h) as [[t|e] h1]; [apply IH|].
  destruct e; rewrite ?Hdefault; discriminate.
Qed.

(** ** [Course.place] *)

Lemma Course_place_walk_no_factory (parents : list Bearing) :
  Forall (fun b => factory_type b = None) parents ->
  forall (target : val) (h : heap),
    Course_place_walk classes custom parents target h
    = Course_fetch classes custom parents target NO_DEFAULT h.
Proof.
  induction 1 as [|b parents Hb _ IH]; intros target h; [reflexivity|].
  cbn [Course_place_walk Course_fetch]. unfold bind, try_except. rewrite Hb.
  destruct (fetch classes custom b target h) as [[t|e] h1].
  - cbn. apply IH.
  - destruct e; reflexivity.
Qed.

(** X12: when no bearing of the parent course carries a factory,
    [Course.place] reaches the target of the end point exactly as
    [Course.fetch] of the parent course does, and then places with the end
    point; a failure on the way is the failure of that fetch.  On the empty
    course [place] raises [IndexError]. *)
Theorem Course_place_fetches_parent_then_places
    (self : Course) (target value : val) (h : heap) :
  Forall (fun b => factory_type b = None) (parent self) ->
  Course_place classes custom self target value h
  = (reached <- Course_fetch classes custom (parent self) target NO_DEFAULT ;;
     match end_point self with
     | Some last_bearing => place classes custom last_bearing reached value false
     | None => raise IndexError
     end) h
  /\ Course_place classes custom [] target value h = (Raise IndexError, h).
Proof.
  intros Hno. split; [|reflexivity].
  unfold Course_place, bind.
  rewrite (Course_place_walk_no_factory _ Hno). reflexivity.
Qed.

Lemma hashable_alloc_container (h : heap) (o : obj) :
  match o with OInst _ _ => False | _ => True end ->
  forall v : val, hashable classes (h ++ [o]) v = hashable classes h v.
Proof.
  intros Ho. fix IH 1. intros v.
  destruct v as [| | | |items|x| |]; try reflexivity.
  - cbn [hashable]. induction items as [|i items IHi]; [reflexivity|].
    cbn [forallb]. rewrite (IH i), IHi. reflexivity.
  - clear IH. cbn [hashable].
    destruct (Nat.lt_ge_cases x (length h)) as [Hlt|Hge].
    + rewrite lookup_app_l by exact Hlt. reflexivity.
    + rewrite lookup_app_r by exact Hge.
      rewrite (lookup_ge_None_2 h x Hge).
      destruct (x - length h) as [|n]; [destruct o; try contradiction; reflexivity|].
      reflexivity.
Qed.

(** X13: a factory builds what is missing.  On a plain dict without the
    key of the first bearing, an [Item] with [factory=dict], [Course.place]
    of a course of that bearing and a second [Item], both with hashable
    names, creates a new dict,
    stores it under the first key and the value under the second key of
    the new dict; [Course.fetch] of the same course then returns the
    value. *)
Theorem Course_place_factory_creates_dict
    (h : heap) (t : nat) (items : list (val * val)) (first second : Bearing) (v : val) :
  h !! t = Some (ODict "dict" items) ->
  b_type first = Item -> factory_type first = Some "dict" ->
  b_type second = Item ->
  hashable classes h (name first) = true ->
  hashable classes h (name second) = true ->
  dict_find (name first) items = None ->
  let created := length h in
  let h' :=
    <[created := ODict "dict" [(name second, v)]]>
      (<[t := ODict "dict" (items ++ [(name first, VRef created)])]>
         (h ++ [ODict "dict" []])) in
  Course_place classes custom [first; second] (VRef t) v h = (Ok tt, h')
  /\ Course_fetch classes custom [first; second] (VRef t) NO_DEFAULT h' = (Ok v, h').
Proof.
  intros Ht Hty1 Hfac Hty2 Hh1 Hh2 Hfind. cbv zeta.
  assert (Hlt : t < length h) by (eapply lookup_lt_Some; exact Ht).
  set (n := length h).
  set (h1 := h ++ [ODict "dict" []]).
  set (h2 := <[t := ODict "dict" (items ++ [(name first, VRef n)])]> h1).
  set (h3 := <[n := ODict "dict" [(name second, v)]]> h2).
  assert (Ht1 : h1 !! t = Some (ODict "dict" items))
    by (unfold h1; rewrite lookup_app_l by exact Hlt; exact Ht).
  assert (Hn1 : h1 !! n = Some (ODict "dict" []))
    by (unfold h1, n; rewrite lookup_app_r by lia; rewrite Nat.sub_diag; reflexivity).
  assert (Hlen1 : length h1 = S n) by (unfold h1; rewrite length_app; cbn; lia).
  assert (Hn2 : h2 !! n = Some (ODict "dict" []))
    by (unfold h2; rewrite list_lookup_insert_ne by lia; exact Hn1).
  assert (Ht2 : h2 !! t = Some (ODict "dict" (items ++ [(name first, VRef n)])))
    by (unfold h2; apply list_lookup_insert_eq; lia).
  assert (Ht3 : h3 !! t = Some (ODict "dict" (items ++ [(name first, VRef n)])))
    by (unfold h3; rewrite list_lookup_insert_ne by lia; exact Ht2).
  assert (Hn3 : h3 !! n = Some (ODict "dict" [(name second, v)]))
    by (unfold h3; apply list_lookup_insert_eq; unfold h2; rewrite length_insert; lia).
  assert (Hhash1 : forall x, hashable classes h1 x = hashable classes h x)
    by (intros x; unfold h1; apply hashable_alloc_container; exact I).
  assert (Hhash2 : forall x, hashable classes h2 x = hashable classes h x).
  { intros x. unfold h2.
    rewrite (hashable_insert_container h1 t _
               (ODict "dict" (items ++ [(name first, VRef n)])) Ht1 I I).
    apply Hhash1. }
  assert (Hhash3 : forall x, hashable classes h3 x = hashable classes h x).
  { intros x. unfold h3.
    rewrite (hashable_insert_container h2 n _ (ODict "dict" [(name second, v)]) Hn2 I I).
    apply Hhash2. }
  split.
  - unfold Course_place, parent, end_point. cbn [removelast last].
    cbn [Course_place_walk]. unfold bind at 1. unfold bind at 1.
    unfold try_except, fetch, fetch_with. rewrite Hty1, Hfac.
    unfold Item_fetch, try_except, py_getitem, getitem_override. rewrite Ht.
    cbn [builtin_type String.eqb Ascii.eqb Bool.eqb orb].
    rewrite Hh1, Hfind. unfold raise, ret. unfold bind at 1.
    unfold py_isinstance, type_name. cbn [negb orb String.eqb Ascii.eqb Bool.eqb].
    unfold init_factory. rewrite Hfac. cbn [String.eqb Ascii.eqb Bool.eqb].
    unfold bind, alloc. fold n. fold h1.
    unfold place, place_with. rewrite Hty1.
    unfold Item_place, try_except, py_setitem, setitem_override. rewrite Ht1.
    cbn [builtin_type String.eqb Ascii.eqb Bool.eqb orb].
    rewrite Hhash1, Hh1, (dict_set_fresh _ _ _ Hfind). fold h2.
    unfold ret. cbn [Course_place_walk]. unfold ret.
    rewrite Hty2. rewrite Hn2.
    cbn [builtin_type String.eqb Ascii.eqb Bool.eqb orb].
    rewrite Hhash2, Hh2. reflexivity.
  - cbn [Course_fetch]. unfold fetch, fetch_with. rewrite Hty1, Hty2.
    unfold Item_fetch, try_except, py_getitem, getitem_override. rewrite Ht3.
    cbn [builtin_type String.eqb Ascii.eqb Bool.eqb orb].
    rewrite Hhash3, Hh1.
    assert (Hfound : dict_find (name first) (items ++ [(name first, VRef n)])
                     = Some (VRef n)).
    { rewrite <- (dict_set_fresh _ _ _ Hfind). apply dict_find_set_same. }
    rewrite Hfound, Hn3.
    cbn [builtin_type String.eqb Ascii.eqb Bool.eqb orb].
    rewrite Hhash3, Hh2. cbn [dict_find]. rewrite py_eq_refl. reflexivity.
Qed.


(** ** Pieces of a course *)

Lemma Course_contains_piece (before piece after item : Course) :
  Course_eq piece item = true ->
  Course_contains (before ++ piece ++ after) item = true.
Proof.
  intros Heq.
  assert (Hlen : length item = length piece) by (apply tuple_eq_length; exact Heq).
  unfold Course_contains. apply existsb_exists. exists (length before). split.
  - apply in_seq. rewrite !length_app. lia.
  - unfold Course_slice. rewrite Nat.add_sub, Hlen.
    rewrite drop_app_length, take_app_length. exact Heq.
Qed.

(** X14: [item in self] holds exactly when [self] has a run of
    consecutive bearings that is [==] to [item], bearing by bearing.  So a
    course contains itself, the empty course and each of its slices, and
    nothing longer than itself. *)
Theorem Course_contains_iff_piece (self item : Course) :
  Course_contains self item = true
  <-> exists before piece after : Course,
        self = before ++ piece ++ after /\ Course_eq piece item = true.
Proof.
  split.
  - unfold Course_contains. intros Hin.
    apply existsb_exists in Hin as (x & _ & Heq).
    exists (take x self), (Course_slice self x (length item + x)),
           (drop (length item + x - x) (drop x self)).
    split; [|exact Heq].
    unfold Course_slice. rewrite take_drop, take_drop. reflexivity.
  - intros (before & piece & after & -> & Heq).
    apply Course_contains_piece. exact Heq.
Qed.

(** X15: a course starts with each of its prefixes and ends with each of
    its suffixes that is not empty; what it starts or ends with it also
    contains.  The empty course is the exception at the end: every course
    starts with it, and only the empty course ends with it, since the
    slice from [-0] is the whole course.  With a bearing as the argument
    both methods raise [IndexError] on the empty course. *)
Theorem starts_with_ends_with_pieces (first rest : Course) :
  starts_with (first ++ rest) (ACourse first) = Ok true
  /\ (rest <> [] -> ends_with (first ++ rest) (ACourse rest) = Ok true)
  /\ (forall self other : Course,
        starts_with self (ACourse other) = Ok true -> Course_contains self other = true)
  /\ (forall self other : Course,
        ends_with self (ACourse other) = Ok true -> Course_contains self other = true)
  /\ (forall self : Course,
        ends_with self (ACourse []) = Ok (match self with [] => true | _ => false end))
  /\ (forall b : Bearing,
        starts_with [] (ABearing b) = Raise IndexError
        /\ ends_with [] (ABearing b) = Raise IndexError).
Proof.
  split; [|split; [|split; [|split; [|split]]]].
  - cbn [starts_with]. rewrite take_app_length. unfold Course_eq.
    rewrite tuple_eq_refl. reflexivity.
  - intros Hrest. cbn [ends_with]. unfold slice_from_minus.
    destruct (length rest) as [|k] eqn:Hlen.
    + destruct rest; [contradiction|discriminate].
    + rewrite <- Hlen, length_app, Nat.add_sub, drop_app_length. unfold Course_eq.
      rewrite tuple_eq_refl. reflexivity.
  - intros self other Hstart. cbn [starts_with] in Hstart.
    injection Hstart as Hstart.
    rewrite <- (take_drop (length other) self).
    apply (Course_contains_piece [] _ _ _ Hstart).
  - intros self other Hend. cbn [ends_with] in Hend. injection Hend as Hend.
    unfold slice_from_minus in Hend.
    destruct (length other) as [|k] eqn:Hlen.
    + rewrite <- (app_nil_r self). apply (Course_contains_piece [] self [] _ Hend).
    + rewrite <- (take_drop (length self - S k) self).
      rewrite <- (app_nil_r (drop _ self)).
      apply (Course_contains_piece _ _ [] _ Hend).
  - intros [|b self]; reflexivity.
  - intros b. split; reflexivity.
Qed.

(** ** [Course.replace] *)

Lemma sequence_app {A} (l1 l2 : list (result A)) :
  sequence (l1 ++ l2)
  = match sequence l1 with
    | Ok a =>
        match sequence l2 with
        | Ok b => Ok (a ++ b)
        | Raise e => Raise e
        end
    | Raise e => Raise e
    end.
Proof.
  induction l1 as [|[a|e] l1 IH]; cbn [app sequence].
  - destruct (sequence l2); reflexivity.
  - rewrite IH. destruct (sequence l1); [|reflexivity].
    destruct (sequence l2); reflexivity.
  - reflexivity.
Qed.

Lemma Course_init_app (ext : list bclass) (l1 l2 : list CourseInput) :
  Course_init custom ext (l1 ++ l2)
  = match Course_init custom ext l1 with
    | Ok a =>
        match Course_init custom ext l2 with
        | Ok b => Ok (a ++ b)
        | Raise e => Raise e
        end
    | Raise e => Raise e
    end.
Proof.
  unfold Course_init. rewrite map_app, sequence_app.
  destruct (sequence (map _ l1)); [|reflexivity].
  destruct (sequence (map _ l2)); [|reflexivity].
  rewrite concat_app. reflexivity.
Qed.

Lemma Course_init_around (ext : list bclass) (xs ys : list Bearing) (r : CourseInput) :
  Course_init custom ext (map CI_Bearing xs ++ [r] ++ map CI_Bearing ys)
  = match Course_init custom ext [r] with
    | Ok q => Ok (xs ++ q ++ ys)
    | Raise e => Raise e
    end.
Proof.
  rewrite !Course_init_app, !Course_init_bearings.
  destruct (Course_init custom ext [r]); reflexivity.
Qed.

Lemma norm_index_mod (len : nat) (i : Z) (j : nat) :
  norm_index len i = Some j -> Z.to_nat (i mod Z.of_nat len) = j.
Proof.
  unfold norm_index.
  destruct (i <? 0)%Z eqn:Hneg;
    destruct (_ && _) eqn:Hin; try discriminate;
    intros Heq; injection Heq as <-;
    apply andb_true_iff in Hin as [H0 H1];
    apply Z.leb_le in H0; apply Z.ltb_lt in H1; f_equal.
  - rewrite <- (Z_mod_plus_full i 1 (Z.of_nat len)), Z.mul_1_l.
    symmetry. rewrite Z.mod_small by lia. reflexivity.
  - rewrite Z.mod_small by lia. reflexivity.
Qed.

Lemma norm_index_outside (len : nat) (i : Z) :
  (i < - Z.of_nat len \/ Z.of_nat len <= i)%Z -> norm_index len i = None.
Proof.
  intros Hout. unfold norm_index.
  destruct (i <? 0)%Z eqn:Hneg.
  - apply Z.ltb_lt in Hneg.
    destruct (0 <=? i + Z.of_nat len)%Z eqn:H0; [apply Z.leb_le in H0; lia|reflexivity].
  - apply Z.ltb_ge in Hneg.
    destruct (0 <=? i)%Z; cbn [andb]; [|reflexivity].
    destruct (i <? Z.of_nat len)%Z eqn:H1; [apply Z.ltb_lt in H1; lia|reflexivity].
Qed.

Lemma Course_replace_At (p : Course) (i : Z) (j : nat) (r : CourseInput) :
  norm_index (length p) i = Some j ->
  Course_replace custom p (At i) r
  = match Course_init custom [] [r] with
    | Ok q => Ok (take j p ++ q ++ drop (S j) p)
    | Raise e => Raise e
    end.
Proof.
  intros Hj.
  assert (Hlt : j < length p) by (eapply norm_index_lt; exact Hj).
  unfold Course_replace, list_delete. rewrite Hj.
  pose proof (norm_index_mod _ _ _ Hj) as Hmod.
  destruct (length p) as [|n] eqn:Hlen; [lia|].
  rewrite Hmod.
  assert (Htake : length (take j p) = j) by (rewrite length_take; lia).
  assert (Hfront : take j (take j p ++ drop (S j) p) = take j p)
    by (rewrite <- Htake at 1; apply take_app_length).
  assert (Hback : drop j (take j p ++ drop (S j) p) = drop (S j) p)
    by (rewrite <- Htake at 1; apply drop_app_length).
  rewrite Hfront, Hback.
  apply Course_init_around.
Qed.

(** X16: [Course.replace] at an integer index.  An index inside
    [-len .. len-1] puts the replacement in the place of the bearing it
    denotes, negative indexes counting from the end: a bearing keeps the
    length of the course, a course is spliced in.  An index outside raises
    [IndexError]. *)
Theorem Course_replace_at_index (p : Course) (i : Z) :
  let n := Z.of_nat (length p) in
  let j := Z.to_nat (if (i <? 0)%Z then i + n else i) in
  ((- n <= i < n)%Z ->
   (forall b : Bearing,
       Course_replace custom p (At i) (CI_Bearing b) = Ok (<[j := b]> p))
   /\ (forall q : Course,
         Course_replace custom p (At i) (CI_Course q)
         = Ok (take j p ++ q ++ drop (S j) p)))
  /\ ((i < - n \/ n <= i)%Z ->
      forall r : CourseInput, Course_replace custom p (At i) r = Raise IndexError).
Proof.
  cbv zeta. split.
  - intros Hin.
    assert (Hj : norm_index (length p) i
                 = Some (Z.to_nat (if (i <? 0)%Z then i + Z.of_nat (length p) else i))).
    { unfold norm_index.
      destruct (i <? 0)%Z eqn:Hneg.
      - apply Z.ltb_lt in Hneg.
        destruct (0 <=? i + Z.of_nat (length p))%Z eqn:H0; [|apply Z.leb_gt in H0; lia].
        destruct (i + Z.of_nat (length p) <? Z.of_nat (length p))%Z eqn:H1;
          [reflexivity|apply Z.ltb_ge in H1; lia].
      - apply Z.ltb_ge in Hneg.
        destruct (0 <=? i)%Z eqn:H0; [|apply Z.leb_gt in H0; lia].
        destruct (i <? Z.of_nat (length p))%Z eqn:H1;
          [reflexivity|apply Z.ltb_ge in H1; lia]. }
    pose proof (norm_index_lt _ _ _ Hj) as Hlt.
    split.
    + intros b. rewrite (Course_replace_At _ _ _ _ Hj).
      change (Course_init custom [] [CI_Bearing b])
        with (Course_init custom [] (map CI_Bearing [b])).
      rewrite Course_init_bearings.
      rewrite (insert_take_drop p _ b Hlt). reflexivity.
    + intros q. rewrite (Course_replace_At _ _ _ _ Hj).
      change (Course_init custom [] [CI_Course q])
        with (Course_init custom [] (map CI_Course [q])).
      rewrite Course_init_courses. cbn [concat]. rewrite app_nil_r. reflexivity.
  - intros Hout r. unfold Course_replace, list_delete.
    rewrite (norm_index_outside _ _ Hout). reflexivity.
Qed.


(** ** [Course.replace] with a slice *)

(** X17: [Course.replace] with a slice.  [slice(a, b)] with
    [a <= b <= len] and [a < len] puts the replacement in the place of the
    bearings from [a] up to [b]; [slice(None, None)] leaves the replacement
    alone.  The place of the insertion is [start % len]: a slice that
    starts at the end of the course inserts at the front, and on the empty
    course a slice with a start raises [ZeroDivisionError]. *)
Theorem Course_replace_slice (p q : Course) :
  (forall a b : nat,
      a <= b -> b <= length p -> a < length p ->
      Course_replace custom p (Slice (Some (Z.of_nat a)) (Some (Z.of_nat b))) (CI_Course q)
      = Ok (take a p ++ q ++ drop b p))
  /\ Course_replace custom p (Slice None None) (CI_Course q) = Ok q
  /\ (p <> [] ->
      Course_replace custom p (Slice (Some (Z.of_nat (length p))) None) (CI_Course q)
      = Ok (q ++ p))
  /\ (forall (start : Z) (stop : option Z),
        Course_replace custom [] (Slice (Some start) stop) (CI_Course q)
        = Raise (OtherError "ZeroDivisionError")).
Proof.
  assert (Hinit : Course_init custom [] [CI_Course q] = Ok q).
  { change [CI_Course q] with (map CI_Course [q]).
    rewrite Course_init_courses. cbn [concat]. rewrite app_nil_r. reflexivity. }
  split; [|split; [|split]].
  - intros a b Hab Hb Ha.
    unfold Course_replace, list_delete, slice_bound.
    destruct (Z.of_nat a <? 0)%Z eqn:Hneg; [apply Z.ltb_lt in Hneg; lia|].
    destruct (Z.of_nat b <? 0)%Z eqn:Hnegb; [apply Z.ltb_lt in Hnegb; lia|].
    rewrite !Nat2Z.id, (Nat.min_l a) by lia. rewrite (Nat.min_l b) by lia.
    assert (Hmod : Z.to_nat (Z.of_nat a mod Z.of_nat (length p)) = a)
      by (rewrite Z.mod_small by lia; apply Nat2Z.id).
    assert (Htake : length (take a p) = a) by (rewrite length_take; lia).
    destruct (length p) as [|n] eqn:Hlen; [lia|]. rewrite Hmod.
    destruct (Nat.ltb a b) eqn:Hlt.
    + assert (Hfront : take a (take a p ++ drop b p) = take a p)
        by (rewrite <- Htake at 1; apply take_app_length).
      assert (Hback : drop a (take a p ++ drop b p) = drop b p)
        by (rewrite <- Htake at 1; apply drop_app_length).
      rewrite Hfront, Hback, Course_init_around, Hinit. reflexivity.
    + apply Nat.ltb_ge in Hlt. assert (a = b) as <- by lia.
      rewrite Course_init_around, Hinit. reflexivity.
  - unfold Course_replace, list_delete, slice_bound.
    destruct (Nat.ltb 0 (length p)) eqn:Hlt.
    + rewrite drop_all, !take_0. cbn [app drop map].
      rewrite Hinit. reflexivity.
    + apply Nat.ltb_ge in Hlt. destruct p; [|cbn in Hlt; lia].
      cbn [app take drop map]. rewrite Hinit. reflexivity.
  - intros Hp. unfold Course_replace, list_delete, slice_bound.
    destruct (Z.of_nat (length p) <? 0)%Z eqn:Hneg; [apply Z.ltb_lt in Hneg; lia|].
    rewrite Nat2Z.id, Nat.min_id, Nat.ltb_irrefl.
    destruct (length p) as [|n] eqn:Hlen; [destruct p; [contradiction|discriminate]|].
    rewrite Z.mod_same by lia. change (Z.to_nat 0) with 0.
    rewrite take_0, drop_0, Course_init_around, Hinit. reflexivity.
  - intros start stop. unfold Course_replace, list_delete. cbn [length].
    destruct (Nat.ltb _ _); reflexivity.
Qed.

(** ** The shorthand of bearings *)

Lemma dot_run_one_line (s t : string) :
  one_line s -> dot_run (String.append s t) = String.append s (dot_run t).
Proof.
  unfold one_line. induction s as [|c s IH]; intros Hline; [reflexivity|].
  cbn [String.append dot_run list_ascii_of_string] in *.
  destruct (Ascii.eqb c newline) eqn:Hc.
  - apply Ascii.eqb_eq in Hc. exfalso. apply Hline. left. exact Hc.
  - rewrite IH; [reflexivity|]. intros Hin. apply Hline. right. exact Hin.
Qed.

Lemma dot_run_self (s : string) : one_line s -> dot_run s = s.
Proof.
  intros Hline. pose proof (dot_run_one_line s "" Hline) as H.
  assert (Hnil : forall x : string, String.append x "" = x)
    by (induction x as [|c x IHx]; cbn; [reflexivity|rewrite IHx; reflexivity]).
  cbn [dot_run] in H. rewrite Hnil in H. exact H.
Qed.

Lemma greedy_before_end (c : ascii) (s : string) :
  s <> EmptyString ->
  greedy_before c (String.append s (String c EmptyString)) = Some s.
Proof.
  induction s as [|a s IH]; intros Hs; [contradiction|].
  cbn [String.append greedy_before].
  destruct s as [|b s].
  - cbn [String.append greedy_before]. rewrite Ascii.eqb_refl. reflexivity.
  - rewrite IH by discriminate. reflexivity.
Qed.

Lemma prefix_parens (t : string) :
  String.prefix "()" t = true -> exists rest : string, t = String.append "()" rest.
Proof.
  destruct t as [|c1 [|c2 t]]; cbn [String.prefix]; try discriminate.
  - destruct (ascii_dec "(" c1); discriminate.
  - destruct (ascii_dec "(" c1) as [<-|]; [|discriminate].
    destruct (ascii_dec ")" c2) as [<-|]; [|discriminate].
    intros _. exists t. reflexivity.
Qed.

Lemma no_call_mark_tail (c : ascii) (s : string) :
  no_call_mark (String c s) -> no_call_mark s.
Proof.
  intros Hno a b ->. apply (Hno (String c a) b). reflexivity.
Qed.

Lemma lazy_before_parens_none (s : string) :
  no_call_mark s -> lazy_before_parens s = None.
Proof.
  induction s as [|c s IH]; intros Hno; [reflexivity|].
  cbn [lazy_before_parens].
  destruct (String.prefix "()" s) eqn:Hpre.
  - apply prefix_parens in Hpre as [rest ->].
    exfalso. apply (Hno (String c EmptyString) rest). reflexivity.
  - rewrite IH; [reflexivity|]. eapply no_call_mark_tail. exact Hno.
Qed.

Lemma lazy_before_parens_end (s : string) :
  s <> EmptyString -> no_call_mark s ->
  lazy_before_parens (String.append s "()") = Some s.
Proof.
  induction s as [|a s IH]; intros Hs Hno; [contradiction|].
  cbn [String.append lazy_before_parens].
  destruct s as [|b s].
  - reflexivity.
  - destruct (String.prefix "()" (String.append (String b s) "()")) eqn:Hpre.
    + apply prefix_parens in Hpre as [rest Hrest].
      cbn [String.append] in Hrest. injection Hrest as -> Hrest.
      destruct s as [|b' s]; [discriminate|].
      cbn [String.append] in Hrest. injection Hrest as -> _.
      exfalso. apply (Hno (String a EmptyString) s). reflexivity.
    + rewrite IH; [reflexivity|discriminate|].
      eapply no_call_mark_tail. exact Hno.
Qed.

(** X18: the string shorthand of the four bearings, with the default
    classes.  For a name [s] that is not empty and has no newline,
    ["[s]"] is the [Item] named [s], whatever else [s] holds.  When ["()"]
    does not occur in [s], ["@s"] is the [Attr] named [s]; ["s()"] is the
    [Call] named [s] unless [s] starts with ["["]; and [s] alone is the
    [Fallback] named [s], with [Item], [Call] and [Attr] to try, unless
    [s] starts with ["["] or ["@"]. *)
Theorem bearing_shorthand (s : string) :
  s <> EmptyString -> one_line s ->
  bearing custom (VStr (String.append "[" (String.append s "]"))) None None
  = Ok (mkItem (VStr s))
  /\ (no_call_mark s ->
      bearing custom (VStr (String.append "@" s)) None None = Ok (mkAttr s)
      /\ ((forall rest : string, s <> String "[" rest) ->
          bearing custom (VStr (String.append s "()")) None None = Ok (mkCall s)
          /\ ((forall rest : string, s <> String "@" rest) ->
              bearing custom (VStr s) None None = Ok (mkFallback (VStr s))))).
Proof.
  intros Hs Hline.
  assert (Hbracket : dot_run (String.append s "]") = String.append s "]").
  { rewrite dot_run_one_line by exact Hline. reflexivity. }
  assert (Hparens : dot_run (String.append s "()") = String.append s "()").
  { rewrite dot_run_one_line by exact Hline. reflexivity. }
  split.
  - unfold bearing, _order_bearing_classes, _BEARING_CLASSES.
    cbn [app bearing_loop]. unfold attempt_name_to_bearing, name_from_str, regex_name.
    cbn [String.append]. rewrite Hbracket, (greedy_before_end _ _ Hs).
    reflexivity.
  - intros Hno. split; [|intros Hitem; split; [|intros Hattr]].
    + unfold bearing, _order_bearing_classes, _BEARING_CLASSES.
      cbn [app bearing_loop]. unfold attempt_name_to_bearing, name_from_str, regex_name.
      cbn [String.append dot_run].
      change (Ascii.eqb "@" newline) with false. cbv iota.
      rewrite (dot_run_self _ Hline).
      cbn [lazy_before_parens].
      destruct (String.prefix "()" s) eqn:Hpre.
      { apply prefix_parens in Hpre as [rest ->].
        exfalso. apply (Hno EmptyString rest). reflexivity. }
      rewrite (lazy_before_parens_none _ Hno).
      destruct s as [|c s]; [contradiction|]. reflexivity.
    + unfold bearing, _order_bearing_classes, _BEARING_CLASSES.
      cbn [app bearing_loop]. unfold attempt_name_to_bearing, name_from_str, regex_name.
      rewrite Hparens, (lazy_before_parens_end _ Hs Hno).
      destruct s as [|c s]; [contradiction|]. cbn [String.append].
      destruct (Ascii.eqb c "[") eqn:Hc.
      { apply Ascii.eqb_eq in Hc. subst c. exfalso. apply (Hitem s). reflexivity. }
      destruct c as [[] [] [] [] [] [] [] []]; try discriminate Hc; reflexivity.
    + unfold bearing, _order_bearing_classes, _BEARING_CLASSES.
      cbn [app bearing_loop]. unfold attempt_name_to_bearing, name_from_str, regex_name.
      rewrite (dot_run_self _ Hline), (lazy_before_parens_none _ Hno).
      destruct s as [|c s]; [contradiction|].
      destruct (Ascii.eqb c "[") eqn:Hc.
      { apply Ascii.eqb_eq in Hc. subst c. exfalso. apply (Hitem s). reflexivity. }
      destruct (Ascii.eqb c "@") eqn:Hc'.
      { apply Ascii.eqb_eq in Hc'. subst c. exfalso. apply (Hattr s). reflexivity. }
      destruct c as [[] [] [] [] [] [] [] []];
        try discriminate Hc; try discriminate Hc'; reflexivity.
Qed.


(** ** [bearing] and the text of a course *)

Lemma bearing_text_cases (s : string) :
  bearing custom (VStr s) None None
  = match regex_name Item s with
    | Some g => Ok (mkItem (VStr g))
    | None =>
        match regex_name Call s with
        | Some g => Ok (mkCall g)
        | None =>
            match regex_name Attr s with
            | Some g => Ok (mkAttr g)
            | None =>
                match regex_name Fallback s with
                | Some g => Ok (mkFallback (VStr g))
                | None => Raise TypeError
                end
            end
        end
    end.
Proof.
  unfold bearing, _order_bearing_classes, _BEARING_CLASSES.
  cbn [app bearing_loop]. unfold attempt_name_to_bearing, name_from_str.
  destruct (regex_name Item s); [reflexivity|].
  destruct (regex_name Call s); [reflexivity|].
  destruct (regex_name Attr s); [reflexivity|].
  destruct (regex_name Fallback s); reflexivity.
Qed.

(** X19: what [bearing] makes of a name, with the default classes.  A
    name that is no string always becomes an [Item] of that name.  A text
    becomes a bearing unless it is empty or starts with a newline, which
    is a [TypeError]; the bearing is an [Item], a [Call], an [Attr] or a
    [Fallback], it has no factory, and its name is a string again: no
    text gives an [Item] with an integer for its name.  A [Fallback] keeps
    the whole text as its name and tries [Item], [Call] and [Attr]. *)
Theorem bearing_of_any_name :
  (forall v : val, is_str v = false -> bearing custom v None None = Ok (mkItem v))
  /\ (forall s : string,
        s = EmptyString \/ (exists rest : string, s = String newline rest) ->
        bearing custom (VStr s) None None = Raise TypeError)
  /\ (forall s : string,
        s <> EmptyString -> (forall rest : string, s <> String newline rest) ->
        exists b : Bearing,
          bearing custom (VStr s) None None = Ok b
          /\ is_str (name b) = true
          /\ factory_type b = None
          /\ In (b_type b) [Item; Call; Attr; Fallback]
          /\ (b_type b = Fallback -> b = mkFallback (VStr s))).
Proof.
  split; [|split].
  - intros v Hv. destruct v; try discriminate Hv; reflexivity.
  - intros s [->|[rest ->]]; reflexivity.
  - intros s Hs Hline. rewrite bearing_text_cases.
    destruct (regex_name Item s) as [g|].
    { eexists. split; [reflexivity|]. cbn. repeat split; auto. discriminate. }
    destruct (regex_name Call s) as [g|].
    { eexists. split; [reflexivity|]. cbn. repeat split; auto. discriminate. }
    destruct (regex_name Attr s) as [g|].
    { eexists. split; [reflexivity|]. cbn. repeat split; auto. discriminate. }
    destruct s as [|c s]; [contradiction|].
    assert (Hc : Ascii.eqb c newline = false).
    { destruct (Ascii.eqb c newline) eqn:Hc; [|reflexivity].
      apply Ascii.eqb_eq in Hc. subst c. exfalso. apply (Hline s). reflexivity. }
    unfold regex_name. cbn [dot_run]. rewrite Hc.
    eexists. split; [reflexivity|]. cbn. repeat split; auto.
Qed.

Lemma split_on_not_nil (sep : ascii) (s : string) : split_on sep s <> [].
Proof.
  destruct s as [|c s]; [discriminate|]. cbn [split_on].
  destruct (Ascii.eqb c sep); [discriminate|].
  destruct (split_on sep s); discriminate.
Qed.

Lemma split_on_app (sep : ascii) (left right : string) :
  split_on sep (String.append left (String sep right))
  = split_on sep left ++ split_on sep right.
Proof.
  induction left as [|c left IH].
  - cbn [String.append split_on]. rewrite Ascii.eqb_refl. reflexivity.
  - cbn [String.append split_on]. destruct (Ascii.eqb c sep); rewrite IH.
    + reflexivity.
    + pose proof (split_on_not_nil sep left) as Hnil.
      destruct (split_on sep left); [contradiction|]. reflexivity.
Qed.

Lemma bearing_text_Ok_or_TypeError (s : string) :
  (exists b : Bearing, bearing custom (VStr s) (Some ([] ++ BEARINGS)) None = Ok b)
  \/ bearing custom (VStr s) (Some ([] ++ BEARINGS)) None = Raise TypeError.
Proof.
  change (bearing custom (VStr s) (Some ([] ++ BEARINGS)) None)
    with (bearing custom (VStr s) None None).
  rewrite bearing_text_cases.
  destruct (regex_name Item s); [left; eexists; reflexivity|].
  destruct (regex_name Call s); [left; eexists; reflexivity|].
  destruct (regex_name Attr s); [left; eexists; reflexivity|].
  destruct (regex_name Fallback s); [left; eexists; reflexivity|].
  right. reflexivity.
Qed.

(** X20: the text of a course is read piece by piece: [Course] of
    ["left/right"] is [Course(left, right)], whatever classes the course
    type adds.  A piece between two slashes may not be empty: with the
    default classes a text with an empty piece, such as the empty text or
    a text with a slash at either end or two slashes in a row, raises
    [TypeError]. *)
Theorem Course_of_path_text :
  (forall (ext : list bclass) (left right : string),
      Course_init custom ext [CI_val (VStr (String.append left (String "/" right)))]
      = Course_init custom ext [CI_val (VStr left); CI_val (VStr right)])
  /\ (forall s : string,
        In EmptyString (split_on "/" s) ->
        Course_init custom [] [CI_val (VStr s)] = Raise TypeError).
Proof.
  split.
  - intros ext left right. unfold Course_init. cbn [map _cast_arg sequence].
    rewrite split_on_app, map_app, sequence_app.
    destruct (sequence (map _ (split_on "/" left))) as [a|e]; [|reflexivity].
    destruct (sequence (map _ (split_on "/" right))) as [b|e]; [|reflexivity].
    cbn [concat]. rewrite !app_nil_r. reflexivity.
  - intros s Hin. unfold Course_init. cbn [map _cast_arg sequence].
    assert (Hseq : sequence
                     (map (fun piece => bearing custom (VStr piece) (Some ([] ++ BEARINGS)) None)
                          (split_on "/" s))
                   = Raise TypeError).
    { induction (split_on "/" s) as [|piece pieces IH]; [contradiction|].
      cbn [map sequence].
      destruct Hin as [->|Hin].
      - reflexivity.
      - destruct (bearing_text_Ok_or_TypeError piece) as [[b ->]| ->]; [|reflexivity].
        rewrite (IH Hin). reflexivity. }
    rewrite Hseq. reflexivity.
Qed.


(** ** [Surveyor] *)

Lemma bind_Ok {A B} (m : M A) (k : A -> M B) (h h' : heap) (a : A) :
  m h = (Ok a, h') -> bind m k h = k a h'.
Proof. intros Hm. unfold bind. rewrite Hm. reflexivity. Qed.

Lemma bind_Raise {A B} (m : M A) (k : A -> M B) (h h' : heap) (e : exn) :
  m h = (Raise e, h') -> bind m k h = (Raise e, h').
Proof. intros Hm. unfold bind. rewrite Hm. reflexivity. Qed.

Lemma mapM_getattr_sound (target : val) (h : heap) (names : list string) :
  exists r : result (list (Bearing * val)),
    mapM (fun attr => v <- py_getattr classes target attr ;; ret (mkAttr attr, v)) names h
    = (r, h)
    /\ (forall e : exn, r = Raise e -> plain_error e)
    /\ forall pairs : list (Bearing * val),
         r = Ok pairs ->
         Forall (fun bv => fetch classes custom (fst bv) target h = (Ok (snd bv), h)) pairs.
Proof.
  induction names as [|attr names (r & Hrun & Hplain & Hsound)].
  - exists (Ok []). split; [reflexivity|]. split; [discriminate|].
    intros pairs [= <-]. constructor.
  - cbn [mapM].
    assert (Hpure : exists r1, py_getattr classes target attr h = (r1, h)
                               /\ forall e, r1 = Raise e -> e = AttributeError).
    { unfold py_getattr.
      destruct (assoc attr (c_methods (classes (type_name target h))));
        (destruct (instance_dict target h) as [attrs|];
         [destruct (assoc attr attrs)|]);
        eexists; (split; [reflexivity|]); try discriminate;
        intros e [= <-]; reflexivity. }
    destruct Hpure as ([v|e] & Hget & Herr).
    + rewrite (bind_Ok _ _ h h (mkAttr attr, v))
        by (rewrite (bind_Ok _ _ _ _ _ Hget); reflexivity).
      destruct r as [pairs|e].
      * rewrite (bind_Ok _ _ _ _ _ Hrun).
        eexists. split; [reflexivity|]. split; [discriminate|]. intros pairs' [= <-].
        constructor; [|apply Hsound; reflexivity].
        cbn [fst snd]. unfold fetch, fetch_with, mkAttr. cbn [b_type].
        unfold Attr_fetch, getattr_or_null. cbn [name].
        unfold try_except. rewrite Hget. reflexivity.
      * rewrite (bind_Raise _ _ _ _ _ Hrun).
        eexists. split; [reflexivity|]. split; [|discriminate].
        intros e' [= <-]. apply Hplain. reflexivity.
    + rewrite (bind_Raise _ _ h h e)
        by (rewrite (bind_Raise _ _ _ _ _ Hget); reflexivity).
      eexists. split; [reflexivity|]. split; [|discriminate].
      intros e' [= <-]. rewrite (Herr e eq_refl). exact I.
Qed.

Lemma attr_iter_sound (compass : Compass) (target : val) (h : heap) :
  exists r : result (list (Bearing * val)),
    attr_iter classes compass target h = (r, h)
    /\ (forall e : exn, r = Raise e -> plain_error e)
    /\ forall pairs : list (Bearing * val),
         r = Ok pairs ->
         Forall (fun bv => fetch classes custom (fst bv) target h = (Ok (snd bv), h)) pairs.
Proof. unfold attr_iter. apply mapM_getattr_sound. Qed.

Lemma In_enumerate (l : list val) (k v : val) :
  forall start : nat,
    In (k, v) (combine (map (fun i => VInt (Z.of_nat i)) (seq start (length l))) l) ->
    exists i : nat, k = VInt (Z.of_nat (start + i)) /\ l !! i = Some v.
Proof.
  induction l as [|x l IH]; intros start Hin; [contradiction|].
  cbn [length seq map combine] in Hin. destruct Hin as [[= <- <-]|Hin].
  - exists 0. rewrite Nat.add_0_r. split; reflexivity.
  - apply IH in Hin as (i & -> & Hi). exists (S i). split; [|exact Hi].
    f_equal. f_equal. lia.
Qed.

Lemma seq_getitem_enumerated (l : list val) (k v : val) :
  In (k, v) (combine (map (fun i => VInt (Z.of_nat i)) (seq 0 (length l))) l) ->
  seq_getitem l k = Ok v.
Proof.
  intros Hin. apply In_enumerate in Hin as (i & -> & Hi). cbn [Nat.add].
  pose proof (lookup_lt_Some _ _ _ Hi) as Hlt.
  unfold seq_getitem. cbn [as_int].
  rewrite norm_index_inside by lia. rewrite Nat2Z.id, Hi. reflexivity.
Qed.

Lemma item_iter_sound (compass : Compass) (target : val) (h : heap) :
  exists pairs : list (Bearing * val),
    item_iter compass target h = (Ok pairs, h)
    /\ (readable classes h ->
        Forall (fun bv => fetch classes custom (fst bv) target h = (Ok (snd bv), h)) pairs).
Proof.
  unfold item_iter. eexists. split; [reflexivity|]. intros Hread.
  apply List.Forall_forall. intros [b v] Hin.
  apply in_map_iff in Hin as ([k v'] & [= <- <-] & Hin).
  apply filter_In in Hin as [Hin _]. cbn [fst snd] in *.
  unfold fetch, fetch_with, mkItem. cbn [b_type].
  unfold Item_fetch, try_except, py_getitem. cbn [name].
  destruct (_items compass) eqn:Hsel; [|contradiction|].
  all: destruct target as [| | |text|items|l| |]; try contradiction.
  all: try (rewrite (seq_getitem_enumerated _ _ _ Hin); reflexivity).
  all: destruct (h !! l) as [[cls items|cls items|cls attrs]|] eqn:Hl; try contradiction.
  all: pose proof (Hread _ _ Hl) as Hobj; cbn beta iota in Hobj.
  all: try (rewrite Hobj, (seq_getitem_enumerated _ _ _ Hin); reflexivity).
  all: destruct Hobj as [-> Hkeys]; destruct (Hkeys _ _ Hin) as [-> ->]; reflexivity.
Qed.

Lemma bearings_iter_sound (compass : Compass) (target : val) (h : heap) :
  _calls compass = @Nothing string ->
  exists r : result (list (Bearing * val)),
    bearings_iter classes compass target h = (r, h)
    /\ (forall e : exn, r = Raise e -> plain_error e)
    /\ (readable classes h ->
        forall pairs : list (Bearing * val),
          r = Ok pairs ->
          Forall (fun bv => fetch classes custom (fst bv) target h = (Ok (snd bv), h)) pairs).
Proof.
  intros Hcalls. unfold bearings_iter.
  destruct (negb (is_navigable compass target h)).
  { eexists. split; [reflexivity|]. split; [|discriminate].
    intros e [= <-]. exact I. }
  destruct (attr_iter_sound compass target h) as (ra & Ha & Hpa & Hsa).
  destruct (item_iter_sound compass target h) as (pi & Hi & Hsi).
  destruct ra as [pa|e].
  - rewrite (bind_Ok _ _ _ _ _ Ha).
    rewrite (bind_Ok _ _ h h [])
      by (unfold call_iter; rewrite Hcalls; reflexivity).
    rewrite (bind_Ok _ _ _ _ _ Hi). unfold ret.
    eexists. split; [reflexivity|]. split; [discriminate|].
    intros Hread pairs [= <-]. cbn [app].
    apply Forall_app. split; [apply Hsa; reflexivity|apply Hsi; exact Hread].
  - rewrite (bind_Raise _ _ _ _ _ Ha).
    eexists. split; [reflexivity|]. split; [|discriminate].
    intros e' [= <-]. apply Hpa. reflexivity.
Qed.

Lemma lefts_app {A B} (l1 l2 : list (A + B)) : lefts (l1 ++ l2) = lefts l1 ++ lefts l2.
Proof.
  induction l1 as [|[a|b] l1 IH]; cbn [app lefts]; rewrite ?IH; reflexivity.
Qed.

(** What [_chart_layer] yields below [parent_course]: courses that start
    with it, and whose rest leads from the target to the value. *)
Lemma chart_layer_sound (self : Surveyor) (exceptions : bool) (h : heap) :
  no_calls self ->
  forall (depth : nat) (target : val) (parent_course : Course),
  exists r : result (list (Course * val + exn)),
    _chart_layer classes depth self target parent_course exceptions h = (r, h)
    /\ (forall e : exn, r = Raise e -> plain_error e)
    /\ (readable classes h ->
        forall results : list (Course * val + exn),
          r = Ok results ->
          Forall (fun cv =>
                    exists rest : Course,
                      fst cv = parent_course ++ rest
                      /\ Course_fetch classes custom rest target NO_DEFAULT h
                         = (Ok (snd cv), h))
                 (lefts results)).
Proof.
  intros Hcalls. induction depth as [|depth IH]; intros target parent_course.
  { eexists. split; [reflexivity|]. split; [|discriminate]. intros e [= <-]. exact I. }
  cbn [_chart_layer]. unfold _choose_compass.
  destruct (List.find _ (_compasses self)) as [compass|] eqn:Hfind.
  2:{ destruct exceptions; eexists; (split; [reflexivity|]).
      - split; [|discriminate]. intros e [= <-]. exact I.
      - split; [discriminate|]. intros _ results [= <-]. constructor. }
  assert (Hcompass : _calls compass = @Nothing string).
  { apply find_some in Hfind as [Hin _].
    unfold no_calls in Hcalls. rewrite List.Forall_forall in Hcalls. exact (Hcalls _ Hin). }
  destruct (bearings_iter_sound compass target h Hcompass) as (rb & Hb & Hpb & Hsb).
  destruct rb as [pairs|e].
  2:{ rewrite (bind_Raise _ _ _ _ _ Hb).
      eexists. split; [reflexivity|]. split; [|discriminate].
      intros e' [= <-]. apply Hpb. reflexivity. }
  rewrite (bind_Ok _ _ _ _ _ Hb).
  assert (Hpairs : readable classes h ->
                   Forall (fun bv => fetch classes custom (fst bv) target h
                                     = (Ok (snd bv), h)) pairs)
    by (intros Hread; apply Hsb; [exact Hread|reflexivity]).
  clear Hb Hpb Hsb Hfind. induction pairs as [|[b v] pairs IHpairs].
  { eexists. split; [reflexivity|]. split; [discriminate|].
    intros _ results [= <-]. constructor. }
  destruct IHpairs as (rmore & Hmore & Hpmore & Hsmore).
  { intros Hread. specialize (Hpairs Hread). inversion Hpairs. assumption. }
  assert (Hbelow :
            exists rbelow : result (list (Course * val + exn)),
              (if is_None v
                  || existsb (fun t => py_isinstance v t h) (_end_points self)
               then (Ok [], h)
               else _chart_layer classes depth self v (parent_course ++ [b]) exceptions h)
              = (rbelow, h)
              /\ (forall e : exn, rbelow = Raise e -> plain_error e)
              /\ (readable classes h ->
                  forall results : list (Course * val + exn),
                    rbelow = Ok results ->
                    Forall (fun cv =>
                              exists rest : Course,
                                fst cv = (parent_course ++ [b]) ++ rest
                                /\ Course_fetch classes custom rest v NO_DEFAULT h
                                   = (Ok (snd cv), h))
                           (lefts results))).
  { destruct (is_None v || existsb _ (_end_points self)).
    - eexists. split; [reflexivity|]. split; [discriminate|].
      intros _ results [= <-]. constructor.
    - apply IH. }
  destruct Hbelow as (rbelow & Hbelow & Hpbelow & Hsbelow).
  destruct rbelow as [below|e].
  2:{ rewrite (bind_Raise _ _ _ _ _ Hbelow).
      eexists. split; [reflexivity|]. split; [|discriminate].
      intros e' [= <-]. apply Hpbelow. reflexivity. }
  rewrite (bind_Ok _ _ _ _ _ Hbelow).
  destruct rmore as [more|e].
  2:{ rewrite (bind_Raise _ _ _ _ _ Hmore).
      eexists. split; [reflexivity|]. split; [|discriminate].
      intros e' [= <-]. apply Hpmore. reflexivity. }
  rewrite (bind_Ok _ _ _ _ _ Hmore).
  eexists. split; [reflexivity|]. split; [discriminate|]. intros Hread results [= <-].
  specialize (Hpairs Hread). inversion Hpairs as [|? ? Hfetch _]. subst.
  cbn [fst snd] in Hfetch. cbn [lefts]. rewrite lefts_app.
  constructor; [|apply Forall_app; split].
  - exists [b]. split; [reflexivity|]. cbn [fst snd Course_fetch].
    rewrite Hfetch. reflexivity.
  - eapply List.Forall_impl; [|apply (Hsbelow Hread); reflexivity].
    intros cv (rest & Hcourse & Hrest). exists (b :: rest). split.
    + rewrite Hcourse, <- app_assoc. reflexivity.
    + cbn [Course_fetch]. rewrite Hfetch. exact Hrest.
  - apply (Hsmore Hread). reflexivity.
Qed.

(** X21: a surveyor none of whose compasses yields calls, as the default
    one, only reads: [chart] leaves every object as it was, whether it
    returns a chart or raises. *)
Theorem chart_is_read_only (self : Surveyor) (target : val) (exceptions : bool) (h : heap) :
  no_calls self ->
  snd (chart classes recursion_limit self target exceptions h) = h.
Proof.
  intros Hcalls. unfold chart, bind.
  destruct (chart_layer_sound self exceptions h Hcalls recursion_limit target [])
    as (r & -> & _).
  destruct r as [results|e]; [|reflexivity].
  destruct (rights results); reflexivity.
Qed.

(** X22: each course of a chart leads to the value charted with it.  For a
    surveyor without calls, on data whose containers are read as the
    built-in ones are, [Course.fetch] of a charted course on the charted
    target returns the value of the pair; this also holds for the partial
    chart that a [SuppressedErrors] carries. *)
Theorem chart_courses_fetch (self : Surveyor) (target : val) (exceptions : bool)
    (h h' : heap) :
  no_calls self ->
  readable classes h ->
  let leads (cv : Course * val) :=
    Course_fetch classes custom (fst cv) target NO_DEFAULT h = (Ok (snd cv), h) in
  (forall pairs : list (Course * val),
      chart classes recursion_limit self target exceptions h = (Ok pairs, h') ->
      Forall leads pairs)
  /\ (forall (errors : list exn) (chart_partial : list (Course * val)),
        chart classes recursion_limit self target exceptions h
        = (Raise (SuppressedErrors errors chart_partial), h') ->
        Forall leads chart_partial).
Proof.
  intros Hcalls Hread leads. unfold chart, bind.
  destruct (chart_layer_sound self exceptions h Hcalls recursion_limit target [])
    as (r & -> & Hplain & Hsound).
  assert (Hleads : forall results, r = Ok results -> Forall leads (lefts results)).
  { intros results Hr. eapply List.Forall_impl; [|apply (Hsound Hread); exact Hr].
    intros cv (rest & Hcourse & Hrest). unfold leads.
    cbn [app] in Hcourse. rewrite Hcourse. exact Hrest. }
  split.
  - intros pairs Hchart. destruct r as [results|e]; [|discriminate].
    destruct (rights results); [|discriminate].
    injection Hchart as <- _. apply Hleads. reflexivity.
  - intros errors chart_partial Hchart. destruct r as [results|e].
    + destruct (rights results); [discriminate|].
      injection Hchart as _ <- _. apply Hleads. reflexivity.
    + injection Hchart as -> _. destruct (Hplain _ eq_refl).
Qed.


Lemma end_value_stops (v : val) (h : heap) :
  end_value v = true ->
  is_None v || existsb (fun t => py_isinstance v t h) DEFAULT_END_POINTS = true.
Proof. destruct v; try discriminate; intros _; reflexivity. Qed.

Lemma filter_all {A} (l : list A) : List.filter (fun _ => true) l = l.
Proof. induction l as [|a l IH]; [reflexivity|]. cbn. rewrite IH. reflexivity. Qed.

(** The layer of a container whose items are all end values: one pair for
    each item, and nothing below. *)
Lemma chart_layer_flat (depth : nat) (target : val) (parent_course : Course)
    (exceptions : bool) (h : heap) (coordinates : list (val * val)) :
  bearings_iter classes Compass_default target h
  = (Ok (map (fun kv => (mkItem (fst kv), snd kv)) coordinates), h) ->
  Forall (fun kv => end_value (snd kv) = true) coordinates ->
  _chart_layer classes (S depth) Surveyor_default target parent_course exceptions h
  = (Ok (map (fun kv => inl (parent_course ++ [mkItem (fst kv)], snd kv)) coordinates), h).
Proof.
  intros Hiter Hflat. cbn [_chart_layer].
  unfold _choose_compass. cbn [Surveyor_default _compasses List.find].
  change (is_navigable Compass_default target h) with true. cbv iota.
  rewrite (bind_Ok _ _ _ _ _ Hiter). clear Hiter.
  induction Hflat as [|[k v] coordinates Hv _ IH]; [reflexivity|].
  cbn [map fst snd] in *.
  rewrite (bind_Ok _ _ h h [])
    by (cbn [_end_points]; rewrite (end_value_stops _ _ Hv); reflexivity).
  rewrite (bind_Ok _ _ _ _ _ IH). reflexivity.
Qed.

Lemma lefts_inl {A B C} (f : C -> A) (l : list C) :
  lefts (map (fun c => @inl A B (f c)) l) = map f l
  /\ rights (map (fun c => @inl A B (f c)) l) = [].
Proof.
  induction l as [|c l [IHl IHr]]; [split; reflexivity|].
  cbn [map lefts rights]. rewrite IHl, IHr. split; reflexivity.
Qed.

Lemma chart_flat (target : val) (exceptions : bool) (h : heap)
    (coordinates : list (val * val)) :
  0 < recursion_limit ->
  bearings_iter classes Compass_default target h
  = (Ok (map (fun kv => (mkItem (fst kv), snd kv)) coordinates), h) ->
  Forall (fun kv => end_value (snd kv) = true) coordinates ->
  chart classes recursion_limit Surveyor_default target exceptions h
  = (Ok (map (fun kv => ([mkItem (fst kv)], snd kv)) coordinates), h).
Proof.
  intros Hlimit Hiter Hflat. destruct recursion_limit as [|depth]; [lia|].
  unfold chart.
  rewrite (bind_Ok _ _ _ _ _ (chart_layer_flat depth _ [] exceptions _ _ Hiter Hflat)).
  destruct (lefts_inl (B := exn)
              (fun kv : val * val => ([] ++ [mkItem (fst kv)], snd kv)) coordinates)
    as [-> ->].
  reflexivity.
Qed.

Lemma bearings_iter_default_container (t : nat) (o : obj) (h : heap) :
  h !! t = Some o ->
  match o with OInst _ _ => False | _ => True end ->
  bearings_iter classes Compass_default (VRef t) h
  = item_iter Compass_default (VRef t) h.
Proof.
  intros Ht Ho. unfold bearings_iter.
  change (is_navigable Compass_default (VRef t) h) with true. cbn [negb].
  assert (Hattr : attr_iter classes Compass_default (VRef t) h = (Ok [], h)).
  { unfold attr_iter, instance_dict. cbn [Compass_default _attrs]. rewrite Ht.
    destruct o; [reflexivity|reflexivity|contradiction]. }
  rewrite (bind_Ok _ _ _ _ _ Hattr).
  assert (Hcall : call_iter classes Compass_default (VRef t) h = (Ok [], h))
    by reflexivity.
  rewrite (bind_Ok _ _ _ _ _ Hcall).
  unfold bind, item_iter, ret. reflexivity.
Qed.

Lemma chart_flat_dict (t : nat) (cls : string) (items : list (val * val))
    (exceptions : bool) (h : heap) :
  0 < recursion_limit ->
  h !! t = Some (ODict cls items) ->
  Forall (fun kv => end_value (snd kv) = true) items ->
  chart classes recursion_limit Surveyor_default (VRef t) exceptions h
  = (Ok (map (fun kv => ([mkItem (fst kv)], snd kv)) items), h).
Proof.
  intros Hlimit Ht Hflat. apply chart_flat; [exact Hlimit| |exact Hflat].
  rewrite (bearings_iter_default_container _ _ _ Ht I).
  unfold item_iter. cbn [Compass_default _items]. rewrite Ht, filter_all. reflexivity.
Qed.

(** X23: on a container whose items are all end values ([None], strings,
    integers), the default surveyor returns the chart of one course for
    each item, a single [Item] bearing paired with the value of the item,
    in the order of the container: the keys of a dict, the positions of a
    list. *)
Theorem chart_flat_container (t : nat) (cls : string) (exceptions : bool) (h : heap) :
  0 < recursion_limit ->
  (forall items : list (val * val),
      h !! t = Some (ODict cls items) ->
      Forall (fun kv => end_value (snd kv) = true) items ->
      chart classes recursion_limit Surveyor_default (VRef t) exceptions h
      = (Ok (map (fun kv => ([mkItem (fst kv)], snd kv)) items), h))
  /\ (forall items : list val,
        h !! t = Some (OList cls items) ->
        Forall (fun v => end_value v = true) items ->
        chart classes recursion_limit Surveyor_default (VRef t) exceptions h
        = (Ok (map (fun kv => ([mkItem (fst kv)], snd kv))
                   (combine (map (fun i => VInt (Z.of_nat i)) (seq 0 (length items)))
                            items)), h)).
Proof.
  intros Hlimit. split.
  - intros items Ht Hflat. apply chart_flat_dict with (cls := cls); assumption.
  - intros items Ht Hflat. apply chart_flat; [exact Hlimit| |].
    + rewrite (bearings_iter_default_container _ _ _ Ht I).
      unfold item_iter. cbn [Compass_default _items]. rewrite Ht, filter_all. reflexivity.
    + clear Ht. generalize 0.
      induction Hflat as [|v items Hv _ IH]; intros start; [constructor|].
      cbn [length seq map combine]. constructor; [exact Hv|apply IH].
Qed.


(** ** [Cartographer] without cleaning functions *)

Lemma clean_courses_org_plain (cache0 : val) (h : heap) :
  forall (todo : list Course) (i : nat) (coord : Coordinate),
    drop i (org_list (clean coord)) = todo ->
    _clean_courses_org (Cartographer_clean_org cache0) todo i coord h = (Ok coord, h).
Proof.
  induction todo as [|course todo IH]; intros i coord Hdrop; [reflexivity|].
  assert (Hi : org_list (clean coord) !! i = Some course).
  { rewrite <- (Nat.add_0_r i), <- lookup_drop, Hdrop. reflexivity. }
  cbn [_clean_courses_org].
  rewrite (bind_Ok _ _ h h course) by reflexivity.
  rewrite (list_insert_id _ _ _ Hi).
  assert (Hsame : with_clean coord
                    {| org_list := org_list (clean coord);
                       dst_list := dst_list (clean coord);
                       default_list := default_list (clean coord);
                       cd_value := cd_value (clean coord) |} = coord)
    by (destruct coord as [? ? ? ? ? ? []]; reflexivity).
  rewrite Hsame. apply IH.
  rewrite (drop_S _ _ _ Hi) in Hdrop. injection Hdrop as Hdrop. exact Hdrop.
Qed.

Lemma clean_courses_dst_plain (cache0 : val) (h : heap) (first : Course) :
  forall (todo : list (option Course)) (i : nat) (coord : Coordinate),
    head (org_list (clean coord)) = Some first ->
    drop i (dst_list (clean coord)) = todo ->
    exists coord' : Coordinate,
      _clean_courses_dst (Cartographer_clean_dst cache0) todo i coord h = (Ok coord', h)
      /\ cd_value (clean coord') = cd_value (clean coord)
      /\ dst_list (clean coord')
         = take i (dst_list (clean coord)) ++ map (cleaned_dst first) todo.
Proof.
  induction todo as [|entry todo IH]; intros i coord Hfirst Hdrop.
  { exists coord. split; [reflexivity|]. split; [reflexivity|].
    cbn [map]. rewrite app_nil_r. rewrite <- (take_drop i (dst_list (clean coord))) at 1.
    rewrite Hdrop, app_nil_r. reflexivity. }
  assert (Hi : dst_list (clean coord) !! i = Some entry).
  { rewrite <- (Nat.add_0_r i), <- lookup_drop, Hdrop. reflexivity. }
  pose proof (lookup_lt_Some _ _ _ Hi) as Hlt.
  cbn [_clean_courses_dst].
  assert (Hclean : Cartographer_clean_dst cache0 entry (view coord) h
                   = (Ok (cleaned_dst first entry), h)).
  { unfold Cartographer_clean_dst, cleaned_dst. destruct entry; [reflexivity|].
    cbn [view v_clean]. destruct (org_list (clean coord)); [discriminate|].
    injection Hfirst as ->. reflexivity. }
  rewrite (bind_Ok _ _ _ _ _ Hclean).
  edestruct (IH (S i)) as (coord' & Hrun & Hvalue & Hlist); [| |exists coord'].
  3:{ split; [exact Hrun|]. split; [exact Hvalue|]. rewrite Hlist.
      cbn [with_clean clean dst_list map].
      rewrite (take_S_r _ _ (cleaned_dst first entry))
        by (apply list_lookup_insert_eq; exact Hlt).
      rewrite take_insert_ge by lia. rewrite <- app_assoc. reflexivity. }
  - exact Hfirst.
  - cbn [with_clean clean dst_list]. rewrite drop_insert_lt by lia.
    rewrite (drop_S _ _ _ Hi) in Hdrop. injection Hdrop as Hdrop. exact Hdrop.
Qed.

Lemma fetch_org_value_plain (cart : Cartographer) (coord : Coordinate)
    (origin_root : val) (h : heap) :
  no_cleaners cart coord ->
  _fetch_org_value classes custom cart origin_root (reset coord) h
  = (vs <- fetch_all classes custom
             (combine (org_list (CleanData_init coord))
                      (default_list (CleanData_init coord))) origin_root ;;
     value <- (if Nat.leb (length (org_list (CleanData_init coord))) 1
               then match vs with
                    | v :: _ => ret v
                    | [] => raise IndexError
                    end
               else ret (VTuple vs)) ;;
     ret (reset coord, value)) h.
Proof.
  intros (Horg & _ & _ & Hcorg & _ & _).
  unfold _fetch_org_value, _get_cleaner.
  change (clean_org (reset coord)) with (clean_org coord).
  rewrite Horg, Hcorg.
  rewrite (bind_Ok _ _ _ _ _
             (clean_courses_org_plain (cache cart) h _ 0 (reset coord) eq_refl)).
  change (clean (reset coord)) with (CleanData_init coord).
  unfold bind.
  destruct (fetch_all classes custom _ origin_root h) as [[vs|e] h1]; [|reflexivity].
  destruct (Nat.leb _ 1); [|reflexivity].
  destruct vs; reflexivity.
Qed.

(** What [_map_coordinate] does when nothing cleans: fetch every origin
    with its default, make the value, pair its parts with the
    destinations, and place. *)
Lemma map_coordinate_plain (cart : Cartographer) (coord : Coordinate)
    (origin_root dst_root : val) (first : Course) (h : heap) :
  no_cleaners cart coord ->
  head (org_list (CleanData_init coord)) = Some first ->
  (_map_coordinate classes custom cart origin_root dst_root (reset coord) ;;; ret tt) h
  = (vs <- fetch_all classes custom
             (combine (org_list (CleanData_init coord))
                      (default_list (CleanData_init coord))) origin_root ;;
     value <- (if Nat.leb (length (org_list (CleanData_init coord))) 1
               then match vs with
                    | v :: _ => ret v
                    | [] => raise IndexError
                    end
               else ret (VTuple vs)) ;;
     values <- (if Nat.leb (length (dst_list (CleanData_init coord))) 1
                then ret [value]
                else py_iter value) ;;
     place_all classes custom
       (combine values (map (cleaned_dst first) (dst_list (CleanData_init coord))))
       dst_root) h.
Proof.
  intros Hplain Hfirst.
  pose proof (fetch_org_value_plain cart coord origin_root h Hplain) as Hfetch.
  destruct Hplain as (_ & Hdst & Hvalue & _ & Hcdst & Hcvalue).
  set (c := CleanData_init coord) in *.
  assert (Hstart :
            _map_coordinate classes custom cart origin_root dst_root (reset coord) h
            = (cv <- _fetch_org_value classes custom cart origin_root (reset coord) ;;
               _place_dst_value classes custom cart dst_root
                 (set_value (reset coord) (snd cv))) h).
  { unfold _map_coordinate.
    change (is_None (cd_value (clean (reset coord)))) with true. cbv iota.
    destruct (_fetch_org_value classes custom cart origin_root (reset coord) h)
      as [[[coord1 value]|e] h1] eqn:Hrun.
    2:{ assert (Hfirst_step :
                  (cv <- _fetch_org_value classes custom cart origin_root (reset coord) ;;
                   ret (set_value (fst cv) (snd cv))) h = (Raise e, h1))
          by (apply bind_Raise; exact Hrun).
        rewrite (bind_Raise _ _ _ _ _ Hfirst_step), (bind_Raise _ _ _ _ _ Hrun).
        reflexivity. }
    assert (Hcoord : coord1 = reset coord).
    { clear Hrun. unfold bind in Hfetch. revert Hfetch.
      destruct (fetch_all classes custom _ origin_root h) as [[vs|e] h1'];
        [|discriminate].
      destruct (Nat.leb (length (org_list c)) 1); [destruct vs|];
        try discriminate; intros [= -> _ _]; reflexivity. }
    subst coord1.
    assert (Hfirst_step :
              (cv <- _fetch_org_value classes custom cart origin_root (reset coord) ;;
               ret (set_value (fst cv) (snd cv))) h
              = (Ok (set_value (reset coord) value), h1))
      by (rewrite (bind_Ok _ _ _ _ _ Hrun); reflexivity).
    rewrite (bind_Ok _ _ _ _ _ Hfirst_step), (bind_Ok _ _ _ _ _ Hrun).
    cbv zeta. cbn [snd]. unfold _get_cleaner.
    change (clean_value (set_value (reset coord) value)) with (clean_value coord).
    rewrite Hcvalue, Hvalue.
    rewrite (bind_Ok _ _ h1 h1 value) by reflexivity. reflexivity. }
  destruct (fetch_all classes custom (combine (org_list c) (default_list c))
              origin_root h) as [[vs|e] h1] eqn:Hfa.
  2:{ rewrite (bind_Raise _ _ _ _ _ Hfa) in Hfetch. rewrite (bind_Raise _ _ _ _ _ Hfa).
      rewrite (bind_Raise _ _ h h1 e); [reflexivity|].
      rewrite Hstart. apply bind_Raise. exact Hfetch. }
  rewrite (bind_Ok _ _ _ _ _ Hfa) in Hfetch. rewrite (bind_Ok _ _ _ _ _ Hfa).
  destruct ((if Nat.leb (length (org_list c)) 1
             then match vs with
                  | v :: _ => @ret val v
                  | [] => raise IndexError
                  end
             else ret (VTuple vs)) h1) as [[value|e] h2] eqn:Hmv.
  2:{ rewrite (bind_Raise _ _ _ _ _ Hmv) in Hfetch. rewrite (bind_Raise _ _ _ _ _ Hmv).
      rewrite (bind_Raise _ _ h h2 e); [reflexivity|].
      rewrite Hstart. apply bind_Raise. exact Hfetch. }
  rewrite (bind_Ok _ _ _ _ _ Hmv) in Hfetch. rewrite (bind_Ok _ _ _ _ _ Hmv). unfold ret at 1 in Hfetch.
  assert (Hplace :
            _map_coordinate classes custom cart origin_root dst_root (reset coord) h
            = _place_dst_value classes custom cart dst_root
                (set_value (reset coord) value) h2).
  { rewrite Hstart, (bind_Ok _ _ _ _ _ Hfetch). reflexivity. }
  clear Hstart Hfetch Hfa Hmv.
  unfold _place_dst_value, _get_cleaner in Hplace.
  change (clean_dst (set_value (reset coord) value)) with (clean_dst coord) in Hplace.
  rewrite Hcdst, Hdst in Hplace.
  destruct (clean_courses_dst_plain (cache cart) h2 first
              (dst_list (clean (set_value (reset coord) value))) 0
              (set_value (reset coord) value) Hfirst eq_refl)
    as (coord' & Hrun & Hv & Hl).
  rewrite (bind_Ok _ _ _ _ _ Hrun) in Hplace.
  rewrite take_0 in Hl. cbn [app] in Hl. cbv beta in Hplace.
  rewrite !Hl, !Hv in Hplace. rewrite length_map in Hplace.
  change (dst_list (clean (set_value (reset coord) value))) with (dst_list c) in Hplace.
  change (cd_value (clean (set_value (reset coord) value))) with value in Hplace.
  destruct ((if Nat.leb (length (dst_list c)) 1 then ret [value] else py_iter value) h2)
    as [[values|e] h3] eqn:Hvalues.
  2:{ rewrite (bind_Raise _ _ _ _ _ Hvalues) in Hplace.
      rewrite (bind_Raise _ _ _ _ _ Hplace), (bind_Raise _ _ _ _ _ Hvalues).
      reflexivity. }
  rewrite (bind_Ok _ _ _ _ _ Hvalues) in Hplace. rewrite (bind_Ok _ _ _ _ _ Hvalues).
  destruct (place_all classes custom
              (combine values (map (cleaned_dst first) (dst_list c))) dst_root h3)
    as [[[]|e] h4] eqn:Hput.
  - rewrite (bind_Ok _ _ _ _ _ Hput) in Hplace.
    rewrite (bind_Ok _ _ _ _ _ Hplace). reflexivity.
  - rewrite (bind_Raise _ _ _ _ _ Hput) in Hplace.
    rewrite (bind_Raise _ _ _ _ _ Hplace). reflexivity.
Qed.


Lemma is_sentinel_eq (tag : string) (v : val) :
  is_sentinel tag v = true -> v = VSentinel tag.
Proof.
  destruct v; try discriminate. cbn [is_sentinel]. intros Heq.
  apply String.eqb_eq in Heq. subst. reflexivity.
Qed.

Lemma place_all_one (v : val) (course : Course) (dst_root : val) (h : heap) :
  place_all classes custom [(v, Some course)] dst_root h
  = Course_place classes custom course dst_root v h.
Proof.
  cbn [place_all]. unfold bind.
  destruct (Course_place classes custom course dst_root v h) as [[[]|e] h']; reflexivity.
Qed.

(** X24: a coordinate with one origin, mapped by a cartographer that
    cleans nothing: the value fetched along the origin, with the default of
    the coordinate if that is no tuple, is placed along the destination;
    without a destination it is placed along the [Fallback] bearings of the
    names of the origin. *)
Theorem map_coordinate_one_to_one (cart : Cartographer) (coord : Coordinate)
    (origin : Course) (origin_root dst_root : val) (h : heap) :
  no_cleaners cart coord ->
  org coord = One origin ->
  (forall items : list val, default coord <> VTuple items) ->
  (forall destination : Course,
      dst coord = Some (One destination) ->
      (_map_coordinate classes custom cart origin_root dst_root (reset coord) ;;; ret tt) h
      = (v <- Course_fetch classes custom origin origin_root (default coord) ;;
         Course_place classes custom destination dst_root v) h)
  /\ (dst coord = None ->
      (_map_coordinate classes custom cart origin_root dst_root (reset coord) ;;; ret tt) h
      = (v <- Course_fetch classes custom origin origin_root (default coord) ;;
         Course_place classes custom (fallback_course origin) dst_root v) h).
Proof.
  intros Hplain Horg Hdefault.
  assert (Hlist : combine (org_list (CleanData_init coord))
                          (default_list (CleanData_init coord))
                  = [(origin, default coord)]).
  { unfold CleanData_init. cbn [org_list default_list]. rewrite Horg.
    destruct (is_sentinel "NO_DEFAULT" (default coord)) eqn:Hs.
    - apply is_sentinel_eq in Hs. rewrite Hs. reflexivity.
    - destruct (default coord); try reflexivity. exfalso. eapply Hdefault. reflexivity. }
  assert (Hmap : forall entry : option Course,
             dst_list (CleanData_init coord) = [entry] ->
             (_map_coordinate classes custom cart origin_root dst_root (reset coord) ;;;
              ret tt) h
             = (v <- Course_fetch classes custom origin origin_root (default coord) ;;
                match cleaned_dst origin entry with
                | Some course => Course_place classes custom course dst_root v
                | None => ret tt
                end) h).
  { intros entry Hentry.
    rewrite (map_coordinate_plain cart coord origin_root dst_root origin h Hplain)
      by (unfold CleanData_init; cbn [org_list]; rewrite Horg; reflexivity).
    rewrite Hlist, Hentry.
    assert (Hone : org_list (CleanData_init coord) = [origin])
      by (unfold CleanData_init; cbn [org_list]; rewrite Horg; reflexivity).
    rewrite Hone. cbn [length Nat.leb map].
    cbn [fetch_all]. unfold bind.
    destruct (Course_fetch classes custom origin origin_root (default coord) h)
      as [[v|e] h1]; [|reflexivity].
    unfold ret. cbv beta iota. cbn [combine].
    destruct entry; cbn [cleaned_dst]; apply place_all_one. }
  split.
  - intros destination Hdst. rewrite (Hmap (Some destination)); [reflexivity|].
    unfold CleanData_init. cbn [dst_list]. rewrite Hdst. reflexivity.
  - intros Hdst. rewrite (Hmap None); [reflexivity|].
    unfold CleanData_init. cbn [dst_list org_list]. rewrite Hdst, Horg. reflexivity.
Qed.

(** X25: a tuple given as the default of a coordinate with a single
    origin passes the check of [Coordinate] and is then taken apart: its
    first item is the default of the fetch and the others are ignored; with
    the empty tuple nothing is fetched and [IndexError] is raised. *)
Theorem single_origin_tuple_default (cart : Cartographer) (coord : Coordinate)
    (origin : Course) (origin_root : val) (h : heap) :
  no_cleaners cart coord ->
  org coord = One origin ->
  (forall items : list val,
      exists made : Coordinate,
        Coordinate_init (One origin) (dst coord) None None None (VTuple items) = Ok made)
  /\ (forall (d : val) (ds : list val),
        default coord = VTuple (d :: ds) ->
        _fetch_org_value classes custom cart origin_root (reset coord) h
        = (v <- Course_fetch classes custom origin origin_root d ;;
           ret (reset coord, v)) h)
  /\ (default coord = VTuple [] ->
      _fetch_org_value classes custom cart origin_root (reset coord) h
      = (Raise IndexError, h)).
Proof.
  intros Hplain Horg.
  assert (Hone : org_list (CleanData_init coord) = [origin])
    by (unfold CleanData_init; cbn [org_list]; rewrite Horg; reflexivity).
  split; [|split].
  - intros items. eexists. reflexivity.
  - intros d ds Hdefault. rewrite (fetch_org_value_plain _ _ _ _ Hplain), Hone.
    unfold CleanData_init. cbn [default_list]. rewrite Hdefault.
    cbn [is_sentinel combine length Nat.leb fetch_all]. unfold bind.
    destruct (Course_fetch classes custom origin origin_root d h) as [[v|e] h'];
      reflexivity.
  - intros Hdefault. rewrite (fetch_org_value_plain _ _ _ _ Hplain), Hone.
    unfold CleanData_init. cbn [default_list]. rewrite Hdefault. reflexivity.
Qed.

(** X26: a coordinate with several origins and no default, mapped by a
    cartographer that cleans nothing.  The values are fetched in the order
    of the origins and the first failure ends the fetching.  With one
    destination the tuple of the values is placed there; with several, the
    values are paired with the destinations in order.  Without a
    destination every value is placed along the [Fallback] course of the
    first origin, one after the other. *)
Theorem map_coordinate_many_origins (cart : Cartographer) (coord : Coordinate)
    (first second : Course) (others : list Course) (origin_root dst_root : val)
    (h : heap) :
  no_cleaners cart coord ->
  org coord = Many (first :: second :: others) ->
  default coord = NO_DEFAULT ->
  let origins := first :: second :: others in
  let fetched :=
    fetch_all classes custom (map (fun o => (o, NO_DEFAULT)) origins) origin_root in
  (forall destination : Course,
      dst coord = Some (One destination) ->
      (_map_coordinate classes custom cart origin_root dst_root (reset coord) ;;; ret tt) h
      = (vs <- fetched ;;
         Course_place classes custom destination dst_root (VTuple vs)) h)
  /\ (forall (d1 d2 : Course) (ds : list Course),
        dst coord = Some (Many (d1 :: d2 :: ds)) ->
        (_map_coordinate classes custom cart origin_root dst_root (reset coord) ;;;
         ret tt) h
        = (vs <- fetched ;;
           place_all classes custom (combine vs (map Some (d1 :: d2 :: ds))) dst_root) h)
  /\ (dst coord = None ->
      (_map_coordinate classes custom cart origin_root dst_root (reset coord) ;;; ret tt) h
      = (vs <- fetched ;;
         place_all classes custom
           (combine vs (map (fun _ => Some (fallback_course first)) origins))
           dst_root) h).
Proof.
  intros Hplain Horg Hdefault origins fetched.
  assert (Hlist : org_list (CleanData_init coord) = origins)
    by (unfold CleanData_init; cbn [org_list]; rewrite Horg; reflexivity).
  assert (Hpairs : combine (org_list (CleanData_init coord))
                           (default_list (CleanData_init coord))
                   = map (fun o => (o, NO_DEFAULT)) origins).
  { rewrite Hlist. unfold CleanData_init. cbn [default_list org_list].
    rewrite Hdefault, Horg. cbn [is_sentinel NO_DEFAULT String.eqb Ascii.eqb Bool.eqb].
    fold origins. clear. induction origins as [|o os IH]; [reflexivity|].
    cbn [map combine]. rewrite IH. reflexivity. }
  pose proof (map_coordinate_plain cart coord origin_root dst_root first h Hplain) as Hmap.
  rewrite Hpairs, Hlist in Hmap. specialize (Hmap eq_refl).
  fold fetched in Hmap. cbn [origins length Nat.leb] in Hmap.
  split; [|split].
  - intros destination Hdst. rewrite Hmap.
    unfold CleanData_init. cbn [dst_list]. rewrite Hdst. cbn [length Nat.leb map cleaned_dst].
    unfold bind. destruct (fetched h) as [[vs|e] h1]; [|reflexivity].
    unfold ret at 1 2. cbn [combine]. apply place_all_one.
  - intros d1 d2 ds Hdst. rewrite Hmap.
    unfold CleanData_init. cbn [dst_list]. rewrite Hdst. cbn [length Nat.leb map].
    unfold bind. destruct (fetched h) as [[vs|e] h1]; [|reflexivity].
    unfold ret at 1. unfold py_iter.
    rewrite map_map. cbn [cleaned_dst]. reflexivity.
  - intros Hdst. rewrite Hmap.
    unfold CleanData_init. cbn [dst_list org_list]. rewrite Hdst, Horg.
    cbn [length Nat.leb map].
    unfold bind. destruct (fetched h) as [[vs|e] h1]; [|reflexivity].
    unfold ret at 1. unfold py_iter.
    rewrite map_map. cbn [cleaned_dst]. reflexivity.
Qed.


(** ** [Cartographer.map] with a surveyor *)

Lemma Course_fetch_item_dict (h : heap) (o : nat) (d : list (val * val)) (k v : val) :
  h !! o = Some (ODict "dict" d) ->
  hashable classes h k = true ->
  dict_find k d = Some v ->
  Course_fetch classes custom [mkItem k] (VRef o) NO_DEFAULT h = (Ok v, h).
Proof.
  intros Ho Hhash Hfind. cbn [Course_fetch].
  unfold fetch, fetch_with, mkItem. cbn [b_type].
  unfold Item_fetch, try_except, py_getitem, getitem_override. cbn [name].
  rewrite Ho. cbn [builtin_type String.eqb Ascii.eqb Bool.eqb orb].
  rewrite Hhash, Hfind. reflexivity.
Qed.

Lemma Course_place_fallback_dict (h : heap) (t : nat) (acc : list (val * val)) (k v : val) :
  h !! t = Some (ODict "dict" acc) ->
  hashable classes h k = true ->
  Course_place classes custom (fallback_course [mkItem k]) (VRef t) v h
  = (Ok tt, <[t := ODict "dict" (dict_set k v acc)]> h).
Proof.
  intros Ht Hhash. unfold Course_place, fallback_course, parent, end_point.
  cbn [map removelast last mkItem name Course_place_walk].
  rewrite (bind_Ok _ _ h h (VRef t)) by reflexivity.
  unfold place, place_with, mkFallback. cbn [b_type].
  unfold Fallback_place. cbn [BEARING_CLASSES]. unfold _BEARING_CLASSES.
  cbn [Fallback_place_loop cast new_bearing name].
  unfold try_except, place_cast, place_with. cbn [b_type].
  unfold Item_place, try_except, py_setitem, setitem_override. cbn [name].
  rewrite Ht. cbn [builtin_type String.eqb Ascii.eqb Bool.eqb orb].
  rewrite Hhash. reflexivity.
Qed.

Lemma distinct_keys_find (d : list (val * val)) (i : nat) (k v : val) :
  distinct_keys d -> d !! i = Some (k, v) -> dict_find k d = Some v.
Proof.
  revert i. induction d as [|[k0 v0] d IH]; intros i Hdistinct Hi; [discriminate|].
  cbn [dict_find]. destruct (py_eq k0 k) eqn:Heq.
  - assert (0 = i) as <-.
    { apply (Hdistinct 0 i (k0, v0) (k, v)); [reflexivity|exact Hi|exact Heq]. }
    injection Hi as _ ->. reflexivity.
  - destruct i as [|i].
    + injection Hi as -> _. rewrite py_eq_refl in Heq. discriminate.
    + apply (IH i); [|exact Hi].
      intros a b e1 e2 Ha Hb Hab.
      assert (S a = S b) by (apply (Hdistinct (S a) (S b) e1 e2); assumption).
      lia.
Qed.

Lemma Course_contains_single (a b : Bearing) :
  Course_contains [a] [b] = Bearing_eqb b a.
Proof.
  unfold Course_contains. change (seq 0 _) with [0]. cbn [existsb length].
  unfold Course_slice, Course_eq. change (take (1 + 0 - 0) (drop 0 [a])) with [a].
  cbn [tuple_eq]. rewrite andb_true_r, orb_false_r. reflexivity.
Qed.

Lemma already_mapped_other_keys (k : val) (done : list (val * val)) :
  Forall (fun kv => py_eq (fst kv) k = false) done ->
  already_mapped [mkItem k] (map (fun kv => [mkItem (fst kv)]) done) = false.
Proof.
  intros Hdone. unfold already_mapped. apply orb_false_iff.
  split; induction Hdone as [|[k' v'] done Hk _ IH]; try reflexivity;
    cbn [map existsb fst] in *; rewrite IH, orb_false_r, Course_contains_single;
    unfold Bearing_eqb, Bearing_eq; cbn [name mkItem].
  - rewrite Hk. reflexivity.
  - rewrite py_eq_sym, Hk. reflexivity.
Qed.

(** One item of the chart of a flat dict, mapped onto a plain dict. *)
Lemma map_coordinate_item (cart : Cartographer) (o t : nat)
    (d acc : list (val * val)) (k v : val) (h : heap) :
  cart_clean_org cart = Cartographer_clean_org ->
  cart_clean_dst cart = Cartographer_clean_dst ->
  cart_clean_value cart = Cartographer_clean_value ->
  h !! o = Some (ODict "dict" d) ->
  h !! t = Some (ODict "dict" acc) ->
  hashable classes h k = true ->
  dict_find k d = Some v ->
  exists coord' : Coordinate,
    _map_coordinate classes custom cart (VRef o) (VRef t)
      (set_value (reset (Coord [mkItem k])) v) h
    = (Ok coord', <[t := ODict "dict" (dict_set k v acc)]> h).
Proof.
  intros Horg Hdst Hvalue Ho Ht Hhash Hfind.
  set (coord := set_value (reset (Coord [mkItem k])) v).
  assert (Hplace : exists coord' : Coordinate,
             _place_dst_value classes custom cart (VRef t) coord h
             = (Ok coord', <[t := ODict "dict" (dict_set k v acc)]> h)).
  { unfold _place_dst_value, _get_cleaner.
    change (clean_dst coord) with (@None dst_cleaner). rewrite Hdst.
    destruct (clean_courses_dst_plain (cache cart) h [mkItem k]
                (dst_list (clean coord)) 0 coord eq_refl eq_refl)
      as (coord' & Hrun & Hv & Hl).
    rewrite (bind_Ok _ _ _ _ _ Hrun). cbv beta.
    rewrite take_0 in Hl. cbn [app] in Hl. rewrite !Hl, Hv.
    change (dst_list (clean coord)) with [@None Course].
    change (cd_value (clean coord)) with v.
    cbn [map length Nat.leb cleaned_dst].
    rewrite (bind_Ok _ _ h h [v]) by reflexivity.
    cbn [combine].
    assert (Hput : place_all classes custom [(v, Some (fallback_course [mkItem k]))]
                     (VRef t) h
                   = (Ok tt, <[t := ODict "dict" (dict_set k v acc)]> h))
      by (rewrite place_all_one; apply Course_place_fallback_dict; assumption).
    rewrite (bind_Ok _ _ _ _ _ Hput).
    exists coord'. reflexivity. }
  destruct Hplace as (coord' & Hplace). exists coord'.
  unfold _map_coordinate.
  assert (Hsame : forall m : M Coordinate,
             m h = (Ok coord, h) ->
             (c <- m ;;
              (let cleaner :=
                 _get_cleaner (cart_clean_value cart (cache cart)) (clean_value c)
                   (cache cart) in
               value <- cleaner (cd_value (clean c)) (view c) ;;
               _place_dst_value classes custom cart (VRef t) (set_value c value))) h
             = (Ok coord', <[t := ODict "dict" (dict_set k v acc)]> h)).
  { intros m Hm. rewrite (bind_Ok _ _ _ _ _ Hm). cbv zeta. unfold _get_cleaner.
    change (clean_value coord) with (@None value_cleaner). rewrite Hvalue.
    rewrite (bind_Ok _ _ h h v) by reflexivity.
    exact Hplace. }
  apply Hsame.
  destruct v; try reflexivity.
  (* the value is [None]: it is fetched again from the origin *)
  change (is_None (cd_value (clean coord))) with true. cbv iota.
  assert (Hfetch : _fetch_org_value classes custom cart (VRef o) coord h
                   = (Ok (coord, VNone), h)).
  { unfold _fetch_org_value, _get_cleaner.
    change (clean_org coord) with (@None org_cleaner). rewrite Horg.
    rewrite (bind_Ok _ _ _ _ _
               (clean_courses_org_plain (cache cart) h _ 0 coord eq_refl)).
    change (combine (org_list (clean coord)) (default_list (clean coord)))
      with [([mkItem k], NO_DEFAULT)].
    cbn [fetch_all].
    rewrite (bind_Ok _ _ h h [VNone])
      by (rewrite (bind_Ok _ _ _ _ _ (Course_fetch_item_dict h o d k VNone Ho Hhash Hfind));
          reflexivity).
    reflexivity. }
  rewrite (bind_Ok _ _ _ _ _ Hfetch). reflexivity.
Qed.

Lemma map_survey_chart_flat (cart : Cartographer) (o t : nat) (d : list (val * val))
    (exceptions : bool) :
  cart_clean_org cart = Cartographer_clean_org ->
  cart_clean_dst cart = Cartographer_clean_dst ->
  cart_clean_value cart = Cartographer_clean_value ->
  o <> t ->
  distinct_keys d ->
  forall (rest done acc : list (val * val)) (h : heap),
    d = done ++ rest ->
    h !! o = Some (ODict "dict" d) ->
    h !! t = Some (ODict "dict" acc) ->
    Forall (fun kv => hashable classes h (fst kv) = true) d ->
    _map_survey_chart classes custom cart (VRef o) (VRef t) exceptions
      (map (fun kv => [mkItem (fst kv)]) done)
      (map (fun kv => ([mkItem (fst kv)], snd kv)) rest) [] h
    = (Ok ([], map (fun kv => [mkItem (fst kv)]) d),
       <[t := ODict "dict" (dict_update acc rest)]> h).
Proof.
  intros Horg Hdst Hvalue Hot Hdistinct.
  induction rest as [|[k v] rest IH]; intros done acc h Hd Ho Ht Hhash.
  { rewrite app_nil_r in Hd. subst done. cbn [map _map_survey_chart dict_update fold_left].
    rewrite (list_insert_id _ _ _ Ht). reflexivity. }
  assert (Hhere : d !! length done = Some (k, v))
    by (rewrite Hd; apply list_lookup_middle; reflexivity).
  assert (Hfresh : Forall (fun kv => py_eq (fst kv) k = false) done).
  { apply List.Forall_forall. intros kv Hin.
    apply list_elem_of_In, list_elem_of_lookup_1 in Hin as [i Hi].
    destruct (py_eq (fst kv) k) eqn:Heq; [|reflexivity].
    pose proof (lookup_lt_Some _ _ _ Hi) as Hlt.
    assert (i = length done); [|lia].
    apply (Hdistinct i (length done) kv (k, v)); [|exact Hhere|exact Heq].
    rewrite Hd. rewrite lookup_app_l by exact Hlt. exact Hi. }
  assert (Hk : hashable classes h k = true).
  { rewrite List.Forall_forall in Hhash. apply (Hhash (k, v)).
    apply list_elem_of_In. eapply list_elem_of_lookup_2. exact Hhere. }
  pose proof (distinct_keys_find d _ k v Hdistinct Hhere) as Hfind.
  pose proof (lookup_lt_Some _ _ _ Ht) as Hlt.
  cbn [map _map_survey_chart fst snd].
  rewrite (already_mapped_other_keys k done Hfresh).
  destruct (map_coordinate_item cart o t d acc k v h Horg Hdst Hvalue Ho Ht Hk Hfind)
    as (coord' & Hrun).
  change (set_value (with_clean (Coord [mkItem k]) (CleanData_init (Coord [mkItem k]))) v)
    with (set_value (reset (Coord [mkItem k])) v).
  rewrite Hrun.
  change [[mkItem k]] with (map (fun kv : val * val => [mkItem (fst kv)]) [(k, v)]).
  rewrite <- map_app.
  rewrite (IH (done ++ [(k, v)]) (dict_set k v acc)).
  - rewrite list_insert_insert_eq. reflexivity.
  - rewrite <- app_assoc. exact Hd.
  - rewrite list_lookup_insert_ne by (intros Heq; apply Hot; symmetry; exact Heq).
    exact Ho.
  - apply list_lookup_insert_eq. exact Hlt.
  - eapply List.Forall_impl; [|exact Hhash]. intros kv Hkv. cbv beta in *.
    rewrite (hashable_insert_container h t _ (ODict "dict" (dict_set k v acc)) Ht I I).
    exact Hkv.
Qed.

Lemma dict_find_Some_key (k : val) (d : list (val * val)) (v : val) :
  dict_find k d = Some v ->
  exists (i : nat) (e : val * val), d !! i = Some e /\ py_eq (fst e) k = true.
Proof.
  induction d as [|[k0 v0] d IH]; [discriminate|]. cbn [dict_find].
  destruct (py_eq k0 k) eqn:Heq.
  - intros _. exists 0, (k0, v0). split; [reflexivity|exact Heq].
  - intros Hfind. destruct (IH Hfind) as (i & e & Hi & He).
    exists (S i), e. split; [exact Hi|exact He].
Qed.

Lemma dict_update_distinct (d : list (val * val)) :
  forall acc : list (val * val),
    distinct_keys (acc ++ d) -> dict_update acc d = acc ++ d.
Proof.
  induction d as [|[k v] d IH]; intros acc Hdistinct.
  { rewrite app_nil_r. reflexivity. }
  unfold dict_update in *. cbn [fold_left fst snd].
  assert (Hfresh : dict_find k acc = None).
  { destruct (dict_find k acc) as [found|] eqn:Hfind; [|reflexivity].
    apply dict_find_Some_key in Hfind as (i & e & Hi & He).
    pose proof (lookup_lt_Some _ _ _ Hi) as Hlt.
    assert (i = length acc); [|lia].
    apply (Hdistinct i (length acc) e (k, v)).
    - rewrite lookup_app_l by exact Hlt. exact Hi.
    - apply list_lookup_middle. reflexivity.
    - exact He. }
  rewrite (dict_set_fresh _ _ _ Hfresh), IH, <- app_assoc; [reflexivity|].
  rewrite <- app_assoc. exact Hdistinct.
Qed.

(** X27: [map] with the default surveyor and no coordinates copies a
    flat dict.  When the origin is a plain dict whose values are end values
    and whose keys are hashable and distinct, and the destination is
    another plain dict, a cartographer that cleans nothing returns without
    an error after setting every item of the origin on the destination, in
    the order of the origin; nothing else on the heap changes.  On an empty
    destination the result has the items of the origin. *)
Theorem map_with_surveyor_copies_flat_dict (cart : Cartographer) (o t : nat)
    (d dd : list (val * val)) (exceptions : option bool) (h : heap) :
  cart_clean_org cart = Cartographer_clean_org ->
  cart_clean_dst cart = Cartographer_clean_dst ->
  cart_clean_value cart = Cartographer_clean_value ->
  0 < recursion_limit ->
  o <> t ->
  h !! o = Some (ODict "dict" d) ->
  h !! t = Some (ODict "dict" dd) ->
  Forall (fun kv => end_value (snd kv) = true /\ hashable classes h (fst kv) = true) d ->
  distinct_keys d ->
  Cartographer_map classes custom recursion_limit cart (VRef o) (VRef t) None
    (Some Surveyor_default) exceptions h
  = (Ok tt, <[t := ODict "dict" (dict_update dd d)]> h)
  /\ dict_update [] d = d.
Proof.
  intros Horg Hdst Hvalue Hlimit Hot Ho Ht Hflat Hdistinct.
  split; [|apply (dict_update_distinct d []); exact Hdistinct].
  assert (Hend : Forall (fun kv => end_value (snd kv) = true) d)
    by (eapply List.Forall_impl; [|exact Hflat]; intros kv [Hv _]; exact Hv).
  assert (Hhash : Forall (fun kv => hashable classes h (fst kv) = true) d)
    by (eapply List.Forall_impl; [|exact Hflat]; intros kv [_ Hk]; exact Hk).
  set (b := match exceptions with Some b => b | None => true end).
  pose proof (chart_flat_dict o "dict" d b h Hlimit Ho Hend) as Hchart.
  pose proof (map_survey_chart_flat cart o t d b Horg Hdst Hvalue Hot Hdistinct
                d [] dd h eq_refl Ho Ht Hhash) as Hsurvey.
  unfold Cartographer_map. fold b. cbn [map _map_coordinates].
  rewrite (bind_Ok _ _ h h ([], [])) by reflexivity.
  assert (Hcs : _chart_survey classes custom recursion_limit cart (VRef o) (VRef t)
                  Surveyor_default b [] h
                = (Ok ([], map (fun kv => [mkItem (fst kv)]) d),
                   <[t := ODict "dict" (dict_update dd d)]> h)).
  { unfold _chart_survey.
    rewrite (bind_Ok _ _ h h ([], map (fun kv => ([mkItem (fst kv)], snd kv)) d))
      by (unfold try_except; rewrite (bind_Ok _ _ _ _ _ Hchart); reflexivity).
    cbn [fst snd]. rewrite sort_reverse_len_chart_item.
    change (@nil Course) with (map (fun kv : val * val => [mkItem (fst kv)]) []).
    rewrite (bind_Ok _ _ _ _ _ Hsurvey). reflexivity. }
  rewrite (bind_Ok _ _ h (<[t := ODict "dict" (dict_update dd d)]> h) [])
    by (rewrite (bind_Ok _ _ _ _ _ Hcs); reflexivity).
  reflexivity.
Qed.


(** ** What [chart] raises *)

Lemma getattr_error (target : val) (attr : string) (h h' : heap) (e : exn) :
  py_getattr classes target attr h = (Raise e, h') -> e = AttributeError.
Proof.
  unfold py_getattr.
  destruct (assoc attr (c_methods (classes (type_name target h))));
    (destruct (instance_dict target h) as [attrs|];
     [destruct (assoc attr attrs)|]);
    intros [= <- _]; reflexivity.
Qed.

Lemma mapM_getattr_error (target : val) (names : list string) :
  forall (h h' : heap) (e : exn),
    mapM (fun attr => v <- py_getattr classes target attr ;; ret (mkAttr attr, v)) names h
    = (Raise e, h') ->
    e = AttributeError.
Proof.
  induction names as [|attr names IH]; intros h h' e; [discriminate|].
  cbn [mapM]. unfold bind at 1 2.
  destruct (py_getattr classes target attr h) as [[v|e1] h1] eqn:Hget.
  - unfold ret at 1. unfold bind.
    destruct (mapM _ names h1) as [[pairs|e2] h2] eqn:Hrest; [discriminate|].
    intros [= <- _]. eapply IH. exact Hrest.
  - intros [= <- _]. eapply getattr_error. exact Hget.
Qed.

Lemma bearings_iter_error (compass : Compass) (target : val) (h h' : heap) (e : exn) :
  _calls compass = @Nothing string ->
  is_navigable compass target h = true ->
  bearings_iter classes compass target h = (Raise e, h') ->
  e = AttributeError.
Proof.
  intros Hcalls Hnav. unfold bearings_iter. rewrite Hnav. cbn [negb].
  unfold bind at 1.
  destruct (attr_iter classes compass target h) as [[pa|e1] h1] eqn:Ha.
  - unfold call_iter. rewrite Hcalls. unfold bind, ret, item_iter. discriminate.
  - intros [= <- _]. unfold attr_iter in Ha. eapply mapM_getattr_error. exact Ha.
Qed.

Lemma chart_layer_errors (self : Surveyor) (exceptions : bool) :
  no_calls self ->
  forall (depth : nat) (target : val) (parent_course : Course) (h h' : heap)
         (r : result (list (Course * val + exn))),
    _chart_layer classes depth self target parent_course exceptions h = (r, h') ->
    (exceptions = false ->
     forall (e : exn) (t : val), r = Raise e -> e <> NonNavigableError t)
    /\ (exceptions = true ->
        forall results : list (Course * val + exn), r = Ok results -> rights results = []).
Proof.
  intros Hcalls. induction depth as [|depth IH]; intros target parent_course h h' r.
  { intros [= <- _]. split; intros _; [intros e t [= <-]|]; discriminate. }
  cbn [_chart_layer]. unfold _choose_compass.
  destruct (List.find _ (_compasses self)) as [compass|] eqn:Hfind.
  2:{ destruct exceptions; intros [= <- _]; split; intros Hexc; try discriminate Hexc.
      - discriminate.
      - discriminate. }
  apply find_some in Hfind as [Hin Hnav].
  assert (Hcompass : _calls compass = @Nothing string).
  { unfold no_calls in Hcalls. rewrite List.Forall_forall in Hcalls. exact (Hcalls _ Hin). }
  unfold bind at 1.
  destruct (bearings_iter classes compass target h) as [[pairs|e] h1] eqn:Hiter.
  2:{ intros [= <- _].
      rewrite (bearings_iter_error _ _ _ _ _ Hcompass Hnav Hiter).
      split; intros _; [intros e' t [= <-]|]; discriminate. }
  clear Hiter Hin Hnav Hcompass. revert h1 h' r.
  induction pairs as [|[b v] pairs IHpairs]; intros h1 h' r.
  { intros [= <- _]. split; intros _; [discriminate|]. intros results [= <-]. reflexivity. }
  unfold bind at 1.
  destruct ((if is_None v || existsb (fun t => py_isinstance v t h1) (_end_points self)
             then (Ok [], h1)
             else _chart_layer classes depth self v (parent_course ++ [b]) exceptions h1))
    as [[below|e] h2] eqn:Hbelow.
  2:{ intros [= <- _]. split; intros Hexc; [|discriminate].
      intros e' t [= <-].
      destruct (is_None v || existsb _ (_end_points self)); [discriminate|].
      destruct (IH _ _ _ _ _ Hbelow) as [Hnot _]. apply (Hnot Hexc e t eq_refl). }
  assert (Hrights : exceptions = true -> rights below = []).
  { intros Hexc. destruct (is_None v || existsb _ (_end_points self)).
    - injection Hbelow as <- _. reflexivity.
    - destruct (IH _ _ _ _ _ Hbelow) as [_ Hr]. apply (Hr Hexc). reflexivity. }
  unfold bind at 1.
  match goal with
  | |- context [match ?loop pairs h2 with _ => _ end] =>
      destruct (loop pairs h2) as [[more|e] h3] eqn:Hmore
  end.
  - unfold ret. intros [= <- _].
    destruct (IHpairs _ _ _ Hmore) as [_ Hr].
    split; intros Hexc; [discriminate|]. intros results [= <-].
    cbn [rights].
    assert (Happ : forall l1 l2 : list (Course * val + exn),
               rights (l1 ++ l2) = rights l1 ++ rights l2).
    { induction l1 as [|[x|y] l1 IHl]; intros l2; cbn [app rights]; rewrite ?IHl;
        reflexivity. }
    rewrite Happ, (Hrights Hexc), (Hr Hexc more eq_refl). reflexivity.
  - intros [= <- _]. destruct (IHpairs _ _ _ Hmore) as [Hnot _].
    split; intros Hexc; [|discriminate]. intros e' t [= <-]. apply (Hnot Hexc e t eq_refl).
Qed.

(** X28: what [chart] raises, for a surveyor without calls.  With
    [exceptions=True] it never raises [SuppressedErrors]; with
    [exceptions=False] it never raises [NonNavigableError].  When no
    compass of the surveyor can navigate the target itself, the first
    raises the [NonNavigableError] of the target and the second a
    [SuppressedErrors] with that error alone and an empty partial chart;
    the data is left as it was. *)
Theorem chart_error_discipline (self : Surveyor) (target : val) (h : heap) :
  no_calls self ->
  (forall (e : exn) (h' : heap),
      chart classes recursion_limit self target true h = (Raise e, h') -> plain_error e)
  /\ (forall (e : exn) (h' : heap) (t : val),
        chart classes recursion_limit self target false h = (Raise e, h') ->
        e <> NonNavigableError t)
  /\ (0 < recursion_limit ->
      (forall compass : Compass,
          In compass (_compasses self) -> is_navigable compass target h = false) ->
      chart classes recursion_limit self target true h
      = (Raise (NonNavigableError target), h)
      /\ chart classes recursion_limit self target false h
         = (Raise (SuppressedErrors [NonNavigableError target] []), h)).
Proof.
  intros Hcalls. split; [|split].
  - intros e h'. unfold chart, bind.
    destruct (_chart_layer classes recursion_limit self target [] true h)
      as [[results|e1] h1] eqn:Hlayer.
    + destruct (chart_layer_errors self true Hcalls _ _ _ _ _ _ Hlayer) as [_ Hr].
      rewrite (Hr eq_refl results eq_refl). discriminate.
    + intros [= <- _].
      destruct (chart_layer_sound self true h Hcalls recursion_limit target [])
        as (r & Hrun & Hplain & _).
      rewrite Hrun in Hlayer. injection Hlayer as -> _. apply Hplain. reflexivity.
  - intros e h' t. unfold chart, bind.
    destruct (_chart_layer classes recursion_limit self target [] false h)
      as [[results|e1] h1] eqn:Hlayer.
    + destruct (rights results); intros [= <- _]; discriminate.
    + intros [= <- _].
      destruct (chart_layer_errors self false Hcalls _ _ _ _ _ _ Hlayer) as [Hnot _].
      apply (Hnot eq_refl e1 t eq_refl).
  - intros Hlimit Hnone.
    assert (Hfind : List.find (fun compass => is_navigable compass target h)
                      (_compasses self) = None).
    { destruct (List.find _ (_compasses self)) as [compass|] eqn:Hsome; [|reflexivity].
      apply find_some in Hsome as [Hin Hnav]. rewrite (Hnone _ Hin) in Hnav.
      discriminate. }
    destruct recursion_limit as [|depth]; [lia|].
    unfold chart, bind. cbn [_chart_layer]. unfold _choose_compass. rewrite Hfind.
    split; reflexivity.
Qed.

(** ** [Call] *)


(** ** What the survey leaves alone *)

(** X30: the survey of [map] skips what is mapped already.  A charted
    course counts as mapped when a mapped course is [==] to a run of its
    bearings or it is [==] to a run of the bearings of a mapped course; so a
    course mapped by a coordinate, each course below it and each course
    above it are skipped.  A chart all of whose courses count as mapped
    maps nothing: no fetch, no place, no error, and the list of mapped
    courses is as before. *)
Theorem survey_skips_mapped_courses (cart : Cartographer) (origin_root dst_root : val)
    (exceptions : bool) (mapped_courses : list Course) :
  (forall course mapped before after : Course,
      In mapped mapped_courses ->
      mapped = before ++ course ++ after \/ course = before ++ mapped ++ after ->
      already_mapped course mapped_courses = true)
  /\ (forall (course_chart : list (Course * val)) (error_list : list exn) (h : heap),
        Forall (fun cv => already_mapped (fst cv) mapped_courses = true) course_chart ->
        _map_survey_chart classes custom cart origin_root dst_root exceptions
          mapped_courses course_chart error_list h
        = (Ok (error_list, mapped_courses), h)).
Proof.
  split.
  - intros course mapped before after Hin Hrun. unfold already_mapped.
    apply orb_true_iff. destruct Hrun as [-> | ->]; [left|right];
      apply existsb_exists; eexists; (split; [exact Hin|]);
      apply Course_contains_piece; unfold Course_eq; apply tuple_eq_refl.
  - intros course_chart error_list h Hall.
    induction Hall as [|[course v] course_chart Hskip _ IH]; [reflexivity|].
    cbn [_map_survey_chart]. cbn [fst] in Hskip. rewrite Hskip. exact IH.
Qed.

(** ** [Cartographer.map] in suppressed mode *)

Lemma then_tt_Ok {A} (m : M A) (h h' : heap) :
  (m ;;; ret tt) h = (Ok tt, h') -> exists a : A, m h = (Ok a, h').
Proof.
  unfold bind, ret. destruct (m h) as [[a|e] h1]; [|discriminate].
  intros [= <-]. exists a. reflexivity.
Qed.

Lemma then_tt_Raise {A} (m : M A) (h h' : heap) (e : exn) :
  (m ;;; ret tt) h = (Raise e, h') -> m h = (Raise e, h').
Proof.
  unfold bind, ret. destruct (m h) as [[a|e0] h1]; [discriminate|].
  intros [= <- <-]. reflexivity.
Qed.

Lemma bind_Ok_inv {A B} (m : M A) (k : A -> M B) (h h' : heap) (b : B) :
  bind m k h = (Ok b, h') ->
  exists (a : A) (h1 : heap), m h = (Ok a, h1) /\ k a h1 = (Ok b, h').
Proof.
  unfold bind. destruct (m h) as [[a|e] h1]; [|discriminate].
  intros Hk. exists a, h1. split; [reflexivity|exact Hk].
Qed.

Lemma clean_courses_dst_origins
    (cleaner : option Course -> CoordView -> M (option Course)) :
  forall (todo : list (option Course)) (i : nat) (coord coord' : Coordinate) (h h' : heap),
    _clean_courses_dst cleaner todo i coord h = (Ok coord', h') ->
    org_list (clean coord') = org_list (clean coord).
Proof.
  induction todo as [|entry todo IH]; intros i coord coord' h h' Hrun.
  - cbn in Hrun. injection Hrun as Hc _. rewrite <- Hc. reflexivity.
  - cbn [_clean_courses_dst] in Hrun.
    apply bind_Ok_inv in Hrun as (cleaned & h1 & _ & Hrun).
    apply IH in Hrun. exact Hrun.
Qed.

Lemma place_dst_value_origins (cart : Cartographer) (dst_root : val)
    (coord coord' : Coordinate) (h h' : heap) :
  _place_dst_value classes custom cart dst_root coord h = (Ok coord', h') ->
  org_list (clean coord') = org_list (clean coord).
Proof.
  unfold _place_dst_value. intros Hrun.
  apply bind_Ok_inv in Hrun as (coord1 & h1 & Hclean & Hrun).
  apply bind_Ok_inv in Hrun as (values & h2 & _ & Hrun).
  apply bind_Ok_inv in Hrun as (u & h3 & _ & Hrun).
  unfold ret in Hrun. injection Hrun as Hc _. rewrite <- Hc.
  exact (clean_courses_dst_origins _ _ _ _ _ _ _ Hclean).
Qed.

Lemma map_coordinate_plain_origins (cart : Cartographer) (coord coord' : Coordinate)
    (origin_root dst_root : val) (h h' : heap) :
  no_cleaners cart coord ->
  _map_coordinate classes custom cart origin_root dst_root (reset coord) h
  = (Ok coord', h') ->
  org_list (clean coord') = org_list (CleanData_init coord).
Proof.
  intros Hplain Hrun.
  unfold _map_coordinate in Hrun.
  change (is_None (cd_value (clean (reset coord)))) with true in Hrun. cbv iota in Hrun.
  apply bind_Ok_inv in Hrun as (coord1 & h1 & Hfirst & Hrun).
  apply bind_Ok_inv in Hfirst as ([coord0 value] & h0 & Hfetch & Hret).
  rewrite (fetch_org_value_plain cart coord origin_root h Hplain) in Hfetch.
  apply bind_Ok_inv in Hfetch as (vs & ha & _ & Hfetch).
  apply bind_Ok_inv in Hfetch as (value' & hb & _ & Hfetch).
  unfold ret in Hfetch, Hret. injection Hfetch as Hc _ _. injection Hret as Hc1 _.
  subst coord0 coord1.
  apply bind_Ok_inv in Hrun as (v & h2 & _ & Hrun).
  apply place_dst_value_origins in Hrun. rewrite Hrun. reflexivity.
Qed.

(** A coordinate with one origin and at most one destination, mapped by
    a cartographer that cleans nothing: fetch along the origin, place along
    the placing course. *)
Lemma map_coordinate_single (cart : Cartographer) (coord : Coordinate)
    (origin destination : Course) (origin_root dst_root : val) (h : heap) :
  no_cleaners cart coord ->
  org coord = One origin ->
  (forall items : list val, default coord <> VTuple items) ->
  placing_course coord origin = Some destination ->
  (_map_coordinate classes custom cart origin_root dst_root (reset coord) ;;; ret tt) h
  = (v <- Course_fetch classes custom origin origin_root (default coord) ;;
     Course_place classes custom destination dst_root v) h.
Proof.
  intros Hplain Horg Hdefault Hdst.
  assert (Hlist : combine (org_list (CleanData_init coord))
                          (default_list (CleanData_init coord))
                  = [(origin, default coord)]).
  { unfold CleanData_init. cbn [org_list default_list]. rewrite Horg.
    destruct (is_sentinel "NO_DEFAULT" (default coord)) eqn:Hs.
    - apply is_sentinel_eq in Hs. rewrite Hs. reflexivity.
    - destruct (default coord); try reflexivity. exfalso. eapply Hdefault. reflexivity. }
  assert (Hone : org_list (CleanData_init coord) = [origin])
    by (unfold CleanData_init; cbn [org_list]; rewrite Horg; reflexivity).
  assert (Hentry : exists entry : option Course,
             dst_list (CleanData_init coord) = [entry]
             /\ cleaned_dst origin entry = Some destination).
  { unfold placing_course in Hdst. unfold CleanData_init. cbn [dst_list org_list].
    rewrite Horg. destruct (dst coord) as [[d|ds]|]; [| discriminate |].
    - injection Hdst as <-. exists (Some d). split; reflexivity.
    - injection Hdst as <-. exists None. split; reflexivity. }
  destruct Hentry as (entry & Hentry & Hcleaned).
  rewrite (map_coordinate_plain cart coord origin_root dst_root origin h Hplain)
    by (rewrite Hone; reflexivity).
  rewrite Hlist, Hentry, Hone. cbn [length Nat.leb map].
  cbn [fetch_all]. unfold bind.
  destruct (Course_fetch classes custom origin origin_root (default coord) h)
    as [[v|e] h1]; [|reflexivity].
  unfold ret. cbv beta iota. cbn [combine]. rewrite Hcleaned.
  apply place_all_one.
Qed.

Lemma Fallback_place_dict (h : heap) (t : nat) (items : list (val * val)) (k v : val) :
  h !! t = Some (ODict "dict" items) ->
  hashable classes h k = true ->
  place classes custom (mkFallback k) (VRef t) v false h
  = (Ok tt, <[t := ODict "dict" (dict_set k v items)]> h).
Proof.
  intros Ht Hhash.
  unfold place, place_with, mkFallback. cbn [b_type].
  unfold Fallback_place. cbn [BEARING_CLASSES]. unfold _BEARING_CLASSES.
  cbn [Fallback_place_loop cast new_bearing name].
  unfold try_except, place_cast, place_with. cbn [b_type].
  unfold Item_place, try_except, py_setitem, setitem_override. cbn [name].
  rewrite Ht. cbn [builtin_type String.eqb Ascii.eqb Bool.eqb orb].
  rewrite Hhash. reflexivity.
Qed.

Lemma Course_place_at_end (parents : Course) (last_bearing : Bearing)
    (target reached value : val) (h h1 : heap) :
  Forall (fun b => factory_type b = None) parents ->
  Course_fetch classes custom parents target NO_DEFAULT h = (Ok reached, h1) ->
  Course_place classes custom (parents ++ [last_bearing]) target value h
  = place classes custom last_bearing reached value false h1.
Proof.
  intros Hno Hreach. unfold Course_place, parent, end_point.
  rewrite List.removelast_last, last_snoc.
  rewrite (bind_Ok _ _ h h1 reached); [reflexivity|].
  rewrite (Course_place_walk_no_factory _ Hno). exact Hreach.
Qed.

Lemma failures_applied (turns : list turn) :
  length (failures turns) + length (List.filter is_applied turns) = length turns.
Proof.
  induction turns as [|[|error] turns IH]; cbn [failures List.filter is_applied length];
    lia.
Qed.

Lemma mapped_in_turn_length (run : Coordinate -> M Coordinate)
    (coords : list Coordinate) (h : heap) (turns : list turn) (h' : heap) :
  mapped_in_turn run coords h turns h' -> length turns = length coords.
Proof. induction 1; cbn [length]; congruence. Qed.

Lemma map_coordinates_in_turn (cart : Cartographer) (origin_root dst_root : val)
    (coords : list Coordinate) (h : heap) (turns : list turn) (h' : heap) :
  mapped_in_turn
    (fun c => _map_coordinate classes custom cart origin_root dst_root (reset c))
    coords h turns h' ->
  forall (mapped : list Course) (errors : list exn),
  exists mapped' : list Course,
    _map_coordinates classes custom cart origin_root dst_root (map reset coords) false
      mapped errors h
    = (Ok (mapped', errors ++ failures turns), h').
Proof.
  induction 1 as [h|coord coord' first others rest h h1 turns h' Hrun Horg _ IH
                  |coord origin rest h h1 turns h' Hrun _ IH];
    intros mapped errors.
  - exists mapped. cbn [map _map_coordinates failures]. rewrite app_nil_r. reflexivity.
  - cbn [map _map_coordinates failures]. rewrite Hrun, Horg. apply IH.
  - cbn [map _map_coordinates failures]. rewrite Hrun.
    destruct (IH mapped (errors ++ [NullNameError origin])) as [mapped' Hrest].
    exists mapped'. rewrite Hrest, <- app_assoc. reflexivity.
Qed.

(** C5: [map] in suppressed mode ([exceptions=False]) with five
    coordinates of which three fail with a [NullNameError] raises one
    [SuppressedErrors] whose list holds exactly those three errors, in the
    order of the coordinates, and the two other coordinates are applied:
    the data are as the five turns leave them.  The coordinates are any
    coordinates (one or many origins and destinations, defaults, cleaning
    functions), and so for any number of coordinates and of failures; when
    none fails [map] returns.  What a turn is, for a coordinate with one
    origin that nothing cleans: when [Course.fetch] along the origin, with
    the default of the coordinate, raises, the coordinate ends in that
    exception and nothing is placed; when it returns a value, the
    coordinate is applied exactly when [Course.place] of that value along
    the destination (or, without one, along the [Fallback] bearings of the
    names of the origin) returns.  And what applied means on the data: when
    the destination ends in a [Fallback] with a hashable name and the
    course before it leads to a plain dict, that dict then holds the value
    under that name. *)
Theorem C5_map_suppressed_three_of_five
    (cart : Cartographer) (origin_root dst_root : val) :
  let run := fun coord : Coordinate =>
               _map_coordinate classes custom cart origin_root dst_root (reset coord) in
  let map_suppressed := fun coords : list Coordinate =>
               Cartographer_map classes custom recursion_limit cart origin_root dst_root
                 (Some coords) None (Some false) in
  (forall (coords : list Coordinate) (turns : list turn) (h h' : heap),
      mapped_in_turn run coords h turns h' ->
      length coords = 5 ->
      length (failures turns) = 3 ->
      map_suppressed coords h = (Raise (SuppressedErrors (failures turns) []), h')
      /\ length (List.filter is_applied turns) = 2)
  /\ (forall (coords : list Coordinate) (turns : list turn) (h h' : heap),
        mapped_in_turn run coords h turns h' ->
        length turns = length coords
        /\ map_suppressed coords h
           = (match failures turns with
              | [] => Ok tt
              | _ :: _ => Raise (SuppressedErrors (failures turns) [])
              end, h'))
  /\ (forall (coord : Coordinate) (origin destination : Course) (h : heap),
        no_cleaners cart coord ->
        org coord = One origin ->
        (forall items : list val, default coord <> VTuple items) ->
        placing_course coord origin = Some destination ->
        (forall (e : exn) (h1 : heap),
            Course_fetch classes custom origin origin_root (default coord) h
            = (Raise e, h1) ->
            run coord h = (Raise e, h1))
        /\ (forall (v : val) (h1 h2 : heap),
              Course_fetch classes custom origin origin_root (default coord) h
              = (Ok v, h1) ->
              Course_place classes custom destination dst_root v h1 = (Ok tt, h2) ->
              exists coord' : Coordinate,
                run coord h = (Ok coord', h2) /\ org_list (clean coord') = [origin])
        /\ (forall (v : val) (h1 h2 : heap) (e : exn),
              Course_fetch classes custom origin origin_root (default coord) h
              = (Ok v, h1) ->
              Course_place classes custom destination dst_root v h1 = (Raise e, h2) ->
              run coord h = (Raise e, h2)))
  /\ (forall (coord : Coordinate) (origin parents : Course) (k v : val)
             (t : nat) (items : list (val * val)) (h : heap),
        no_cleaners cart coord ->
        org coord = One origin ->
        (forall items0 : list val, default coord <> VTuple items0) ->
        placing_course coord origin = Some (parents ++ [mkFallback k]) ->
        Forall (fun b => factory_type b = None) parents ->
        Course_fetch classes custom origin origin_root (default coord) h = (Ok v, h) ->
        Course_fetch classes custom parents dst_root NO_DEFAULT h = (Ok (VRef t), h) ->
        h !! t = Some (ODict "dict" items) ->
        hashable classes h k = true ->
        (exists coord' : Coordinate,
            run coord h = (Ok coord', <[t := ODict "dict" (dict_set k v items)]> h)
            /\ org_list (clean coord') = [origin])
        /\ dict_find k (dict_set k v items) = Some v).
Proof.
  cbv zeta.
  assert (Hany : forall (coords : list Coordinate) (turns : list turn) (h h' : heap),
             mapped_in_turn
               (fun coord =>
                  _map_coordinate classes custom cart origin_root dst_root (reset coord))
               coords h turns h' ->
             Cartographer_map classes custom recursion_limit cart origin_root dst_root
               (Some coords) None (Some false) h
             = (match failures turns with
                | [] => Ok tt
                | _ :: _ => Raise (SuppressedErrors (failures turns) [])
                end, h')).
  { intros coords turns h h' Hturns.
    destruct (map_coordinates_in_turn cart origin_root dst_root coords h turns h'
                Hturns [] []) as [mapped Hloop].
    unfold Cartographer_map.
    change (map (fun coord => with_clean coord (CleanData_init coord)) coords)
      with (map reset coords).
    rewrite (bind_Ok _ _ _ _ _ Hloop). cbn [app].
    rewrite (bind_Ok _ _ h' h' (failures turns)) by reflexivity.
    destruct (failures turns); reflexivity. }
  assert (Hturn : forall (coord : Coordinate) (origin destination : Course) (h : heap),
             no_cleaners cart coord ->
             org coord = One origin ->
             (forall items : list val, default coord <> VTuple items) ->
             placing_course coord origin = Some destination ->
             (forall (e : exn) (h1 : heap),
                 Course_fetch classes custom origin origin_root (default coord) h
                 = (Raise e, h1) ->
                 _map_coordinate classes custom cart origin_root dst_root (reset coord) h
                 = (Raise e, h1))
             /\ (forall (v : val) (h1 h2 : heap),
                   Course_fetch classes custom origin origin_root (default coord) h
                   = (Ok v, h1) ->
                   Course_place classes custom destination dst_root v h1 = (Ok tt, h2) ->
                   exists coord' : Coordinate,
                     _map_coordinate classes custom cart origin_root dst_root
                       (reset coord) h = (Ok coord', h2)
                     /\ org_list (clean coord') = [origin])
             /\ (forall (v : val) (h1 h2 : heap) (e : exn),
                   Course_fetch classes custom origin origin_root (default coord) h
                   = (Ok v, h1) ->
                   Course_place classes custom destination dst_root v h1 = (Raise e, h2) ->
                   _map_coordinate classes custom cart origin_root dst_root
                     (reset coord) h = (Raise e, h2))).
  { intros coord origin destination h Hplain Horg Hdefault Hdst.
    pose proof (map_coordinate_single cart coord origin destination origin_root dst_root h
                  Hplain Horg Hdefault Hdst) as Hmap.
    split; [|split].
    - intros e h1 Hfetch. apply then_tt_Raise.
      rewrite Hmap. apply bind_Raise. exact Hfetch.
    - intros v h1 h2 Hfetch Hplace.
      rewrite (bind_Ok _ _ _ _ _ Hfetch), Hplace in Hmap.
      apply then_tt_Ok in Hmap as [coord' Hrun].
      exists coord'. split; [exact Hrun|].
      rewrite (map_coordinate_plain_origins cart coord coord' origin_root dst_root h h2
                 Hplain Hrun).
      unfold CleanData_init. cbn [org_list]. rewrite Horg. reflexivity.
    - intros v h1 h2 e Hfetch Hplace. apply then_tt_Raise.
      rewrite Hmap, (bind_Ok _ _ _ _ _ Hfetch). exact Hplace. }
  split; [|split; [|split]].
  - intros coords turns h h' Hturns Hfive Hthree.
    pose proof (mapped_in_turn_length _ _ _ _ _ Hturns) as Hlen.
    pose proof (failures_applied turns) as Hcount.
    split; [|lia].
    rewrite (Hany coords turns h h' Hturns).
    destruct (failures turns); [discriminate|reflexivity].
  - intros coords turns h h' Hturns. split.
    + exact (mapped_in_turn_length _ _ _ _ _ Hturns).
    + exact (Hany coords turns h h' Hturns).
  - exact Hturn.
  - intros coord origin parents k v t items h Hplain Horg Hdefault Hdst Hno Hfetch
           Hreach Ht Hhash.
    split; [|apply dict_find_set_same].
    destruct (Hturn coord origin (parents ++ [mkFallback k]) h Hplain Horg Hdefault Hdst)
      as [_ [Happlied _]].
    apply (Happlied v h _ Hfetch).
    rewrite (Course_place_at_end parents (mkFallback k) dst_root (VRef t) v h h Hno Hreach).
    apply Fallback_place_dict; assumption.
Qed.

End MoreProperties.

(** * Further closed instances *)

(** The dict [{"a": 1}] takes the key ["b"]. *)
Lemma Item_place_then_fetch_dict_witness :
  exists items' : list (val * val),
    Item_place test_classes (mkItem (VStr "b")) (VRef 0) (VInt 2)
      [ODict "dict" [(VStr "a", VInt 1)]]
    = (Ok tt, [ODict "dict" items'])
    /\ Item_fetch test_classes (mkItem (VStr "b")) (VRef 0) [ODict "dict" items']
       = (Ok (VInt 2), [ODict "dict" items']).
Proof.
  destruct (Item_place_then_fetch_dict test_classes
              [ODict "dict" [(VStr "a", VInt 1)]] 0 [(VStr "a", VInt 1)]
              (mkItem (VStr "b")) (VInt 2) eq_refl eq_refl)
    as [items' [Hplace [Hfetch _]]].
  exists items'. split; [exact Hplace|exact Hfetch].
Defined.

(** Positions [-1] and [-3] of the list [[0, 1]]. *)
Lemma Item_place_list_by_position_witness :
  (exists items' : list val,
      Item_place test_classes (mkItem (VInt (-1))) (VRef 0) (VStr "x")
        [OList "list" [VInt 0; VInt 1]]
      = (Ok tt, [OList "list" items'])
      /\ length items' = 2)
  /\ Item_place test_classes (mkItem (VInt (-3))) (VRef 0) (VStr "x")
       [OList "list" [VInt 0; VInt 1]]
     = (Raise IndexError, [OList "list" [VInt 0; VInt 1]]).
Proof.
  split.
  - destruct (Item_place_list_by_position test_classes
                [OList "list" [VInt 0; VInt 1]] 0 [VInt 0; VInt 1]
                (mkItem (VInt (-1))) (VStr "x") (-1) eq_refl eq_refl) as [Hin _].
    destruct (Hin ltac:(cbn; lia)) as [items' [Hplace [_ Hlen]]].
    exists items'. split; [exact Hplace|]. apply Hlen. cbn. lia.
  - destruct (Item_place_list_by_position test_classes
                [OList "list" [VInt 0; VInt 1]] 0 [VInt 0; VInt 1]
                (mkItem (VInt (-3))) (VStr "x") (-3) eq_refl eq_refl) as [_ Hbelow].
    apply Hbelow. cbn. lia.
Defined.

(** Position 5 of a list of one item, [None] as a target, and on a dict
    the key ["c"] that it lacks and a [TestData] instance, which is
    unhashable, as a name. *)
Lemma Item_fetch_error_kinds_witness :
  Item_fetch test_classes (mkItem (VInt 5)) (VRef 0) [OList "list" [VInt 0]]
  = (Raise (NullNameError (mkItem (VInt 5))), [OList "list" [VInt 0]])
  /\ Item_fetch test_classes (mkItem (VInt 5)) VNone [] = (Raise TypeError, [])
  /\ Item_fetch test_classes (mkItem (VStr "c")) (VRef 0)
       [ODict "dict" [(VStr "a", VStr "a value")]]
     = (Raise (NullNameError (mkItem (VStr "c"))),
        [ODict "dict" [(VStr "a", VStr "a value")]])
  /\ Item_fetch test_classes (mkItem (VRef 1)) (VRef 0)
       [ODict "dict" [(VStr "a", VStr "a value")]; OInst "TestData" []]
     = (Raise TypeError,
        [ODict "dict" [(VStr "a", VStr "a value")]; OInst "TestData" []]).
Proof.
  split; [|split; [|split]].
  - destruct (Item_fetch_error_kinds test_classes (mkItem (VInt 5)))
      as [_ [Hlist _]].
    apply (Hlist [OList "list" [VInt 0]] 0 [VInt 0] 5%Z); [reflexivity|reflexivity|].
    cbn. lia.
  - destruct (Item_fetch_error_kinds test_classes (mkItem (VInt 5)))
      as [_ [_ [_ [_ [_ Hscalar]]]]].
    apply Hscalar. left. reflexivity.
  - destruct (Item_fetch_error_kinds test_classes (mkItem (VStr "c")))
      as [_ [_ [_ [Habsent _]]]].
    exact (Habsent [ODict "dict" [(VStr "a", VStr "a value")]] 0
             [(VStr "a", VStr "a value")] eq_refl eq_refl eq_refl).
  - destruct (Item_fetch_error_kinds test_classes (mkItem (VRef 1)))
      as [_ [_ [_ [_ [Hunhashable _]]]]].
    exact (Hunhashable [ODict "dict" [(VStr "a", VStr "a value")]; OInst "TestData" []] 0
             [(VStr "a", VStr "a value")] eq_refl eq_refl).
Defined.


(** [Call("m")] has no arguments: the value becomes the only one.  In
    [Call("m", func_kwargs={"x": VALUE_ARG, "y": 2})] the keyword [x] takes
    the value and the keyword [y] keeps its own. *)
Lemma replace_args_substitutes_or_prepends_witness :
  (fst (_replace_args (mkCall "m") (VInt 1)) = [VInt 1]
   /\ snd (_replace_args (mkCall "m") (VInt 1)) = [])
  /\ snd (_replace_args
            (mkBearing Call (VStr "m") None []
               [("x", VSentinel "VALUE_ARG"); ("y", VInt 2)] [])
            (VInt 1)) !! 0
     = Some ("x", VInt 1)
  /\ snd (_replace_args
            (mkBearing Call (VStr "m") None []
               [("x", VSentinel "VALUE_ARG"); ("y", VInt 2)] [])
            (VInt 1)) !! 1
     = Some ("y", VInt 2).
Proof.
  split; [|split].
  - pose proof (replace_args_substitutes_or_prepends (mkCall "m") (VInt 1)) as H.
    cbv zeta in H. destruct H as [_ [_ [Hprepend _]]].
    apply Hprepend. reflexivity.
  - pose proof (replace_args_substitutes_or_prepends
                  (mkBearing Call (VStr "m") None []
                     [("x", VSentinel "VALUE_ARG"); ("y", VInt 2)] [])
                  (VInt 1)) as H.
    cbv zeta in H. destruct H as [_ [Hkeyword _]].
    exact (Hkeyword 0 "x" (VSentinel "VALUE_ARG") eq_refl).
  - pose proof (replace_args_substitutes_or_prepends
                  (mkBearing Call (VStr "m") None []
                     [("x", VSentinel "VALUE_ARG"); ("y", VInt 2)] [])
                  (VInt 1)) as H.
    cbv zeta in H. destruct H as [_ [Hkeyword _]].
    exact (Hkeyword 1 "y" (VInt 2) eq_refl).
Defined.

(** [Fallback("c")] on a dict without the key ["c"]. *)
Lemma Fallback_raises_own_NullNameError_witness :
  NullNameError (mkFallback (VStr "c")) = NullNameError (mkFallback (VStr "c"))
  \/ swallowed (NullNameError (mkFallback (VStr "c"))) = false.
Proof.
  destruct (Fallback_raises_own_NullNameError test_classes test_custom
              (mkFallback (VStr "c")) (VRef 0) VNone
              [ODict "dict" [(VStr "a", VStr "a value")]]
              [ODict "dict" [(VStr "a", VStr "a value")]]
              (NullNameError (mkFallback (VStr "c"))))
    as [Hfetch _].
  - repeat constructor.
  - apply Hfetch. reflexivity.
Defined.

(** [Fallback("a")] on the dict [{"a": 1}]. *)
Lemma Fallback_on_dict_is_Item_witness :
  Fallback_place test_classes test_custom (mkFallback (VStr "a")) (VRef 0) (VInt 2)
    [ODict "dict" [(VStr "a", VInt 1)]]
  = (Ok tt, [ODict "dict" [(VStr "a", VInt 2)]])
  /\ Fallback_fetch test_classes test_custom (mkFallback (VStr "a")) (VRef 0)
       [ODict "dict" [(VStr "a", VInt 1)]]
     = (Ok (VInt 1), [ODict "dict" [(VStr "a", VInt 1)]]).
Proof.
  destruct (Fallback_on_dict_is_Item test_classes test_custom
              [ODict "dict" [(VStr "a", VInt 1)]] 0 [(VStr "a", VInt 1)]
              (mkFallback (VStr "a")) [Call; Attr] (VInt 2) eq_refl eq_refl eq_refl)
    as [Hplace [Hfetch _]].
  split; [exact Hplace|]. apply Hfetch. reflexivity.
Defined.

(** [Item("a")] is equal to itself and different from [Item("b")]; it is
    equal to [Fallback("a")], which is equal to [Attr("a")], and it is
    different from [Attr("a")]. *)
Lemma Bearing_eq_reflexive_symmetric_not_transitive_witness :
  Bearing_eq (mkItem (VStr "a")) (OBearing (mkItem (VStr "a"))) = Ok true
  /\ Bearing_eq (mkItem (VStr "a")) (OBearing (mkItem (VStr "b"))) = Ok false
  /\ Bearing_eq (mkItem (VStr "a")) (OBearing (mkFallback (VStr "a"))) = Ok true
  /\ Bearing_eq (mkFallback (VStr "a")) (OBearing (mkAttr "a")) = Ok true
  /\ Bearing_eq (mkItem (VStr "a")) (OBearing (mkAttr "a")) = Ok false.
Proof.
  destruct Bearing_eq_reflexive_symmetric_not_transitive
    as [Hsame [Hdiffer [_ Hthree]]].
  split; [|split].
  - apply Hsame. reflexivity.
  - apply Hdiffer. reflexivity.
  - apply (Hthree (VStr "a")). reflexivity.
Defined.

(** The course [[a] / @b]. *)
Lemma Course_rebuilt_from_its_bearings_witness :
  Course_truediv test_custom (parent [mkItem (VStr "a"); mkAttr "b"])
    (CI_Bearing (mkAttr "b"))
  = Ok [mkItem (VStr "a"); mkAttr "b"].
Proof.
  destruct (Course_rebuilt_from_its_bearings test_custom [mkItem (VStr "a"); mkAttr "b"])
    as [_ [_ [_ Hend]]].
  destruct (Hend (mkAttr "b") eq_refl) as [Hdiv _]. exact Hdiv.
Defined.

(** A missing key with the default [0]. *)
Lemma Course_fetch_with_default_no_NullNameError_witness :
  Course_fetch test_classes test_custom [mkItem (VStr "x")] (VRef 0) (VInt 0)
    [ODict "dict" []]
  <> (Raise (NullNameError (mkItem (VStr "x"))), [ODict "dict" []]).
Proof.
  apply (Course_fetch_with_default_no_NullNameError test_classes test_custom).
  reflexivity.
Defined.

(** The course [[a] / [b]] on the nested dicts [{"a": {"b": 1}}]. *)
Lemma Course_place_fetches_parent_then_places_witness :
  Course_place test_classes test_custom [mkItem (VStr "a"); mkItem (VStr "b")]
    (VRef 0) (VInt 2)
    [ODict "dict" [(VStr "a", VRef 1)]; ODict "dict" [(VStr "b", VInt 1)]]
  = (Ok tt, [ODict "dict" [(VStr "a", VRef 1)]; ODict "dict" [(VStr "b", VInt 2)]]).
Proof.
  destruct (Course_place_fetches_parent_then_places test_classes test_custom
              [mkItem (VStr "a"); mkItem (VStr "b")] (VRef 0) (VInt 2)
              [ODict "dict" [(VStr "a", VRef 1)]; ODict "dict" [(VStr "b", VInt 1)]])
    as [Hplace _].
  - repeat constructor.
  - rewrite Hplace. reflexivity.
Defined.

(** [Item("a", factory=dict) / [b]] on the empty dict. *)
Lemma Course_place_factory_creates_dict_witness :
  Course_place test_classes test_custom
    [mkBearing Item (VStr "a") (Some "dict") [] [] []; mkItem (VStr "b")]
    (VRef 0) (VInt 1) [ODict "dict" []]
  = (Ok tt, [ODict "dict" [(VStr "a", VRef 1)]; ODict "dict" [(VStr "b", VInt 1)]]).
Proof.
  destruct (Course_place_factory_creates_dict test_classes test_custom
              [ODict "dict" []] 0 []
              (mkBearing Item (VStr "a") (Some "dict") [] [] []) (mkItem (VStr "b"))
              (VInt 1) eq_refl eq_refl eq_refl eq_refl eq_refl eq_refl eq_refl)
    as [Hplace _].
  exact Hplace.
Defined.

(** [[b]] in [[a] / [b] / [c]]. *)
Lemma Course_contains_iff_piece_witness :
  Course_contains [mkItem (VStr "a"); mkItem (VStr "b"); mkItem (VStr "c")]
    [mkItem (VStr "b")] = true.
Proof.
  apply (proj2 (Course_contains_iff_piece
                  [mkItem (VStr "a"); mkItem (VStr "b"); mkItem (VStr "c")]
                  [mkItem (VStr "b")])).
  exists [mkItem (VStr "a")], [mkItem (VStr "b")], [mkItem (VStr "c")].
  split; reflexivity.
Defined.

(** [[a] / [b]] ends with [[b]]. *)
Lemma starts_with_ends_with_pieces_witness :
  ends_with ([mkItem (VStr "a")] ++ [mkItem (VStr "b")]) (ACourse [mkItem (VStr "b")])
  = Ok true.
Proof.
  apply (proj1 (proj2 (starts_with_ends_with_pieces
                         [mkItem (VStr "a")] [mkItem (VStr "b")]))).
  discriminate.
Defined.

(** The last bearing of [[a] / [b] / [c]] replaced by [[x]]. *)
Lemma Course_replace_at_index_witness :
  Course_replace test_custom
    [mkItem (VStr "a"); mkItem (VStr "b"); mkItem (VStr "c")] (At (-1))
    (CI_Bearing (mkItem (VStr "x")))
  = Ok [mkItem (VStr "a"); mkItem (VStr "b"); mkItem (VStr "x")].
Proof.
  pose proof (Course_replace_at_index test_custom
                [mkItem (VStr "a"); mkItem (VStr "b"); mkItem (VStr "c")] (-1)) as H.
  cbv zeta in H. destruct H as [Hin _].
  destruct (Hin ltac:(cbn; lia)) as [Hbearing _].
  exact (Hbearing (mkItem (VStr "x"))).
Defined.

(** The middle bearing of [[a] / [b] / [c]] replaced by [[x] / [y]]. *)
Lemma Course_replace_slice_witness :
  Course_replace test_custom
    [mkItem (VStr "a"); mkItem (VStr "b"); mkItem (VStr "c")]
    (Slice (Some 1%Z) (Some 2%Z))
    (CI_Course [mkItem (VStr "x"); mkItem (VStr "y")])
  = Ok [mkItem (VStr "a"); mkItem (VStr "x"); mkItem (VStr "y"); mkItem (VStr "c")].
Proof.
  destruct (Course_replace_slice test_custom
              [mkItem (VStr "a"); mkItem (VStr "b"); mkItem (VStr "c")]
              [mkItem (VStr "x"); mkItem (VStr "y")]) as [Hslice _].
  apply (Hslice 1 2); cbn; lia.
Defined.

(** The four shorthands of the name ["a"]. *)
Lemma bearing_shorthand_witness :
  bearing test_custom (VStr "[a]") None None = Ok (mkItem (VStr "a"))
  /\ bearing test_custom (VStr "@a") None None = Ok (mkAttr "a")
  /\ bearing test_custom (VStr "a()") None None = Ok (mkCall "a")
  /\ bearing test_custom (VStr "a") None None = Ok (mkFallback (VStr "a")).
Proof.
  destruct (bearing_shorthand test_custom "a") as [Hitem Hrest].
  - discriminate.
  - intros [Hin|[]]. discriminate Hin.
  - destruct Hrest as [Hattr Hmore].
    + intros [|c a] b Heq; [discriminate Heq|].
      cbn in Heq. injection Heq as _ Heq. destruct a; discriminate Heq.
    + destruct Hmore as [Hcall Hfallback]; [discriminate|].
      split; [exact Hitem|]. split; [exact Hattr|]. split; [exact Hcall|].
      apply Hfallback. discriminate.
Defined.

(** [bearing(5)] and [bearing("")]. *)
Lemma bearing_of_any_name_witness :
  bearing test_custom (VInt 5) None None = Ok (mkItem (VInt 5))
  /\ bearing test_custom (VStr "") None None = Raise TypeError.
Proof.
  destruct (bearing_of_any_name test_custom) as [Hany [Hempty _]].
  split; [apply Hany; reflexivity|apply Hempty; left; reflexivity].
Defined.

(** [Course("a//b")] *)
Lemma Course_of_path_text_witness :
  Course_init test_custom [] [CI_val (VStr "a//b")] = Raise TypeError.
Proof.
  apply (proj2 (Course_of_path_text test_custom)).
  right. left. reflexivity.
Defined.

(** The default surveyor on the origin of [nested_heap]. *)
Lemma chart_is_read_only_witness :
  snd (chart test_classes default_recursion_limit Surveyor_default (VRef 1) true
         nested_heap)
  = nested_heap.
Proof.
  apply (chart_is_read_only test_classes test_custom).
  repeat constructor.
Defined.

(** The chart of [{"a": {"b": 1}}]: both courses lead to their values. *)
Lemma chart_courses_fetch_witness :
  Forall (fun cv =>
            Course_fetch test_classes test_custom (fst cv) (VRef 1) NO_DEFAULT nested_heap
            = (Ok (snd cv), nested_heap))
    [([mkItem (VStr "a")], VRef 3);
     ([mkItem (VStr "a"); mkItem (VStr "b")], VInt 1)].
Proof.
  pose proof (chart_courses_fetch test_classes test_custom default_recursion_limit
                Surveyor_default (VRef 1) true nested_heap nested_heap) as H.
  cbv zeta in H. destruct H as [Hchart _].
  - repeat constructor.
  - intros l o Hl.
    destruct l as [|[|[|[|l]]]]; cbn in Hl; try discriminate Hl;
      injection Hl as <-; (split; [reflexivity|]); intros k v Hin; cbn in Hin;
      repeat (destruct Hin as [Hin|Hin]; [injection Hin as <- <-; split; reflexivity|]);
      destruct Hin.
  - apply Hchart. vm_compute. reflexivity.
Defined.

(** The chart of [{"a": "a value", "d": "d value"}]. *)
Lemma chart_flat_container_witness :
  chart test_classes default_recursion_limit Surveyor_default (VRef 1) true two_keys_heap
  = (Ok [([mkItem (VStr "a")], VStr "a value"); ([mkItem (VStr "d")], VStr "d value")],
     two_keys_heap).
Proof.
  destruct (chart_flat_container test_classes default_recursion_limit 1 "dict" true
              two_keys_heap) as [Hdict _].
  - unfold default_recursion_limit. lia.
  - apply (Hdict [(VStr "a", VStr "a value"); (VStr "d", VStr "d value")]).
    + reflexivity.
    + repeat constructor.
Defined.

(** [Coordinate(org=PORT / "a")] on the origin of [two_keys_heap]. *)
Lemma map_coordinate_one_to_one_witness :
  (_map_coordinate test_classes test_custom (base_cartographer 0) (VRef 1) (VRef 2)
     (reset (Coord (key_course "a"))) ;;; ret tt) two_keys_heap
  = (Ok tt, <[2 := ODict "dict" [(VStr "a", VStr "a value")]]> two_keys_heap).
Proof.
  destruct (map_coordinate_one_to_one test_classes test_custom (base_cartographer 0)
              (Coord (key_course "a")) (key_course "a") (VRef 1) (VRef 2) two_keys_heap)
    as [_ Hnone].
  - repeat split.
  - reflexivity.
  - discriminate.
  - rewrite (Hnone eq_refl). reflexivity.
Defined.

(** A coordinate with one origin and the empty tuple for its default. *)
Lemma single_origin_tuple_default_witness :
  _fetch_org_value test_classes test_custom (base_cartographer 0) (VRef 1)
    (reset {| org := One (key_course "a"); dst := None; clean_org := None;
              clean_dst := None; clean_value := None; default := VTuple [];
              clean := {| org_list := []; dst_list := []; default_list := [];
                          cd_value := VNone |} |})
    two_keys_heap
  = (Raise IndexError, two_keys_heap).
Proof.
  destruct (single_origin_tuple_default test_classes test_custom (base_cartographer 0)
              {| org := One (key_course "a"); dst := None; clean_org := None;
                 clean_dst := None; clean_value := None; default := VTuple [];
                 clean := {| org_list := []; dst_list := []; default_list := [];
                             cd_value := VNone |} |}
              (key_course "a") (VRef 1) two_keys_heap)
    as [_ [_ Hempty]].
  - repeat split.
  - reflexivity.
  - apply Hempty. reflexivity.
Defined.

(** [Coordinate(org=(PORT / "a", PORT / "d"))]: both values are placed
    under the key of the first origin, and the second one stays. *)
Lemma map_coordinate_many_origins_witness :
  (_map_coordinate test_classes test_custom (base_cartographer 0) (VRef 1) (VRef 2)
     (reset {| org := Many [key_course "a"; key_course "d"]; dst := None;
               clean_org := None; clean_dst := None; clean_value := None;
               default := NO_DEFAULT;
               clean := {| org_list := []; dst_list := []; default_list := [];
                           cd_value := VNone |} |}) ;;; ret tt) two_keys_heap
  = (Ok tt, <[2 := ODict "dict" [(VStr "a", VStr "d value")]]> two_keys_heap).
Proof.
  pose proof (map_coordinate_many_origins test_classes test_custom (base_cartographer 0)
                {| org := Many [key_course "a"; key_course "d"]; dst := None;
                   clean_org := None; clean_dst := None; clean_value := None;
                   default := NO_DEFAULT;
                   clean := {| org_list := []; dst_list := []; default_list := [];
                               cd_value := VNone |} |}
                (key_course "a") (key_course "d") [] (VRef 1) (VRef 2) two_keys_heap)
    as H.
  cbv zeta in H. destruct H as [_ [_ Hnone]].
  - repeat split.
  - reflexivity.
  - reflexivity.
  - rewrite (Hnone eq_refl). reflexivity.
Defined.

(** [{"a": "a value", "d": "d value"}] mapped onto an empty dict. *)
Lemma map_with_surveyor_copies_flat_dict_witness :
  Cartographer_map test_classes test_custom default_recursion_limit
    (base_cartographer 0) (VRef 1) (VRef 2) None (Some Surveyor_default) None
    two_keys_heap
  = (Ok tt,
     <[2 := ODict "dict" [(VStr "a", VStr "a value"); (VStr "d", VStr "d value")]]>
       two_keys_heap).
Proof.
  destruct (map_with_surveyor_copies_flat_dict test_classes test_custom
              default_recursion_limit (base_cartographer 0) 1 2
              [(VStr "a", VStr "a value"); (VStr "d", VStr "d value")] [] None
              two_keys_heap) as [Hmap Hcopy].
  - reflexivity.
  - reflexivity.
  - reflexivity.
  - unfold default_recursion_limit. lia.
  - lia.
  - reflexivity.
  - reflexivity.
  - repeat constructor.
  - intros i j e1 e2 Hi Hj Heq.
    destruct i as [|[|i]]; destruct j as [|[|j]]; cbn in Hi, Hj;
      try discriminate Hi; try discriminate Hj; try reflexivity;
      injection Hi as <-; injection Hj as <-; discriminate Heq.
  - rewrite Hcopy in Hmap. exact Hmap.
Defined.

(** A surveyor with one compass for dicts, on the integer 5. *)
Lemma chart_error_discipline_witness :
  let dicts_only :=
    {| _compasses := [{| _target_types := Some ["dict"]; _attrs := @Every string;
                         _items := @Every val; _calls := @Nothing string |}];
       _end_points := DEFAULT_END_POINTS |} in
  chart test_classes default_recursion_limit dicts_only (VInt 5) true []
  = (Raise (NonNavigableError (VInt 5)), [])
  /\ chart test_classes default_recursion_limit dicts_only (VInt 5) false []
     = (Raise (SuppressedErrors [NonNavigableError (VInt 5)] []), []).
Proof.
  intros dicts_only.
  destruct (chart_error_discipline test_classes test_custom default_recursion_limit
              dicts_only (VInt 5) []) as [_ [_ Hnone]].
  - repeat constructor.
  - apply Hnone.
    + unfold default_recursion_limit. lia.
    + intros compass [<-|[]]. reflexivity.
Defined.


(** The course of a coordinate is not mapped again by the survey. *)
Lemma survey_skips_mapped_courses_witness :
  _map_survey_chart test_classes test_custom (base_cartographer 0) (VRef 1) (VRef 2)
    true [key_course "a"] [(key_course "a", VStr "a value")] [] two_keys_heap
  = (Ok ([], [key_course "a"]), two_keys_heap).
Proof.
  destruct (survey_skips_mapped_courses test_classes test_custom (base_cartographer 0)
              (VRef 1) (VRef 2) true [key_course "a"]) as [Hmapped Hskip].
  apply Hskip. constructor; [|constructor].
  apply (Hmapped (key_course "a") (key_course "a") [] []); [left; reflexivity|].
  left. reflexivity.
Defined.

(** C5 on the origin [{"a": "a value", "n": {"x": 1}}], the destination
    [{"out": {}}] and [five_coordinates]: the keys ["b"], ["zz"] and ["c"]
    are missing, the destination takes ["a"] and, in its nested dict, the
    value found at [n / x] under ["y"]. *)
Lemma C5_three_of_five_witness :
  Cartographer_map test_classes test_custom default_recursion_limit
    (base_cartographer 0) (VRef 1) (VRef 2) (Some five_coordinates) None (Some false)
    five_heap
  = (Raise (SuppressedErrors
              [NullNameError (mkFallback (VStr "b"));
               NullNameError (mkFallback (VStr "zz"));
               NullNameError (mkFallback (VStr "c"))] []),
     <[4 := ODict "dict" [(VStr "y", VInt 1)]]>
       (<[2 := ODict "dict" [(VStr "out", VRef 4); (VStr "a", VStr "a value")]]>
          five_heap))
  /\ length
       (List.filter is_applied
          [Applied; Failed (NullNameError (mkFallback (VStr "b"))); Applied;
           Failed (NullNameError (mkFallback (VStr "zz")));
           Failed (NullNameError (mkFallback (VStr "c")))]) = 2.
Proof.
  destruct (C5_map_suppressed_three_of_five test_classes test_custom
              default_recursion_limit (base_cartographer 0) (VRef 1) (VRef 2))
    as [Hfive [_ [_ Happlied]]].
  cbv zeta in Hfive, Happlied.
  apply (Hfive five_coordinates
           [Applied; Failed (NullNameError (mkFallback (VStr "b"))); Applied;
            Failed (NullNameError (mkFallback (VStr "zz")));
            Failed (NullNameError (mkFallback (VStr "c")))]
           five_heap); [|reflexivity|reflexivity].
  unfold five_coordinates.
  destruct (Happlied (Coord (key_course "a")) (key_course "a") [] (VStr "a")
              (VStr "a value") 2 [(VStr "out", VRef 4)] five_heap)
    as [(first & Hfirst & Horg) _];
    [repeat split | reflexivity | discriminate | reflexivity | constructor
    | reflexivity | reflexivity | reflexivity | reflexivity |].
  eapply turn_applied; [exact Hfirst|exact Horg|].
  eapply turn_failed; [vm_compute; reflexivity|].
  destruct (Happlied
              (Coord_to [mkFallback (VStr "n"); mkFallback (VStr "x")]
                        [mkFallback (VStr "out"); mkFallback (VStr "y")])
              [mkFallback (VStr "n"); mkFallback (VStr "x")]
              [mkFallback (VStr "out")] (VStr "y") (VInt 1) 4 []
              (<[2 := ODict "dict" [(VStr "out", VRef 4); (VStr "a", VStr "a value")]]>
                 five_heap))
    as [(third & Hthird & Horg3) _];
    [repeat split | reflexivity | discriminate | reflexivity | repeat constructor
    | reflexivity | reflexivity | reflexivity | reflexivity |].
  eapply turn_applied; [exact Hthird|exact Horg3|].
  eapply turn_failed; [vm_compute; reflexivity|].
  eapply turn_failed; [vm_compute; reflexivity|].
  apply turn_none.
Defined.
